(** * Station-model symbology: the symbol compiler and the decode worker

    A shallow embedding of [main.js] ([meteoStation], [windSpeedSymbolMatch],
    [createTextElement], [loadSVGIcon]), of [main_worker.js] ([onmessage],
    [handleMessage], [processQueue], [decodeSynop]) and of the Leaflet wrapper
    ([_main]), together with the part of the JavaScript semantics the code
    relies on: IEEE-754 numbers and their decimal rendering, loose equality,
    property access that throws on [null] and [undefined], and a DOM store
    with re-parenting [appendChild]. *)

From Stdlib Require Import ZArith QArith Qround List String Ascii Bool Lia.
From Stdlib Require Import PrimFloat FloatOps SpecFloat FloatAxioms.
From Stdlib Require Uint63.
Import ListNotations.
Set Warnings "-inexact-float,-register-all".

Open Scope string_scope.
Open Scope Z_scope.

(** ** JavaScript numbers *)

Module JSNumber.

(** Decimal digits of a non-negative integer, most significant first. *)
Fixpoint digits_fuel (fuel : nat) (n : Z) (acc : string) : string :=
  match fuel with
  | O => acc
  | S f =>
      let acc' := String (ascii_of_nat (48 + Z.to_nat (n mod 10))) acc in
      if n <? 10 then acc' else digits_fuel f (n / 10) acc'
  end.

Definition Z_digits (n : Z) : string :=
  digits_fuel (S (Z.to_nat (Z.log2 n))) n "".

Fixpoint zeros (n : nat) : string :=
  match n with O => "" | S k => String "0" (zeros k) end.

(** The exact value of a finite double [m * 2^e]. *)
Definition Qpow2 (e : Z) : Q := Qpower (2 # 1) e.
Definition Qpow10 (e : Z) : Q := Qpower (10 # 1) e.
Definition Qval (m : positive) (e : Z) : Q := ((Zpos m # 1) * Qpow2 e)%Q.

Definition Qleb (a b : Q) : bool := Qle_bool a b.
Definition Qltb (a b : Q) : bool := negb (Qle_bool b a).

(** The reals that round to [m * 2^e] under round-to-nearest-even: the
    interval between the midpoints to the two neighbouring doubles, closed
    exactly when the mantissa is even. *)
Definition rounds_to (m : positive) (e : Z) (v : Q) : bool :=
  let x := Qval m e in
  let up := Qpow2 (e - 1) in
  let down := if (Zpos m =? 2 ^ 52) && (-1074 <? e) then Qpow2 (e - 2) else Qpow2 (e - 1) in
  if Z.even (Zpos m)
  then Qleb (x - down)%Q v && Qleb v (x + up)%Q
  else Qltb (x - down)%Q v && Qltb v (x + up)%Q.

(** The [n] with [10^(n-1) <= x < 10^n]. *)
Fixpoint dec_exp_up (fuel : nat) (x : Q) (n : Z) : Z :=
  match fuel with
  | O => n
  | S f => if Qleb (Qpow10 n) x then dec_exp_up f x (n + 1) else n
  end.

Fixpoint dec_exp_down (fuel : nat) (x : Q) (n : Z) : Z :=
  match fuel with
  | O => n
  | S f => if Qltb x (Qpow10 (n - 1)) then dec_exp_down f x (n - 1) else n
  end.

Definition dec_exp (m : positive) (e : Z) : Z :=
  let x := Qval m e in
  let guess := ((e + Z.log2 (Zpos m)) * 30103) / 100000 in
  dec_exp_up 8 x (dec_exp_down 8 x guess).

(** Number::toString, step 5: the shortest digit string [s] (with [k] digits)
    and exponent [n] such that [s * 10^(n-k)] rounds to the number; among
    several [s] of that length the closest one, the even one on a tie. *)
Fixpoint shortest_from (fuel : nat) (m : positive) (e n0 k : Z) : Z * Z * Z :=
  let x := Qval m e in
  let scale := Qpow10 (n0 - k) in
  let c1 := Qfloor (x / scale)%Q in
  let c2 := c1 + 1 in
  let v1 := (inject_Z c1 * scale)%Q in
  let v2 := (inject_Z c2 * scale)%Q in
  let ok1 := rounds_to m e v1 in
  let ok2 := rounds_to m e v2 in
  let pick (c : Z) := if c =? 10 ^ k then (10 ^ (k - 1), k, n0 + 1) else (c, k, n0) in
  match fuel with
  | O => (c1, k, n0)
  | S f =>
      if ok1 && ok2 then
        match Qcompare (x - v1)%Q (v2 - x)%Q with
        | Lt => pick c1
        | Gt => pick c2
        | Eq => if Z.even c1 then pick c1 else pick c2
        end
      else if ok1 then pick c1
      else if ok2 then pick c2
      else shortest_from f m e n0 (k + 1)
  end.

Definition shortest (m : positive) (e : Z) : Z * Z * Z :=
  shortest_from 17 m e (dec_exp m e) 1.

Definition exp_part (n : Z) : string :=
  "e" ++ (if 0 <=? n - 1 then "+" else "-") ++ Z_digits (Z.abs (n - 1)).

(** Number::toString, steps 6 to 10: plain decimals for [-6 < n <= 21],
    exponent notation outside. *)
Definition format_digits (s k n : Z) : string :=
  let d := Z_digits s in
  if (k <=? n) && (n <=? 21) then d ++ zeros (Z.to_nat (n - k))
  else if (0 <? n) && (n <=? 21) then
    substring 0 (Z.to_nat n) d ++ "." ++ substring (Z.to_nat n) (Z.to_nat (k - n)) d
  else if (-6 <? n) && (n <=? 0) then "0." ++ zeros (Z.to_nat (- n)) ++ d
  else if k =? 1 then d ++ exp_part n
  else substring 0 1 d ++ "." ++ substring 1 (Z.to_nat (k - 1)) d ++ exp_part n.

(** Number::toString(x) in radix 10. *)
Definition to_string (x : float) : string :=
  match Prim2SF x with
  | S754_nan => "NaN"
  | S754_zero _ => "0"
  | S754_infinity false => "Infinity"
  | S754_infinity true => "-Infinity"
  | S754_finite sg m e =>
      let '(s, k, n) := shortest m e in
      (if sg then "-" else "") ++ format_digits s k n
  end.

End JSNumber.

Module JSFloat.

Definition of_Z (z : Z) : float :=
  if z <? 0 then (- of_uint63 (Uint63.of_Z (- z)))%float else of_uint63 (Uint63.of_Z z).

Definition of_nat (n : nat) : float := of_Z (Z.of_nat n).

(** The double nearest to [num / den] (ties to even), for a positive
    rational: what reading a decimal literal produces. *)
Definition round_pos (num den : positive) : float :=
  let lg := Z.log2 (Zpos num) - Z.log2 (Zpos den) in
  let e0 := Z.max (lg - 53) (-1074) in
  let ge (e : Z) : bool :=
    (* 2^(e+53) <= num/den *)
    if 0 <=? e + 53 then Zpos den * 2 ^ (e + 53) <=? Zpos num
    else Zpos den <=? Zpos num * 2 ^ (- (e + 53)) in
  let e := if ge e0 then e0 + 1 else e0 in
  let n' := if 0 <=? e then Zpos num else Zpos num * 2 ^ (- e) in
  let d' := if 0 <=? e then Zpos den * 2 ^ e else Zpos den in
  let q := n' / d' in
  let r := n' mod d' in
  let mant :=
    match 2 * r ?= d' with
    | Lt => q
    | Gt => q + 1
    | Eq => if Z.even q then q else q + 1
    end in
  if 1024 <? e + Z.log2 mant + 1 then infinity
  else Z.ldexp (of_uint63 (Uint63.of_Z mant)) e.

(** [x % y] on doubles: the remainder of the truncating division, exact, with
    the sign of the dividend. *)
Definition rem (x y : float) : float :=
  match Prim2SF x, Prim2SF y with
  | S754_nan, _ | _, S754_nan => nan
  | S754_infinity _, _ => nan
  | _, S754_zero _ => nan
  | _, S754_infinity _ => x
  | S754_zero _, _ => x
  | S754_finite sx mx ex, S754_finite _ my ey =>
      let e := Z.min ex ey in
      let r := (Zpos mx * 2 ^ (ex - e)) mod (Zpos my * 2 ^ (ey - e)) in
      let f := Z.ldexp (of_uint63 (Uint63.of_Z r)) e in
      if sx then (- f)%float else f
  end.

(** [Math.round]: the nearest integer, the larger one at a half. *)
Definition round (x : float) : float :=
  match Prim2SF x with
  | S754_finite sg m e =>
      if 0 <=? e then x
      else
        let n := if sg then - Zpos m else Zpos m in
        let r := (2 * n + 2 ^ (- e)) / 2 ^ (1 - e) in
        if r =? 0 then (if sg then neg_zero else zero) else of_Z r
  | _ => x
  end.

End JSFloat.

(** ** JavaScript strings *)

Module JSString.

Fixpoint repeat_char (c : ascii) (n : nat) : string :=
  match n with O => "" | S k => String c (repeat_char c k) end.

(** [s.padStart(n, "0")]. *)
Definition padStart0 (n : nat) (s : string) : string :=
  repeat_char "0" (n - String.length s) ++ s.

(** [s.slice(-n)]: the last [n] characters, all of [s] when it is shorter. *)
Definition slice_last (n : nat) (s : string) : string :=
  substring (String.length s - n) n s.

(** [s.slice(n)] and [s.substring(n)] for [n >= 0]. *)
Definition slice_from (n : nat) (s : string) : string :=
  substring n (String.length s - n) s.

Definition is_space (c : ascii) : bool :=
  let n := nat_of_ascii c in
  ((9 <=? n) && (n <=? 13))%nat || (n =? 32)%nat.

Fixpoint trim_left (s : string) : string :=
  match s with
  | String c r => if is_space c then trim_left r else s
  | EmptyString => s
  end.

Fixpoint rev_acc (s acc : string) : string :=
  match s with
  | String c r => rev_acc r (String c acc)
  | EmptyString => acc
  end.

Definition trim (s : string) : string :=
  rev_acc (trim_left (rev_acc (trim_left s) "")) "".

Definition digit_of (base : Z) (c : ascii) : option Z :=
  let n := Z.of_nat (nat_of_ascii c) in
  let d :=
    if (48 <=? n) && (n <=? 57) then n - 48
    else if (97 <=? n) && (n <=? 122) then n - 87
    else if (65 <=? n) && (n <=? 90) then n - 55
    else 99 in
  if d <? base then Some d else None.

(** The longest prefix of digits in [base]: its value, its length, the rest. *)
Fixpoint read_digits (base : Z) (s : string) (acc : Z) (len : nat) : Z * nat * string :=
  match s with
  | String c r =>
      match digit_of base c with
      | Some d => read_digits base r (acc * base + d) (S len)
      | None => (acc, len, s)
      end
  | EmptyString => (acc, len, s)
  end.

Definition signed (neg : bool) (x : float) : float := if neg then (- x)%float else x.

Definition of_decimal (neg : bool) (mant exp10 : Z) : float :=
  if mant <=? 0 then signed neg zero
  else if 0 <=? exp10 then
    signed neg (JSFloat.round_pos (Z.to_pos (mant * 10 ^ exp10)) 1)
  else
    signed neg (JSFloat.round_pos (Z.to_pos mant) (Z.to_pos (10 ^ (- exp10)))).

(** The exponent part [e±ddd] of a decimal literal, or nothing. *)
Definition read_exponent (s : string) : option (Z * string) :=
  match s with
  | String c r =>
      if (Ascii.eqb c "e" || Ascii.eqb c "E")%bool then
        let '(neg, r') :=
          match r with
          | String "+" t => (false, t)
          | String "-" t => (true, t)
          | _ => (false, r)
          end in
        let '(v, len, rest) := read_digits 10 r' 0 0 in
        if (len =? 0)%nat then None else Some (if neg then - v else v, rest)
      else Some (0, s)
  | EmptyString => Some (0, s)
  end.

(** StrDecimalLiteral without its sign. *)
Definition read_decimal (neg : bool) (s : string) : float :=
  if String.eqb s "Infinity" then signed neg infinity else
  let '(ip, ilen, r1) := read_digits 10 s 0 0 in
  let '(fp, flen, r2) :=
    match r1 with
    | String "." t => read_digits 10 t ip 0
    | _ => (ip, 0%nat, r1)
    end in
  if ((ilen + flen =? 0)%nat) then nan else
  match read_exponent r2 with
  | Some (ex, EmptyString) => of_decimal neg fp (ex - Z.of_nat flen)
  | _ => nan
  end.

Definition read_radix (base : Z) (s : string) : float :=
  let '(v, len, rest) := read_digits base s 0 0 in
  match rest with
  | EmptyString => if (len =? 0)%nat then nan else of_decimal false v 0
  | _ => nan
  end.

(** StringToNumber: the value of a StringNumericLiteral, [NaN] for any other
    text.  Only the ASCII white space is trimmed. *)
Definition to_number (s : string) : float :=
  match trim s with
  | EmptyString => zero
  | String "0" (String "x" r) | String "0" (String "X" r) => read_radix 16 r
  | String "0" (String "o" r) | String "0" (String "O" r) => read_radix 8 r
  | String "0" (String "b" r) | String "0" (String "B" r) => read_radix 2 r
  | String "+" r => read_decimal false r
  | String "-" r => read_decimal true r
  | t => read_decimal false t
  end.

End JSString.

(** ** JavaScript values

    What [JSON.parse] and structured cloning produce, and [undefined]. An
    object keeps its keys in insertion order ([Object.entries] walks them in
    that order). *)

Inductive value : Type :=
| VUndef
| VNull
| VBool (b : bool)
| VNum (x : float)
| VStr (s : string)
| VArr (items : list value)
| VObj (fields : list (string * value)).

Inductive exn : Type :=
| TypeError (msg : string)
| Error (msg : string).

Inductive result (A : Type) : Type :=
| Ok (a : A)
| Throw (e : exn).
Arguments Ok {A} a.
Arguments Throw {A} e.

Module JS.

Definition num (z : Z) : value := VNum (JSFloat.of_Z z).

Fixpoint lookup (k : string) (l : list (string * value)) : option value :=
  match l with
  | [] => None
  | (k', v) :: r => if String.eqb k k' then Some v else lookup k r
  end.

(** [o.k = v]: an existing key keeps its place, a new one goes last. *)
Fixpoint assign (k : string) (v : value) (l : list (string * value)) : list (string * value) :=
  match l with
  | [] => [(k, v)]
  | (k', v') :: r => if String.eqb k k' then (k, v) :: r else (k', v') :: assign k v r
  end.

(** The array index a property key denotes, if it is the canonical decimal
    text of one. *)
Definition index_of_key (k : string) : option nat :=
  let '(v, len, rest) := JSString.read_digits 10 k 0 0 in
  if (negb (len =? 0)%nat && String.eqb rest "" && String.eqb (JSNumber.Z_digits v) k)%bool
  then Some (Z.to_nat v) else None.

Definition char_at (s : string) (i : nat) : value :=
  match String.get i s with Some c => VStr (String c "") | None => VUndef end.

(** ToString; of an object, through the [toString] of [Object.prototype]
    (see [plain] below). *)
Fixpoint to_str (v : value) : string :=
  match v with
  | VUndef => "undefined"
  | VNull => "null"
  | VBool true => "true"
  | VBool false => "false"
  | VNum x => JSNumber.to_string x
  | VStr s => s
  | VArr l =>
      String.concat ","
        (map (fun e => match e with VUndef | VNull => "" | _ => to_str e end) l)
  | VObj _ => "[object Object]"
  end.

(** ToNumber; an array or object goes through its string. *)
Definition to_num (v : value) : float :=
  match v with
  | VUndef => nan
  | VNull => zero
  | VBool true => one
  | VBool false => zero
  | VNum x => x
  | VStr s => JSString.to_number s
  | VArr _ | VObj _ => JSString.to_number (to_str v)
  end.

(** ToBoolean. *)
Definition truthy (v : value) : bool :=
  match v with
  | VUndef | VNull => false
  | VBool b => b
  | VNum x => negb (PrimFloat.is_nan x || PrimFloat.is_zero x)
  | VStr s => negb (String.eqb s "")
  | VArr _ | VObj _ => true
  end.

(** [v.k]: reading a property of [null] or [undefined] throws. *)
Definition get (v : value) (k : string) : result value :=
  match v with
  | VUndef => Throw (TypeError ("Cannot read properties of undefined (reading '" ++ k ++ "')"))
  | VNull => Throw (TypeError ("Cannot read properties of null (reading '" ++ k ++ "')"))
  | VObj l => Ok (match lookup k l with Some x => x | None => VUndef end)
  | VArr l =>
      if String.eqb k "length" then Ok (VNum (JSFloat.of_nat (List.length l)))
      else match index_of_key k with
           | Some i => Ok (nth i l VUndef)
           | None => Ok VUndef
           end
  | VStr s =>
      if String.eqb k "length" then Ok (VNum (JSFloat.of_nat (String.length s)))
      else match index_of_key k with
           | Some i => Ok (char_at s i)
           | None => Ok VUndef
           end
  | VBool _ | VNum _ => Ok VUndef
  end.

(** [v[i]] for a literal index. *)
Definition get_index (v : value) (i : nat) : result value :=
  get v (JSNumber.Z_digits (Z.of_nat i)).

(** [v.hasOwnProperty(k)], the method being the one of [Object.prototype]
    (see [plain] below). *)
Definition hasOwnProperty (v : value) (k : string) : result bool :=
  match v with
  | VUndef => Throw (TypeError "Cannot read properties of undefined (reading 'hasOwnProperty')")
  | VNull => Throw (TypeError "Cannot read properties of null (reading 'hasOwnProperty')")
  | VObj l => Ok (match lookup k l with Some _ => true | None => false end)
  | VArr l =>
      Ok (String.eqb k "length"
          || match index_of_key k with Some i => (i <? List.length l)%nat | None => false end)
  | VStr s =>
      Ok (String.eqb k "length"
          || match index_of_key k with Some i => (i <? String.length s)%nat | None => false end)
  | VBool _ | VNum _ => Ok false
  end.

(** The values the definitions above describe. [v.hasOwnProperty(k)] is a
    method call, and [ToString] and [ToNumber] of an object call its
    [toString] and [valueOf]: on an object that owns a key of one of these
    names, which hides the method of [Object.prototype] behind a value that
    cannot be called, the source raises a [TypeError] where [hasOwnProperty],
    [to_str] and [to_num] return. [plain v] holds when no object within [v]
    owns such a key; the records of the decoder's schema are plain. *)
Definition shadows_method (k : string) : bool :=
  (String.eqb k "hasOwnProperty" || String.eqb k "toString" || String.eqb k "valueOf")%bool.

Fixpoint plain (v : value) : bool :=
  match v with
  | VArr l =>
      (fix all (l : list value) : bool :=
         match l with
         | [] => true
         | x :: r => plain x && all r
         end) l
  | VObj l =>
      (fix all (l : list (string * value)) : bool :=
         match l with
         | [] => true
         | (k, x) :: r => negb (shadows_method k) && plain x && all r
         end) l
  | _ => true
  end.

Fixpoint index_entries (i : nat) (l : list value) : list (string * value) :=
  match l with
  | [] => []
  | v :: r => (JSNumber.Z_digits (Z.of_nat i), v) :: index_entries (S i) r
  end.

(** [Object.entries(v)] for a value that is not [null] or [undefined]. *)
Definition entries (v : value) : list (string * value) :=
  match v with
  | VObj l => l
  | VArr l => index_entries 0 l
  | VStr s => index_entries 0 (map (fun c => VStr (String c "")) (list_ascii_of_string s))
  | _ => []
  end.

(** [v == null]. *)
Definition is_nullish (v : value) : bool :=
  match v with VUndef | VNull => true | _ => false end.

(** [v == x] for a number [x]. *)
Definition eq_num (v : value) (x : float) : bool :=
  match v with
  | VUndef | VNull => false
  | _ => PrimFloat.eqb (to_num v) x
  end.

(** [v == true], [v == false]: the boolean is compared as a number. *)
Definition eq_bool (v : value) (b : bool) : bool :=
  eq_num v (if b then one else zero).

(** [v == s] for a string [s]. *)
Definition eq_str (v : value) (s : string) : bool :=
  match v with
  | VUndef | VNull => false
  | VStr t => String.eqb t s
  | VArr _ | VObj _ => String.eqb (to_str v) s
  | VBool _ | VNum _ => PrimFloat.eqb (to_num v) (JSString.to_number s)
  end.

(** [v === x] for a number [x]; also the SameValueZero test of
    [Array.prototype.includes] when [x] is not [NaN]. *)
Definition strict_eq_num (v : value) (x : float) : bool :=
  match v with VNum y => PrimFloat.eqb y x | _ => false end.

(** [a === b]. An object or array is identical only to itself, and the two
    sides compared in this program never are the same object (one of them
    went through a structured clone). *)
Definition strict_eq (a b : value) : bool :=
  match a, b with
  | VUndef, VUndef | VNull, VNull => true
  | VBool p, VBool q => Bool.eqb p q
  | VNum p, VNum q => PrimFloat.eqb p q
  | VStr p, VStr q => String.eqb p q
  | _, _ => false
  end.

Definition is_stringy (v : value) : bool :=
  match v with VStr _ | VArr _ | VObj _ => true | _ => false end.

(** [a + b]. *)
Definition add (a b : value) : value :=
  if (is_stringy a || is_stringy b)%bool then VStr (to_str a ++ to_str b)
  else VNum (to_num a + to_num b)%float.

(** [a * b], [a / b], [a % b], [Math.abs(a)], [Math.round(a)]. *)
Definition mul (a b : value) : float := (to_num a * to_num b)%float.
Definition div (a b : value) : float := (to_num a / to_num b)%float.
Definition rem (a b : value) : float := JSFloat.rem (to_num a) (to_num b).
Definition abs (a : value) : float := PrimFloat.abs (to_num a).
Definition round (a : value) : float := JSFloat.round (to_num a).

(** [a < x], [a <= x], [a > x], [a >= x] against a number [x]. *)
Definition lt_num (a : value) (x : float) : bool := PrimFloat.ltb (to_num a) x.
Definition le_num (a : value) (x : float) : bool := PrimFloat.leb (to_num a) x.
Definition gt_num (a : value) (x : float) : bool := PrimFloat.ltb x (to_num a).
Definition ge_num (a : value) (x : float) : bool := PrimFloat.leb x (to_num a).

End JS.

(** ** Evaluating expressions that may throw *)

Definition rbind {A B : Type} (r : result A) (f : A -> result B) : result B :=
  match r with Ok a => f a | Throw e => Throw e end.

Definition rmap {A B : Type} (f : A -> B) (r : result A) : result B :=
  rbind r (fun a => Ok (f a)).

(** [a && b] and [a || b] on conditions: the right operand is not evaluated
    (and cannot throw) when the left one decides. *)
Definition rand (a b : result bool) : result bool :=
  rbind a (fun x => if x then b else Ok false).
Definition ror (a b : result bool) : result bool :=
  rbind a (fun x => if x then Ok true else b).

(** [r.k], [r[i]] and [r.hasOwnProperty(k)] on the result of a sub-expression. *)
Definition dot (r : result value) (k : string) : result value :=
  rbind r (fun v => JS.get v k).
Definition at_index (r : result value) (i : nat) : result value :=
  rbind r (fun v => JS.get_index v i).
Definition has (r : result value) (k : string) : result bool :=
  rbind r (fun v => JS.hasOwnProperty v k).

Declare Scope js_scope.
Delimit Scope js_scope with js.
Notation "r ./ k" := (dot r k) (at level 40, left associativity) : js_scope.
Notation "a <&&> b" := (rand a b) (at level 42, right associativity) : js_scope.
Notation "a <||> b" := (ror a b) (at level 52, right associativity) : js_scope.
Open Scope js_scope.

Definition not_null (r : result value) : result bool :=
  rmap (fun v => negb (JS.is_nullish v)) r.
Definition is_num (r : result value) (x : float) : result bool :=
  rmap (fun v => JS.eq_num v x) r.
Definition isnt_num (r : result value) (x : float) : result bool :=
  rmap (fun v => negb (JS.eq_num v x)) r.
Definition is_bool (r : result value) (b : bool) : result bool :=
  rmap (fun v => JS.eq_bool v b) r.

(** ** The DOM store

    Elements are mutable objects: the store keeps the 26 slot groups of
    [plottingModelSlotsContent], the root [svg] element, and every other
    element in creation order.  A child list holds references. *)

Inductive handle : Type :=
| HSvg
| HSlot (i : nat)
| HNode (n : nat).

Definition handle_eqb (a b : handle) : bool :=
  match a, b with
  | HSvg, HSvg => true
  | HSlot i, HSlot j => Nat.eqb i j
  | HNode i, HNode j => Nat.eqb i j
  | _, _ => false
  end.

Record node : Type := mkNode {
  tag : string;
  source : option string;            (* the path an icon was loaded from *)
  attrs : list (string * string);
  innerHTML : string;
  kids : list handle
}.

Record store : Type := mkStore {
  slots : list node;
  svg : node;
  nodes : list node
}.

Module Dom.

Definition fresh (t : string) (src : option string) : node := mkNode t src [] "" [].

Fixpoint set_attr (k v : string) (l : list (string * string)) : list (string * string) :=
  match l with
  | [] => [(k, v)]
  | (k', v') :: r => if String.eqb k k' then (k, v) :: r else (k', v') :: set_attr k v r
  end.

Fixpoint get_attr (k : string) (l : list (string * string)) : option string :=
  match l with
  | [] => None
  | (k', v) :: r => if String.eqb k k' then Some v else get_attr k r
  end.

Fixpoint update_nth {A : Type} (n : nat) (f : A -> A) (l : list A) : list A :=
  match l, n with
  | [], _ => []
  | a :: r, O => f a :: r
  | a :: r, S m => a :: update_nth m f r
  end.

Definition lookup (s : store) (h : handle) : option node :=
  match h with
  | HSvg => Some (svg s)
  | HSlot i => nth_error (slots s) i
  | HNode n => nth_error (nodes s) n
  end.

Definition update (h : handle) (f : node -> node) (s : store) : store :=
  match h with
  | HSvg => mkStore (slots s) (f (svg s)) (nodes s)
  | HSlot i => mkStore (update_nth i f (slots s)) (svg s) (nodes s)
  | HNode n => mkStore (slots s) (svg s) (update_nth n f (nodes s))
  end.

Definition with_attr (k v : string) (n : node) : node :=
  mkNode (tag n) (source n) (set_attr k v (attrs n)) (innerHTML n) (kids n).

Definition with_html (t : string) (n : node) : node :=
  mkNode (tag n) (source n) (attrs n) t (kids n).

Definition without_kid (c : handle) (n : node) : node :=
  mkNode (tag n) (source n) (attrs n) (innerHTML n)
         (filter (fun h => negb (handle_eqb h c)) (kids n)).

Definition with_kid (c : handle) (n : node) : node :=
  mkNode (tag n) (source n) (attrs n) (innerHTML n) (kids n ++ [c]).

(** A node has at most one parent: taking [c] out of every child list takes
    it out of its parent's. *)
Definition detach (c : handle) (s : store) : store :=
  mkStore (map (without_kid c) (slots s)) (without_kid c (svg s))
          (map (without_kid c) (nodes s)).

(** [p.appendChild(c)]: [c] leaves its current parent and becomes the last
    child of [p]. *)
Definition append (p c : handle) (s : store) : store :=
  update p (with_kid c) (detach c s).

End Dom.

(** ** The state of one [meteoStation] call and of the module around it *)

Record reply : Type := mkReply {
  decoded : value;
  leafletID : value
}.

Record request : Type := mkRequest {
  SYNOP_raw : value;
  request_leafletID : value
}.

Record state : Type := mkState {
  dom : store;
  var_x : float;                     (* [var x], [var y] of meteoStation *)
  var_y : float;
  decodedSynops : list reply;        (* the module-level result table *)
  posted : list request;             (* messages sent to the worker *)
  console : list string              (* console.warn and console.error *)
}.

Definition M (A : Type) : Type := state -> result A * state.

Definition ret {A : Type} (a : A) : M A := fun st => (Ok a, st).

Definition bind {A B : Type} (m : M A) (f : A -> M B) : M B :=
  fun st =>
    match m st with
    | (Ok a, st') => f a st'
    | (Throw e, st') => (Throw e, st')
    end.

Definition throw {A : Type} (e : exn) : M A := fun st => (Throw e, st).

Definition lift {A : Type} (r : result A) : M A := fun st => (r, st).

Notation "x <- m ;; k" := (bind m (fun x => k))
  (at level 61, m at next level, right associativity) : js_scope.
Notation "m ;; k" := (bind m (fun _ => k))
  (at level 61, right associativity) : js_scope.
Notation "' p <- m ;; k" := (bind m (fun a => match a with p => k end))
  (at level 61, p pattern, m at next level, right associativity) : js_scope.

Definition when (b : bool) (m : M unit) : M unit := if b then m else ret tt.

Definition modify_dom (f : store -> store) : M unit :=
  fun st => (Ok tt, mkState (f (dom st)) (var_x st) (var_y st) (decodedSynops st) (posted st) (console st)).

Definition str (f : float) : string := JSNumber.to_string f.

(** [decodedData.a.b.c = v] on the record itself. *)
Fixpoint set_path (p : list string) (nv : value) (v : value) : value :=
  match p with
  | [] => nv
  | k :: r =>
      match v with
      | VObj l =>
          VObj (JS.assign k
                  (set_path r nv (match JS.lookup k l with Some c => c | None => VUndef end)) l)
      | VArr l =>
          match JS.index_of_key k with
          | Some i => VArr (Dom.update_nth i (set_path r nv) l)
          | None => v
          end
      | _ => v
      end
  end.

(** ** main.js *)

(** [windSpeedSymbolMatch(speed, sourceUnit)]: the two-digit number in the
    file name of the wind symbol. With an unknown unit [symbolFileNumber]
    stays [undefined] (and the function logs an error, see
    [windSpeedSymbolMatch_error]). *)
Definition windSpeedSymbolMatch (speed sourceUnit : value) : string :=
  let symbolFileNumber :=
    match sourceUnit with
    | VStr "m/s" => VNum (JS.round (VNum (JS.div speed (VNum 2.5))))
    | VStr "KT" => VNum (JS.round (VNum (JS.div speed (VNum 5))))
    | _ => VUndef
    end in
  JSString.padStart0 2 (JS.to_str symbolFileNumber).

Definition windSpeedSymbolMatch_error (sourceUnit : value) : list string :=
  match sourceUnit with
  | VStr "m/s" | VStr "KT" => []
  | _ => ["Wind speed unit is unknown!"]
  end.

(** The merged options. [scaling] is whatever the merge left under that
    key: by default an object with [stationModel] and [font]. *)
Record options : Type := mkOptions {
  scaling : value;
  polyChromatic : bool;
  highCloudsInRed : bool;
  temperature : string;
  dewPoint : string;
  elementsToOmit : list value;
  debug : bool
}.

(** A [scaling] object as a caller writes it. *)
Record scaling_options : Type := mkScaling {
  stationModel : value;
  font : value
}.

Definition scaling_object (s : scaling_options) : value :=
  VObj [("stationModel", stationModel s); ("font", font s)].

(** The options a caller passes: any key may be missing, and [scaling], when
    given, is an object. (Merged options with any other [scaling] are the
    argument of [meteoStation_with] below.) *)
Record user_options : Type := mkUserOptions {
  u_scaling : option scaling_options;
  u_polyChromatic : option bool;
  u_highCloudsInRed : option bool;
  u_temperature : option string;
  u_dewPoint : option string;
  u_elementsToOmit : option (list value);
  u_debug : option bool
}.

Definition defaultOptions : options :=
  mkOptions (scaling_object (mkScaling (JS.num 1) (JS.num 1))) true true "raw" "raw" [] false.

Definition or_default {A : Type} (u : option A) (d : A) : A :=
  match u with Some a => a | None => d end.

(** [Object.assign(defaultOptions, userOptions)]: a shallow merge. *)
Definition Object_assign (d : options) (u : user_options) : options :=
  mkOptions (or_default (option_map scaling_object (u_scaling u)) (scaling d))
            (or_default (u_polyChromatic u) (polyChromatic d))
            (or_default (u_highCloudsInRed u) (highCloudsInRed d))
            (or_default (u_temperature u) (temperature d))
            (or_default (u_dewPoint u) (dewPoint d))
            (or_default (u_elementsToOmit u) (elementsToOmit d))
            (or_default (u_debug u) (debug d)).

Definition no_user_options : user_options :=
  mkUserOptions None None None None None None None.

Record synop_data : Type := mkData {
  rawSynop : value;
  data_leafletID : value
}.

Definition red_filter : string :=
  "filter: brightness(0) saturate(100%) invert(20%) sepia(99%) saturate(5695%) hue-rotate(356deg) brightness(105%) contrast(120%);".

Section Compiler.

(** Whether a GET of the path answers 200 with an SVG document; anything
    else leaves [loadSVGIcon] with [null]. *)
Variable http_ok : string -> bool.

Definition createElementNS (t : string) (src : option string) : M nat :=
  fun st =>
    let s := dom st in
    (Ok (List.length (nodes s)),
     mkState (mkStore (slots s) (svg s) (nodes s ++ [Dom.fresh t src]))
             (var_x st) (var_y st) (decodedSynops st) (posted st) (console st)).

Definition setAttribute (h : handle) (k v : string) : M unit :=
  modify_dom (Dom.update h (Dom.with_attr k v)).

Definition appendChild (p c : handle) : M unit :=
  modify_dom (Dom.append p c).

(** [p.appendChild(icon)] where [icon] may be [null]. *)
Definition appendChild_icon (p : handle) (icon : option nat) : M unit :=
  match icon with
  | Some n => appendChild p (HNode n)
  | None =>
      throw (TypeError "Failed to execute 'appendChild' on 'Node': parameter 1 is not of type 'Node'.")
  end.

(** [e.innerHTML = v]: [null] becomes the empty string, anything else its
    string, kept here as assigned. *)
Definition set_innerHTML (h : handle) (v : value) : M unit :=
  modify_dom (Dom.update h (Dom.with_html (match v with VNull => "" | _ => JS.to_str v end))).

Definition console_log (msg : string) : M unit :=
  fun st => (Ok tt, mkState (dom st) (var_x st) (var_y st) (decodedSynops st) (posted st)
                            (console st ++ [msg])).

(** [loadSVGIcon(path)]: the root of a newly parsed document, or [null]. *)
Definition loadSVGIcon (path : string) : M (option nat) :=
  if http_ok path then n <- createElementNS "svg" (Some path) ;; ret (Some n)
  else ret None.

(** [createTextElement(value)]. *)
Definition createTextElement (v : value) : M nat :=
  textSvg <- createElementNS "text" None ;;
  set_innerHTML (HNode textSvg) v ;;
  let w := 13.33%float in
  let h := 13.33%float in
  setAttribute (HNode textSvg) "x" (str (w / 2)) ;;
  setAttribute (HNode textSvg) "y" (str (h / 2)) ;;
  setAttribute (HNode textSvg) "dominant-baseline" "middle" ;;
  setAttribute (HNode textSvg) "text-anchor" "middle" ;;
  ret textSvg.

(** The three attributes most icons and texts get: width, height and the
    transform origin at the centre. *)
Definition set_size (n : nat) (w h : float) : M unit :=
  setAttribute (HNode n) "width" (str w) ;;
  setAttribute (HNode n) "height" (str h) ;;
  setAttribute (HNode n) "transform-origin" (str (w / 2) ++ " " ++ str (h / 2)).

Definition set_origin (n : nat) (w h : float) : M unit :=
  setAttribute (HNode n) "transform-origin" (str (w / 2) ++ " " ++ str (h / 2)).

(** The awaited table entry's [decoded] field: the record the rules read,
    and the one slot 18 writes to. *)
Definition decodedData (entry : nat) : M value :=
  fun st => (Ok (match nth_error (decodedSynops st) entry with
                 | Some r => decoded r
                 | None => VUndef
                 end), st).

Definition assign_decoded (entry : nat) (path : list string) (v : value) : M unit :=
  fun st =>
    (Ok tt,
     mkState (dom st) (var_x st) (var_y st)
             (Dom.update_nth entry
                (fun r => mkReply (set_path path v (decoded r)) (leafletID r))
                (decodedSynops st))
             (posted st) (console st)).

(** *** The slot rules: the [switch (idx)] of the [forEach] callback

    [element] is the slot's group, [d] the decoded record. *)

Definition w_slot : float := 13.33%float.

(** Case 2: high clouds. *)
Definition case_2 (o : options) (element : handle) (d : value) : M unit :=
  let D := Ok d in
  c <- lift (not_null (D ./ "cloud_types")) ;;
  when c (
    c' <- lift (has (D ./ "cloud_types") "high_cloud_type"
                <&&> not_null (D ./ "cloud_types" ./ "high_cloud_type")
                <&&> isnt_num (D ./ "cloud_types" ./ "high_cloud_type" ./ "value") 0) ;;
    when c' (
      v <- lift (D ./ "cloud_types" ./ "high_cloud_type" ./ "value") ;;
      icon <- loadSVGIcon ("./symbols/CH_CloudHigh/WeatherSymbol_WMO_CloudHigh_CH_"
                           ++ JS.to_str v ++ ".svg") ;;
      match icon with
      | Some n =>
          set_size n w_slot w_slot ;;
          when (highCloudsInRed o) (setAttribute element "style" red_filter) ;;
          appendChild element (HNode n)
      | None => ret tt
      end)).

(** Cases 6 and 16 share the raw/rounded switch. *)
Definition temperature_text (mode : string) (v : value) : value :=
  if String.eqb mode "rounded" then VNum (JS.round v) else v.

(** Case 6: air temperature. *)
Definition case_6 (o : options) (element : handle) (d : value) : M unit :=
  let D := Ok d in
  c <- lift (not_null (D ./ "air_temperature")) ;;
  when c (
    v <- lift (D ./ "air_temperature" ./ "value") ;;
    t <- createTextElement (temperature_text (temperature o) v) ;;
    appendChild element (HNode t)).

(** Case 7: middle clouds. *)
Definition case_7 (element : handle) (d : value) : M unit :=
  let D := Ok d in
  c <- lift (not_null (D ./ "cloud_types")) ;;
  when c (
    c' <- lift (has (D ./ "cloud_types") "middle_cloud_type"
                <&&> not_null (D ./ "cloud_types" ./ "middle_cloud_type")
                <&&> isnt_num (D ./ "cloud_types" ./ "middle_cloud_type" ./ "value") 0) ;;
    when c' (
      v <- lift (D ./ "cloud_types" ./ "middle_cloud_type" ./ "value") ;;
      icon <- loadSVGIcon ("./symbols/CM_CloudMedium/WeatherSymbol_WMO_CloudMedium_CM_"
                           ++ JS.to_str v ++ ".svg") ;;
      match icon with
      | Some n => set_size n w_slot w_slot ;; appendChild element (HNode n)
      | None => ret tt
      end)).

(** The three characters plotted for a sea-level pressure:
    [value % 1 == 0 ? String(value+"0").slice(-3)
                    : String(value*10).slice(-3).padStart(3, 0)]. *)
Definition pressure_plot_code (v : value) : string :=
  if PrimFloat.eqb (JS.rem v (VNum 1)) 0
  then JSString.slice_last 3 (JS.to_str (JS.add v (VStr "0")))
  else JSString.padStart0 3 (JSString.slice_last 3 (str (JS.mul v (VNum 10)))).

(** Case 8: sea-level pressure. *)
Definition case_8 (element : handle) (d : value) : M unit :=
  let D := Ok d in
  c <- lift (not_null (D ./ "sea_level_pressure")) ;;
  when c (
    v <- lift (D ./ "sea_level_pressure" ./ "value") ;;
    t <- createTextElement (VStr (pressure_plot_code v)) ;;
    appendChild element (HNode t)).

(** Case 10: visibility. *)
Definition case_10 (element : handle) (d : value) : M unit :=
  let D := Ok d in
  c <- lift (not_null (D ./ "visibility")) ;;
  when c (
    v <- lift (D ./ "visibility" ./ "_code") ;;
    t <- createTextElement v ;;
    appendChild element (HNode t)).

(** The icon of cases 11: width, height, origin and a shift to the left. *)
Definition present_weather_icon (element : handle) (path : string) : M unit :=
  icon <- loadSVGIcon path ;;
  match icon with
  | Some n =>
      set_size n w_slot w_slot ;;
      setAttribute (HNode n) "transform" ("translate(-" ++ str (w_slot / 10) ++ " 0)") ;;
      appendChild element (HNode n)
  | None => ret tt
  end.

Definition slashes (element : handle) (s : string) : M unit :=
  t <- createTextElement (VStr s) ;; appendChild element (HNode t).

(** Case 11: present weather. *)
Definition case_11 (element : handle) (d : value) : M unit :=
  let D := Ok d in
  let ix := D ./ "weather_indicator" ./ "value" in
  c <- lift (not_null (D ./ "present_weather")) ;;
  when c (
    automatic <- lift (is_bool (D ./ "weather_indicator" ./ "automatic") true) ;;
    if automatic then
      blank <- lift (is_num ix 5) ;;
      if blank then ret tt else
      sl <- lift (is_num ix 6
                  <||> (is_num ix 7 <&&> rmap negb (has D "present_weather"))) ;;
      if sl then slashes element "//" else
      v <- lift (D ./ "present_weather" ./ "value") ;;
      present_weather_icon element
        ("./symbols/wawa_PresentWeatherAutomaticStation/WeatherSymbol_WMO_PresentWeatherAutomaticStation_wawa_"
         ++ JSString.padStart0 2 (JS.to_str v) ++ ".svg")
    else
      blank <- lift (is_num ix 2 <||> is_num ix 5) ;;
      if blank then ret tt else
      sl <- lift (is_num ix 3 <||> is_num ix 6
                  <||> ((is_num ix 1 <||> is_num ix 4)
                        <&&> rmap negb (has D "present_weather"))) ;;
      if sl then slashes element "//" else
      v <- lift (D ./ "present_weather" ./ "value") ;;
      present_weather_icon element
        ("./symbols/ww_PresentWeather/WeatherSymbol_WMO_PresentWeather_ww_"
         ++ JSString.padStart0 2 (JS.to_str v) ++ ".svg")).

(** Case 12, first block: the sky-cover symbol. *)
Definition sky_cover (element : handle) (d : value) : M unit :=
  let D := Ok d in
  let place (icon : option nat) : M unit :=
    match icon with
    | Some n =>
        set_size n w_slot w_slot ;;
        setAttribute (HNode n) "transform"
          ("translate(-" ++ str (w_slot / 2) ++ " -" ++ str (w_slot / 2) ++ ")") ;;
        appendChild element (HNode n)
    | None => ret tt
    end in
  c <- lift (has D "cloud_cover") ;;
  when c (
    c' <- lift (not_null (D ./ "cloud_cover")) ;;
    if c' then
      code <- lift (D ./ "cloud_cover" ./ "_code") ;;
      icon <- loadSVGIcon ("./symbols/N_TotalCloudCover/WeatherSymbol_WMO_TotalCloudCover_N_"
                           ++ JS.to_str code ++ ".svg") ;;
      place icon
    else
      icon <- loadSVGIcon "./symbols/N_TotalCloudCover/WeatherSymbol_WMO_TotalCloudCover_N_Slash.svg" ;;
      place icon).

(** Case 12, second block: the automatic-station triangle. *)
Definition automatic_station (element : handle) (d : value) : M unit :=
  let D := Ok d in
  c <- lift (has D "weather_indicator"
             <&&> is_num (D ./ "weather_indicator" ./ "automatic") 1) ;;
  when c (
    automaticStationSymbol <-
      loadSVGIcon "./symbols/N_TotalCloudCover/WeatherSymbol_WMO_TotalCloudCover_Automatic.svg" ;;
    match automaticStationSymbol with
    | Some n =>
        let w := 24%float in
        let h := 24%float in
        set_size n w h ;;
        setAttribute (HNode n) "transform"
          ("translate(-" ++ str (w / 2) ++ " -" ++ str ((h / 2) + 2) ++ ")") ;;
        appendChild element (HNode n)
    | None => ret tt
    end).

(** The calm-wind circle; it is appended to the root here, and moved into
    the slot by the [element.appendChild(icon)] that ends the wind block. *)
Definition calm_wind : M (option nat) :=
  icon <- loadSVGIcon "./symbols/ddff_WindArrows/WeatherSymbol_WMO_WindArrowCalm_00.svg" ;;
  match icon with
  | Some n =>
      let w := 25%float in
      let h := 25%float in
      set_size n w h ;;
      setAttribute (HNode n) "transform"
        ("translate(-" ++ str (w / 2) ++ " -" ++ str (h / 2) ++ ") scale(0.8)") ;;
      appendChild HSvg (HNode n) ;;
      ret icon
  | None => ret icon
  end.

(** A wind shaft of 30 by 30 with its own origin and transform. *)
Definition wind_arrow (path origin transform : string) : M (option nat) :=
  icon <- loadSVGIcon path ;;
  match icon with
  | Some n =>
      setAttribute (HNode n) "width" (str 30) ;;
      setAttribute (HNode n) "height" (str 30) ;;
      setAttribute (HNode n) "transform-origin" origin ;;
      setAttribute (HNode n) "transform" transform ;;
      ret icon
  | None => ret icon
  end.

Fixpoint console_all (l : list string) : M unit :=
  match l with
  | [] => ret tt
  | m :: r => console_log m ;; console_all r
  end.

(** Case 12, third block: the wind plot. *)
Definition wind_plot (pointCoords : value) (element : handle) (d : value) : M unit :=
  let D := Ok d in
  let wind := D ./ "surface_wind" in
  c <- lift (has D "surface_wind"
             <&&> not_null wind
             <&&> has wind "direction"
             <&&> not_null (wind ./ "direction")
             <&&> not_null (wind ./ "direction" ./ "value")) ;;
  when c (
    dir <- lift (wind ./ "direction" ./ "value") ;;
    c' <- lift (has wind "speed" <&&> not_null (wind ./ "speed")) ;;
    icon <-
      (if c' then
         speed <- lift (wind ./ "speed" ./ "value") ;;
         unit <- lift (wind ./ "speed" ./ "unit") ;;
         console_all (windSpeedSymbolMatch_error unit) ;;
         let symbolFileNumber := windSpeedSymbolMatch speed unit in
         if (String.eqb symbolFileNumber "00" || String.eqb symbolFileNumber "01")%bool
         then calm_wind
         else
           lat <- lift (JS.get_index pointCoords 1) ;;
           if JS.gt_num lat 0 then
             wind_arrow ("./symbols/ddff_WindArrows/WeatherSymbol_WMO_WindArrowNH_"
                         ++ symbolFileNumber ++ ".svg")
                        "35.666 18.666"
                        ("translate(-35.66 -18.66) rotate("
                         ++ JS.to_str (JS.add dir (VNum 90)) ++ ")")
           else
             wind_arrow ("./symbols/ddff_WindArrows/WeatherSymbol_WMO_WindArrowSH_"
                         ++ symbolFileNumber ++ ".svg")
                        "-6.666 18.666"
                        ("translate(6.666 -18.666)" ++ "rotate("
                         ++ str (JS.to_num dir - 90) ++ ")")
       else
         wind_arrow "./symbols/ddff_WindArrows/WeatherSymbol_WMO_WindArrowMissing_99.svg"
                    "36.66 15.66"
                    ("translate(-36.66 -15.66) " ++ "rotate("
                     ++ JS.to_str (JS.add dir (VNum 90)) ++ ")")) ;;
    appendChild_icon element icon).

(** Case 12: sky cover, automatic-station triangle, wind. *)
Definition case_12 (pointCoords : value) (element : handle) (d : value) : M unit :=
  sky_cover element d ;;
  automatic_station element d ;;
  wind_plot pointCoords element d.

(** The text plotted for a pressure change, before the polychromatic rule. *)
Definition tendency_text (v : value) : string :=
  if PrimFloat.leb (JS.abs v) 9.9 then
    if JS.lt_num v 0
    then "-" ++ JSString.padStart0 2 (str (JS.abs v * 10))
    else JSString.padStart0 2 (str (JS.mul v (VNum 10)))
  else str (JS.mul v (VNum 10)).

(** The text after it: in polychromatic mode a negative change loses its
    first character. *)
Definition tendency_plot (poly : bool) (v : value) : string :=
  if (poly && JS.lt_num v 0)%bool then JSString.slice_from 1 (tendency_text v)
  else tendency_text v.

(** Case 13: pressure change. *)
Definition case_13 (o : options) (element : handle) (d : value) : M unit :=
  let D := Ok d in
  let change := D ./ "pressure_tendency" ./ "change" in
  c <- lift (has D "pressure_tendency"
             <&&> has (D ./ "pressure_tendency") "change"
             <&&> not_null change
             <&&> not_null (change ./ "value")) ;;
  when c (
    v <- lift (change ./ "value") ;;
    when (polyChromatic o && JS.lt_num v 0)%bool (setAttribute element "style" "fill: red;") ;;
    t <- createTextElement (VStr (tendency_plot (polyChromatic o) v)) ;;
    appendChild element (HNode t)).

(** Case 14: pressure tendency characteristic. *)
Definition case_14 (o : options) (element : handle) (d : value) : M unit :=
  let D := Ok d in
  let tendency := D ./ "pressure_tendency" ./ "tendency" in
  c <- lift (has D "pressure_tendency"
             <&&> has (D ./ "pressure_tendency") "tendency"
             <&&> not_null tendency
             <&&> not_null (tendency ./ "value")) ;;
  when c (
    v <- lift (tendency ./ "value") ;;
    icon <- loadSVGIcon ("./symbols/a_PressureTendencyCharacteristic/WeatherSymbol_WMO_PressureTendencyCharacteristic_a_"
                         ++ JS.to_str v ++ ".svg") ;;
    match icon with
    | Some n =>
        set_size n w_slot w_slot ;;
        when (polyChromatic o && JS.ge_num v 5)%bool (setAttribute element "style" red_filter) ;;
        appendChild element (HNode n)
    | None => ret tt
    end).

(** Case 16: dew point. *)
Definition case_16 (o : options) (element : handle) (d : value) : M unit :=
  let D := Ok d in
  c <- lift (has D "dewpoint_temperature"
             <&&> not_null (D ./ "dewpoint_temperature" ./ "value")) ;;
  when c (
    v <- lift (D ./ "dewpoint_temperature" ./ "value") ;;
    t <- createTextElement (temperature_text (dewPoint o) v) ;;
    appendChild element (HNode t)).

(** A text of slot 17 with its origin and shift. *)
Definition placed_text (element : handle) (v : value) (transform : string) : M unit :=
  t <- createTextElement v ;;
  set_origin t w_slot w_slot ;;
  setAttribute (HNode t) "transform" transform ;;
  appendChild element (HNode t).

(** The low-cloud icon of slot 17, shifted when [transform] is given. *)
Definition low_cloud_icon (element : handle) (v : value) (transform : option string) : M unit :=
  icon <- loadSVGIcon ("./symbols/CL_CloudLow/WeatherSymbol_WMO_CloudLow_CL_"
                       ++ JS.to_str v ++ ".svg") ;;
  match icon with
  | Some n =>
      set_size n w_slot w_slot ;;
      match transform with
      | Some t => setAttribute (HNode n) "transform" t
      | None => ret tt
      end ;;
      appendChild element (HNode n)
  | None => ret tt
  end.

(** Case 17: low cloud type, cloud amount, height of the cloud base. *)
Definition case_17 (element : handle) (d : value) : M unit :=
  let D := Ok d in
  let ct := D ./ "cloud_types" in
  let w := w_slot in
  let base_given := has D "lowest_cloud_base" <&&> not_null (D ./ "lowest_cloud_base" ./ "_code") in
  c <- lift (has D "cloud_types") ;;
  when c (
    c1 <- lift (has ct "low_cloud_type"
                <&&> not_null (ct ./ "low_cloud_type")
                <&&> has (ct ./ "low_cloud_type") "value"
                <&&> not_null (ct ./ "low_cloud_type" ./ "value")) ;;
    when c1 (
      cl <- lift (ct ./ "low_cloud_type" ./ "value") ;;
      if JS.eq_num cl 0 then
        c2 <- lift (has ct "middle_cloud_amount"
                    <&&> not_null (ct ./ "middle_cloud_amount" ./ "value")) ;;
        when c2 (
          nh <- lift (ct ./ "middle_cloud_amount" ./ "value") ;;
          placed_text element nh ("translate(" ++ str (w / 3.2) ++ " -" ++ str (w / 5) ++ ")") ;;
          hv <- lift (D ./ "lowest_cloud_base" ./ "_code") ;;
          placed_text element hv ("translate(-" ++ str (w / 3.2) ++ " " ++ str (w / 2.6) ++ ")"))
      else
        c2 <- lift (has ct "low_cloud_amount"
                    <&&> not_null (ct ./ "low_cloud_amount" ./ "value")) ;;
        if c2 then
          c3 <- lift base_given ;;
          if c3 then
            low_cloud_icon element cl
              (Some ("translate(-" ++ str (w / 3.2) ++ " -" ++ str (w / 3.2) ++ ")")) ;;
            nh <- lift (ct ./ "low_cloud_amount" ./ "value") ;;
            placed_text element nh ("translate(" ++ str (w / 3.2) ++ " -" ++ str (w / 5) ++ ")") ;;
            hv <- lift (D ./ "lowest_cloud_base" ./ "_code") ;;
            placed_text element hv ("translate(-" ++ str (w / 3.2) ++ " " ++ str (w / 2.6) ++ ")")
          else
            low_cloud_icon element cl (Some ("translate(-" ++ str (w / 3.2) ++ " 0)")) ;;
            nh <- lift (ct ./ "low_cloud_amount" ./ "value") ;;
            placed_text element nh ("translate(" ++ str (w / 3.2) ++ " 0)")
        else
          c3 <- lift base_given ;;
          if c3 then
            low_cloud_icon element cl (Some ("translate(0 -" ++ str (w / 3.2) ++ ")")) ;;
            hv <- lift (D ./ "lowest_cloud_base" ./ "_code") ;;
            placed_text element hv ("translate(0 " ++ str (w / 3.2) ++ ")")
          else
            low_cloud_icon element cl None)).

(** A past-weather icon: sized, shifted when [transform] is given, the slot
    recoloured when [red], and [after] run before the icon is appended. *)
Definition past_weather_icon (element : handle) (path : string)
    (transform : option string) (red : bool) (after : M unit) : M unit :=
  icon <- loadSVGIcon path ;;
  match icon with
  | Some n =>
      set_size n w_slot w_slot ;;
      match transform with
      | Some t => setAttribute (HNode n) "transform" t
      | None => ret tt
      end ;;
      when red (setAttribute element "style" red_filter) ;;
      appendChild element (HNode n) ;;
      after
  | None => ret tt
  end.

(** [(decodedData.past_weather[i].value == 3 ?
      decodedData.past_weather[i].value = "3a" : "")]. *)
Definition rename_3 (entry : nat) (i : nat) : M unit :=
  d <- decodedData entry ;;
  c <- lift (is_num (at_index (Ok d ./ "past_weather") i ./ "value") 3) ;;
  when c (assign_decoded entry
            ["past_weather"; JSNumber.Z_digits (Z.of_nat i); "value"] (VStr "3a")).

(** [decodedData.past_weather[i].value], as the path of an icon reads it. *)
Definition past_weather_value (entry : nat) (i : nat) : M value :=
  d <- decodedData entry ;;
  lift (at_index (Ok d ./ "past_weather") i ./ "value").

Definition plotted (r : result value) : result bool :=
  not_null r <&&> isnt_num r 0 <&&> isnt_num r 1 <&&> isnt_num r 2.

(** Case 18: past weather. *)
Definition case_18 (o : options) (entry : nat) (element : handle) (d : value) : M unit :=
  let D := Ok d in
  let W1 := at_index (D ./ "past_weather") 0 in
  let W2 := at_index (D ./ "past_weather") 1 in
  let w := w_slot in
  let wa := "./symbols/Wa1Wa2_PastWeatherAutomaticStation/WeatherSymbol_WMO_PastWeatherAutomaticStation_Wa1Wa1_" in
  let ww := "./symbols/W1W2_PastWeather/WeatherSymbol_WMO_PastWeather_W1W2_" in
  c <- lift (has D "past_weather") ;;
  when c (
    c1 <- lift (not_null W1 <||> not_null W2) ;;
    when c1 (
      automatic <- lift (is_num (D ./ "weather_indicator" ./ "automatic") 1) ;;
      if automatic then
        two <- lift (not_null W2 <&&> not_null (W2 ./ "value")) ;;
        if two then
          v1 <- past_weather_value entry 0 ;;
          past_weather_icon element (wa ++ JS.to_str v1 ++ ".svg")
            (Some ("translate(-" ++ str (w / 3.2) ++ " 0)")) false (ret tt) ;;
          v2 <- past_weather_value entry 1 ;;
          past_weather_icon element (wa ++ JS.to_str v2 ++ ".svg")
            (Some ("translate(" ++ str (w / 3.2) ++ " 0)")) false (ret tt)
        else
          v1 <- past_weather_value entry 0 ;;
          past_weather_icon element (wa ++ JS.to_str v1 ++ ".svg") None false (ret tt)
      else
        two <- lift (not_null W2 <&&> plotted (W2 ./ "value")) ;;
        if two then
          rename_3 entry 0 ;;
          v1 <- past_weather_value entry 0 ;;
          past_weather_icon element (ww ++ JS.to_str v1 ++ ".svg")
            (Some ("translate(-" ++ str (w / 3.8) ++ " 0)")) false (rename_3 entry 1) ;;
          v2 <- past_weather_value entry 1 ;;
          past_weather_icon element (ww ++ JS.to_str v2 ++ ".svg")
            (Some ("translate(" ++ str (w / 2.2) ++ " 0)")) (polyChromatic o) (ret tt)
        else
          one <- lift (not_null W1 <&&> plotted (W1 ./ "value")) ;;
          when one (
            rename_3 entry 0 ;;
            v1 <- past_weather_value entry 0 ;;
            past_weather_icon element (ww ++ JS.to_str v1 ++ ".svg") None (polyChromatic o) (ret tt)))).

(** The [for ... of Object.entries(decodedData.precipitation_indicator)]
    loop of case 23, on the pair ([precipAmount], [precipTimeBeforeObs]). *)
Fixpoint precipitation_groups (d : value) (es : list (string * value))
    (acc : value * value) : result (value * value) :=
  let D := Ok d in
  match es with
  | [] => Ok acc
  | (indicator, v) :: r =>
      if (String.eqb indicator "in_group_1" && JS.eq_bool v true)%bool then
        rbind (D ./ "precipitation_s1" ./ "amount" ./ "value") (fun a =>
        rbind (D ./ "precipitation_s1" ./ "time_before_obs" ./ "_code") (fun t =>
        precipitation_groups d r (a, t)))
      else if (String.eqb indicator "in_group_3" && JS.eq_bool v true)%bool then
        rbind (D ./ "precipitation_s3" ./ "amount" ./ "value") (fun a =>
        rbind (D ./ "precipitation_s3" ./ "time_before_obs" ./ "_code") (fun t =>
        precipitation_groups d r (a, t)))
      else precipitation_groups d r acc
  end.

(** Case 23: precipitation. *)
Definition case_23 (element : handle) (d : value) : M unit :=
  let D := Ok d in
  let w := w_slot in
  c <- lift (has D "precipitation_indicator") ;;
  when c (
    none <- lift (is_num (D ./ "precipitation_indicator" ./ "value") 3) ;;
    if none then ret tt else
    unobserved <- lift (is_num (D ./ "precipitation_indicator" ./ "value") 4) ;;
    if unobserved then slashes element "///" else
    c' <- lift (has D "precipitation_s1" <||> has D "precipitation_s3") ;;
    when c' (
      ind <- lift (D ./ "precipitation_indicator") ;;
      '(precipAmount, precipTimeBeforeObs) <-
        lift (precipitation_groups d (JS.entries ind) (VUndef, VUndef)) ;;
      let finalAmount :=
        if (JS.gt_num precipAmount 0 && JS.lt_num precipAmount 1)%bool
        then VStr (JSString.slice_from 1 (JS.to_str precipAmount))
        else precipAmount in
      if negb (JS.is_nullish precipTimeBeforeObs) then
        placed_text element finalAmount ("translate(-" ++ str (w / 4.2) ++ " 0)") ;;
        placed_text element precipTimeBeforeObs ("translate(" ++ str (w / 3) ++ " 0)")
      else
        t <- createTextElement finalAmount ;;
        appendChild element (HNode t))).

(** The [default] case: a mark in debug mode. *)
Definition case_default (o : options) (element : handle) : M unit :=
  when (debug o) (slashes element "x").

(** [switch (idx)]. *)
Definition slot_rule (o : options) (pointCoords : value) (entry : nat) (idx : nat) : M unit :=
  let element := HSlot idx in
  d <- decodedData entry ;;
  match idx with
  | 4 | 5 | 9 | 15 | 20 | 24 => ret tt
  | 2 => case_2 o element d
  | 6 => case_6 o element d
  | 7 => case_7 element d
  | 8 => case_8 element d
  | 10 => case_10 element d
  | 11 => case_11 element d
  | 12 => case_12 pointCoords element d
  | 13 => case_13 o element d
  | 14 => case_14 o element d
  | 16 => case_16 o element d
  | 17 => case_17 element d
  | 18 => case_18 o entry element d
  | 23 => case_23 element d
  | _ => case_default o element
  end%nat.

Definition set_xy (fx fy : float -> float) : M unit :=
  fun st => (Ok tt, mkState (dom st) (fx (var_x st)) (fy (var_y st))
                            (decodedSynops st) (posted st) (console st)).

Definition get_xy : M (float * float) := fun st => (Ok (var_x st, var_y st), st).

Definition grid_step : float := 13.33%float.
Definition grid_origin : float := 16.66%float.

(** [options.elementsToOmit.includes(idx)]. *)
Definition includes (l : list value) (idx : nat) : bool :=
  existsb (fun v => JS.strict_eq_num v (JSFloat.of_nat idx)) l.

Definition quote : string := String (ascii_of_nat 34) "".

Definition omit_warning_12 : string :=
  "Option " ++ quote ++ "elementsToOmit" ++ quote
  ++ " included cell 12, but it can not be omitted. The central station circle serves as the spatial reference for the symbol. Still plotting it.".

Definition omit_warning (idx : nat) : string :=
  "Omitting content for user-defined cell number "
  ++ JSNumber.Z_digits (Z.of_nat idx) ++ ".".

(** The callback of [plottingModelSlotsContent.forEach]. The merged options
    always own [elementsToOmit], so [options.hasOwnProperty('elementsToOmit')]
    is true. *)
Definition slot_callback (o : options) (pointCoords : value) (entry : nat) (idx : nat) : M unit :=
  let element := HSlot idx in
  if negb (idx =? 25)%nat then
    when (negb (idx =? 0)%nat && (idx mod 5 =? 0)%nat)%bool
         (set_xy (fun _ => grid_origin) (fun y => (y + grid_step)%float)) ;;
    '(x, y) <- get_xy ;;
    setAttribute element "transform"
      (if (idx =? 12)%nat then "translate(50, 50)"
       else "translate(" ++ str x ++ ", " ++ str y ++ ")") ;;
    appendChild HSvg element ;;
    returned <-
      (if includes (elementsToOmit o) idx then
         if (idx =? 12)%nat then console_log omit_warning_12 ;; ret false
         else
           console_log (omit_warning idx) ;;
           set_xy (fun x => (x + grid_step)%float) (fun y => y) ;;
           ret true
       else ret false) ;;
    if (returned : bool) then ret tt
    else
      slot_rule o pointCoords entry idx ;;
      set_xy (fun x => (x + grid_step)%float) (fun y => y)
  else ret tt.

Fixpoint for_each (f : nat -> M unit) (l : list nat) : M unit :=
  match l with
  | [] => ret tt
  | i :: r => f i ;; for_each f r
  end.

Definition push_slot : M unit :=
  modify_dom (fun s => mkStore (slots s ++ [Dom.fresh "g" None]) (svg s) (nodes s)).

(** One round of the loop that fills [plottingModelSlotsContent]. *)
Definition generate_slot (o : options) (i : nat) : M unit :=
  push_slot ;;
  setAttribute (HSlot i) "transform-origin" "50% 50%" ;;
  if (i =? 12)%nat then setAttribute (HSlot i) "transform" "translate(50% 50%)"
  else
    when (debug o) (
      slotBox <- createElementNS "rect" None ;;
      setAttribute (HNode slotBox) "fill" "none" ;;
      setAttribute (HNode slotBox) "stroke" "#00000052" ;;
      setAttribute (HNode slotBox) "stroke-dasharray" "2" ;;
      setAttribute (HNode slotBox) "width" (str 13.33) ;;
      setAttribute (HNode slotBox) "height" (str 13.33) ;;
      appendChild (HSlot i) (HNode slotBox)).

(** The root element and its attributes. The last two read
    [options.scaling.stationModel] and [options.scaling.font]: with a
    [scaling] of [null] or [undefined] the first read throws, after the
    other four attributes are set. *)
Definition create_svg (o : options) : M unit :=
  setAttribute HSvg "style" "display: block" ;;
  setAttribute HSvg "width" (str 100) ;;
  setAttribute HSvg "height" (str 100) ;;
  setAttribute HSvg "viewBox" "0 0 100 100" ;;
  stationModel <- lift (JS.get (scaling o) "stationModel") ;;
  setAttribute HSvg "transform"
    ("scale(" ++ JS.to_str (JS.add stationModel (VNum 0.7)) ++ ")") ;;
  font <- lift (JS.get (scaling o) "font") ;;
  setAttribute HSvg "font-size" (str (JS.to_num font - 0.35) ++ "em").

Definition postMessage (r : request) : M unit :=
  fun st => (Ok tt, mkState (dom st) (var_x st) (var_y st) (decodedSynops st)
                            (posted st ++ [r]) (console st)).

Fixpoint find_reply (id : value) (l : list reply) (i : nat) : option nat :=
  match l with
  | [] => None
  | r :: t => if JS.strict_eq (leafletID r) id then Some i else find_reply id t (S i)
  end.

(** [waitForDecodedSynop(leafletID)] at the poll that settles it: the first
    table entry with that id, or the time-out error when 10 s of polling
    found none. The result is the entry itself, here its index. *)
Definition waitForDecodedSynop (id : value) : M nat :=
  fun st =>
    match find_reply id (decodedSynops st) 0 with
    | Some i => (Ok i, st)
    | None => (Throw (Error "catching item timed out"), st)
    end.

Definition empty_store : store := mkStore [] (Dom.fresh "svg" None) [].

(** The body of [meteoStation] from the merged options on. The elements it
    creates are its own; the result table, the worker and the console are
    the module's. The returned [svg] is the root of the final store. *)
Definition meteoStation_with (options : options) (data : synop_data)
    (pointCoords : value) : M unit :=
  modify_dom (fun _ => empty_store) ;;
  for_each (generate_slot options) (seq 0 26) ;;
  create_svg options ;;
  set_xy (fun _ => grid_origin) (fun _ => grid_origin) ;;
  postMessage (mkRequest (rawSynop data) (data_leafletID data)) ;;
  entry <- waitForDecodedSynop (data_leafletID data) ;;
  d <- decodedData entry ;;
  when (negb (JS.is_nullish d))
       (for_each (slot_callback options pointCoords entry) (seq 0 26)).

(** [meteoStation(data, pointCoords, userOptions)]. *)
Definition meteoStation (data : synop_data) (pointCoords : value)
    (userOptions : user_options) : M unit :=
  meteoStation_with (Object_assign defaultOptions userOptions) data pointCoords.

End Compiler.

(** The module state a call starts from. *)
Definition module_state (table : list reply) : state :=
  mkState empty_store zero zero table [] [].

(** The handler of the worker's replies on the main thread:
    [decodedSynops.push(e.data)]. *)
Definition main_onmessage (r : reply) : M unit :=
  fun st => (Ok tt, mkState (dom st) (var_x st) (var_y st) (decodedSynops st ++ [r])
                            (posted st) (console st)).

(** ** main_worker.js *)

Record worker : Type := mkWorker {
  messageQueue : list value;
  pyodideStarting : bool;
  processQueueIsRunning : bool;
  ctx : bool;                        (* whether [ctx] holds the started Pyodide *)
  outbox : list reply;               (* messages posted back to the main thread *)
  decoder_runs : list value          (* the texts handed to [ctx.runPython] *)
}.

Definition W (A : Type) : Type := worker -> result A * worker.

Definition wret {A : Type} (a : A) : W A := fun w => (Ok a, w).

Definition wbind {A B : Type} (m : W A) (f : A -> W B) : W B :=
  fun w =>
    match m w with
    | (Ok a, w') => f a w'
    | (Throw e, w') => (Throw e, w')
    end.

Definition wlift {A : Type} (r : result A) : W A := fun w => (r, w).

Declare Scope worker_scope.
Delimit Scope worker_scope with worker.
Notation "x <- m ;; k" := (wbind m (fun x => k))
  (at level 61, m at next level, right associativity) : worker_scope.
Notation "m ;; k" := (wbind m (fun _ => k))
  (at level 61, right associativity) : worker_scope.

Section Worker.

(** Whether the URL parser takes a string as an absolute base URL:
    [new URL(relative, base)] throws a [TypeError] when it does not. *)
Variable valid_base : string -> bool.

(** The decoder: pymetdecoder run on the report text, its result serialised
    and parsed back; a Python exception or unparsable output is thrown. *)
Variable decode : value -> result value.

Local Open Scope worker_scope.

Definition worker_postMessage (r : reply) : W unit :=
  fun w => (Ok tt, mkWorker (messageQueue w) (pyodideStarting w) (processQueueIsRunning w)
                            (ctx w) (outbox w ++ [r]) (decoder_runs w)).

Definition set_running (b : bool) : W unit :=
  fun w => (Ok tt, mkWorker (messageQueue w) (pyodideStarting w) b
                            (ctx w) (outbox w) (decoder_runs w)).

Definition set_starting (b : bool) : W unit :=
  fun w => (Ok tt, mkWorker (messageQueue w) b (processQueueIsRunning w)
                            (ctx w) (outbox w) (decoder_runs w)).

Definition set_ctx : W unit :=
  fun w => (Ok tt, mkWorker (messageQueue w) (pyodideStarting w) (processQueueIsRunning w)
                            true (outbox w) (decoder_runs w)).

Definition push (m : value) : W unit :=
  fun w => (Ok tt, mkWorker (messageQueue w ++ [m]) (pyodideStarting w)
                            (processQueueIsRunning w) (ctx w) (outbox w) (decoder_runs w)).

(** [ctx.runPython(...)] on the report text. *)
Definition runPython (text : value) : W value :=
  fun w =>
    if ctx w then
      (decode text,
       mkWorker (messageQueue w) (pyodideStarting w) (processQueueIsRunning w)
                (ctx w) (outbox w) (decoder_runs w ++ [text]))
    else (Throw (TypeError "Cannot read properties of undefined (reading 'globals')"), w).

(** [parsed['_raw'] = raw]. *)
Definition with_raw (parsed raw : value) : result value :=
  match parsed with
  | VObj l => Ok (VObj (JS.assign "_raw" raw l))
  | VNull => Throw (TypeError "Cannot set properties of null (setting '_raw')")
  | VUndef => Throw (TypeError "Cannot set properties of undefined (setting '_raw')")
  | _ => Ok parsed
  end.

(** [decodeSynop(encoded)]. *)
Definition decodeSynop (encoded : value) : W unit :=
  raw <- wlift (JS.get encoded "SYNOP_raw") ;;
  parsed <- runPython raw ;;
  parsed' <- wlift (with_raw parsed raw) ;;
  id <- wlift (JS.get encoded "leafletID") ;;
  worker_postMessage (mkReply parsed' id).

(** The [while (messageQueue.length > 0) decodeSynop(messageQueue.shift())]
    loop; decoding is synchronous, so nothing joins the queue meanwhile. *)
Fixpoint drain (q : list value) : W unit :=
  match q with
  | [] => wret tt
  | m :: r =>
      (fun w => (Ok tt, mkWorker r (pyodideStarting w) (processQueueIsRunning w)
                                 (ctx w) (outbox w) (decoder_runs w))) ;;
      decodeSynop m ;;
      drain r
  end.

(** [processQueue()]. *)
Definition processQueue : W unit :=
  set_running true ;;
  (fun w => drain (messageQueue w) w) ;;
  set_running false.

(** [handleMessage(e)], on [e.data]. *)
Definition handleMessage (data : value) : W unit :=
  raw <- wlift (JS.get data "SYNOP_raw") ;;
  if JS.is_nullish raw then
    id <- wlift (JS.get data "leafletID") ;;
    worker_postMessage (mkReply VNull id)
  else
    starting <- (fun w => (Ok (pyodideStarting w), w)) ;;
    if (starting : bool) then push data
    else
      push data ;;
      running <- (fun w => (Ok (processQueueIsRunning w), w)) ;;
      if (running : bool) then wret tt else processQueue.

(** The synchronous start of [startPyodide()]: up to its first [await]. *)
Definition startPyodide_begin : W unit := set_starting true.

(** [new URL("./pymetdecoder.zip", base)]: the base is read as a string;
    the resolved address is only fetched by [startPyodide]. *)
Definition new_URL (base : value) : result unit :=
  if valid_base (JS.to_str base) then Ok tt
  else Throw (TypeError "Failed to construct 'URL': Invalid base URL").

(** [onmessage(e)], on [e.data]: a request, or the base URI that starts
    Pyodide. With a base the URL parser refuses the handler throws before
    [startPyodide()] is called. *)
Definition onmessage (data : value) : W unit :=
  request <- wlift (JS.hasOwnProperty data "SYNOP_raw") ;;
  if (request : bool) then handleMessage data
  else
    wlift (new_URL data) ;;
    startPyodide_begin.

(** The end of a successful [startPyodide()] and the [then] callback behind
    it, which run without another message in between. *)
Definition startPyodide_then : W unit :=
  set_starting false ;;
  set_ctx ;;
  pending <- (fun w => (Ok (negb (Nat.eqb (List.length (messageQueue w)) 0)), w)) ;;
  if (pending : bool) then processQueue else wret tt.

End Worker.

Definition worker_start : worker := mkWorker [] false false false [] [].

(** ** wrapper_Leaflet.js *)

Record layer : Type := mkLayer {
  properties : value;                (* layer.feature.properties *)
  coordinates : value;               (* layer.feature.geometry.coordinates *)
  _leaflet_id : value
}.

(** One [meteoStation(...)] call issued by the wrapper. *)
Record call : Type := mkCall {
  call_data : synop_data;
  call_coords : value
}.

(** The callback of [this.eachLayer]: the call it issues, if any. *)
Definition each_layer (field : string) (l : layer) : result (option call) :=
  rbind (JS.hasOwnProperty (properties l) field) (fun present =>
  if negb present then Ok None
  else
    rbind (JS.get (properties l) field) (fun v =>
    if JS.eq_str v "" then Ok None
    else Ok (Some (mkCall (mkData v (_leaflet_id l)) (coordinates l))))).

(** [_main()]: the calls issued, in layer order, up to a layer whose
    callback throws. *)
Fixpoint _main (field : string) (layers : list layer) : result unit * list call :=
  match layers with
  | [] => (Ok tt, [])
  | l :: r =>
      match each_layer field l with
      | Throw e => (Throw e, [])
      | Ok None => _main field r
      | Ok (Some c) => let '(res, cs) := _main field r in (res, c :: cs)
      end
  end.

(** ** Definitions used to state the properties *)

(** The message [meteoStation] posts for one symbol. *)
Definition request_message (raw id : value) : value :=
  VObj [("SYNOP_raw", raw); ("leafletID", id)].

(** The worker handling a sequence of messages, one event after the other. *)
Fixpoint handle_all (valid_base : string -> bool) (decode : value -> result value)
    (ms : list value) : W unit :=
  match ms with
  | [] => wret tt
  | m :: r =>
      wbind (onmessage valid_base decode m) (fun _ => handle_all valid_base decode r)
  end.

(** The reply [decodeSynop] posts for a queued message, when decoding it
    does not throw. *)
Definition reply_of (decode : value -> result value) (m : value) : result reply :=
  rbind (JS.get m "SYNOP_raw") (fun raw =>
  rbind (decode raw) (fun parsed =>
  rbind (with_raw parsed raw) (fun parsed' =>
  rbind (JS.get m "leafletID") (fun id =>
  Ok (mkReply parsed' id))))).

Definition raw_of (m : value) : value :=
  match JS.get m "SYNOP_raw" with Ok raw => raw | Throw _ => VUndef end.

(** The main thread taking the worker's replies in the order posted. *)
Fixpoint deliver (rs : list reply) : M unit :=
  match rs with
  | [] => ret tt
  | r :: t => bind (main_onmessage r) (fun _ => deliver t)
  end.

(** A message that asks for the decoding of a text that is there. *)
Definition non_null_request (m : value) : Prop :=
  exists raw id, m = request_message raw id /\ JS.is_nullish raw = false.

(** A decoder for the examples: every report decodes to an empty record. *)
Definition sample_decoder (v : value) : result value := Ok (VObj []).

(** A decoder that raises on one report and decodes the others to an empty
    record. *)
Definition failing_decoder (bad : string) (v : value) : result value :=
  if JS.strict_eq v (VStr bad) then Throw (Error "decode failed") else Ok (VObj []).

(** A URL parser for the examples: the absolute bases it takes are the
    addresses that go on after [http://] or [https://]. *)
Definition http_base (s : string) : bool :=
  ((String.prefix "http://" s && (7 <? String.length s)%nat)
   || (String.prefix "https://" s && (8 <? String.length s)%nat))%bool.

(** The double a decimal literal with one fractional digit denotes: [t]
    tenths. The division is correctly rounded, as reading the literal is. *)
Definition of_tenths (t : Z) : float := (JSFloat.of_Z t / 10)%float.

(** A property of all integers in [lo, lo + n), checked by running it. *)
Fixpoint all_from (lo : Z) (n : nat) (p : Z -> bool) : bool :=
  match n with
  | O => true
  | S k => p (lo + Z.of_nat k) && all_from lo k p
  end.






(** An object's field, [undefined] when it has none. *)
Definition field (k : string) (l : list (string * value)) : value :=
  match JS.lookup k l with Some v => v | None => VUndef end.

(** A record whose surface wind reports a direction [dir] and a speed object
    with the given value and unit. *)
Definition has_wind (d : value) (dir speed unit : value) : Prop :=
  exists l wl dl sl,
    d = VObj l
    /\ JS.lookup "surface_wind" l = Some (VObj wl)
    /\ JS.lookup "direction" wl = Some (VObj dl)
    /\ field "value" dl = dir /\ JS.is_nullish dir = false
    /\ JS.lookup "speed" wl = Some (VObj sl)
    /\ field "value" sl = speed /\ field "unit" sl = unit.

Definition is_calm (symbolFileNumber : string) : bool :=
  (String.eqb symbolFileNumber "00" || String.eqb symbolFileNumber "01")%bool.

Definition north_path (symbolFileNumber : string) : string :=
  "./symbols/ddff_WindArrows/WeatherSymbol_WMO_WindArrowNH_" ++ symbolFileNumber ++ ".svg".
Definition south_path (symbolFileNumber : string) : string :=
  "./symbols/ddff_WindArrows/WeatherSymbol_WMO_WindArrowSH_" ++ symbolFileNumber ++ ".svg".

(** What slot 11 shows. *)
Inductive slot11 : Type :=
| Blank
| Slashes
| Icon (set : string) (code : string).

(** The rule of slot 11 in the words of the specification, from whether the
    station is automatic, its indicator [ix], whether the message has a
    present-weather group, and the present-weather code. *)
Definition slot11_rule (automatic : bool) (ix : value) (has_group : bool) (code : value) : slot11 :=
  let ind (n : Z) := JS.eq_num ix (JSFloat.of_Z n) in
  if automatic then
    if ind 5 then Blank
    else if (ind 6 || (ind 7 && negb has_group))%bool then Slashes
    else Icon "wawa" (JSString.padStart0 2 (JS.to_str code))
  else
    if (ind 2 || ind 5)%bool then Blank
    else if (ind 3 || ind 6 || ((ind 1 || ind 4) && negb has_group))%bool then Slashes
    else Icon "ww" (JSString.padStart0 2 (JS.to_str code)).

Definition icon_set_path (set : string) (code : string) : string :=
  if String.eqb set "wawa"
  then "./symbols/wawa_PresentWeatherAutomaticStation/WeatherSymbol_WMO_PresentWeatherAutomaticStation_wawa_"
       ++ code ++ ".svg"
  else "./symbols/ww_PresentWeather/WeatherSymbol_WMO_PresentWeather_ww_" ++ code ++ ".svg".

(** ** Elements and what a rule leaves in a slot *)

(** The text [textSvg.innerHTML = v] leaves in the element. *)
Definition html_of (v : value) : string :=
  match v with VNull => "" | _ => JS.to_str v end.

(** The element [createTextElement(v)] returns. *)
Definition text_element (v : value) : node :=
  mkNode "text" None
         [("x", "6.665"); ("y", "6.665"); ("dominant-baseline", "middle");
          ("text-anchor", "middle")]
         (html_of v) [].

(** A text with its origin at the centre of the cell and a shift. *)
Definition shifted_text_element (v : value) (transform : string) : node :=
  mkNode "text" None
         [("x", "6.665"); ("y", "6.665"); ("dominant-baseline", "middle");
          ("text-anchor", "middle"); ("transform-origin", "6.665 6.665");
          ("transform", transform)]
         (html_of v) [].

(** The icon of slot 11 loaded from [path], with the attributes the rule
    sets on it: the size of the cell and a shift of a tenth of it to the
    left. (What the loaded document holds is stood for by [source].) *)
Definition present_weather_element (path : string) : node :=
  mkNode "svg" (Some path)
         [("width", "13.33"); ("height", "13.33"); ("transform-origin", "6.665 6.665");
          ("transform", "translate(-1.333 0)")]
         "" [].

(** The state once a new element [e] is created and appended to [parent]. *)
Definition with_child (parent : handle) (e : node) (st : state) : state :=
  let s := dom st in
  mkState (Dom.append parent (HNode (List.length (nodes s)))
             (mkStore (slots s) (svg s) (nodes s ++ [e])))
          (var_x st) (var_y st) (decodedSynops st) (posted st) (console st).

(** The state in which slot 11 shows [s]: nothing new, the text "//", or
    the icon of the set and code when the asset exists. *)
Definition shown (http_ok : string -> bool) (element : handle) (s : slot11) (st : state) : state :=
  match s with
  | Blank => st
  | Slashes => with_child element (text_element (VStr "//")) st
  | Icon set code =>
      if http_ok (icon_set_path set code)
      then with_child element (present_weather_element (icon_set_path set code)) st
      else st
  end.

(** ** Sample inputs *)

Definition all_icons (path : string) : bool := true.
Definition no_icons (path : string) : bool := false.

Definition obj (l : list (string * value)) : value := VObj l.
Definition value_of (v : value) : value := VObj [("value", v)].


(** 12 m/s from the west. *)
Definition west_wind_observation : value :=
  VObj [("surface_wind",
         VObj [("direction", value_of (JS.num 270));
               ("speed", VObj [("value", JS.num 12); ("unit", VStr "m/s")])])].

(** Coordinates as GeoJSON orders them: longitude, latitude. *)
Definition at_latitude (lat : Z) : value := VArr [JS.num 19; JS.num lat].

(** The store and module state a rule of slot [idx] meets: the 26 groups and
    the root as [meteoStation] sets them up, one decoded record in the table. *)
Definition sample_state (d : value) : state :=
  snd (bind (for_each (generate_slot defaultOptions) (seq 0 26))
            (fun _ => create_svg defaultOptions)
            (module_state [mkReply d (JS.num 1)])).





(** The wind block for a real wind: the shaft of the hemisphere [lat] lies
    in, turned from its drawn heading to the direction [dir]. *)
Definition hemisphere_arrow (http_ok : string -> bool) (lat dir : float)
    (symbolFileNumber : string) : M (option nat) :=
  if PrimFloat.ltb 0 lat then
    wind_arrow http_ok (north_path symbolFileNumber) "35.666 18.666"
      ("translate(-35.66 -18.66) rotate(" ++ str (dir + 90) ++ ")")
  else
    wind_arrow http_ok (south_path symbolFileNumber) "-6.666 18.666"
      ("translate(6.666 -18.666)rotate(" ++ str (dir - 90) ++ ")").

(** The element created last: where it was loaded from and an attribute. *)
Definition last_source (st : state) : option string :=
  source (last (nodes (dom st)) (Dom.fresh "" None)).
Definition last_attr (k : string) (st : state) : option string :=
  Dom.get_attr k (attrs (last (nodes (dom st)) (Dom.fresh "" None))).

Definition manned_observation (ix ww : Z) : value :=
  VObj [("weather_indicator", VObj [("value", JS.num ix); ("automatic", VBool false)]);
        ("present_weather", value_of (JS.num ww))].

(** A station with indicator [ix] whose message has no present-weather
    group. *)
Definition without_present_weather (automatic : bool) (ix : Z) : value :=
  VObj [("weather_indicator", VObj [("value", JS.num ix); ("automatic", VBool automatic)])].

(** The record of table entry [entry], as the rules read it. *)
Definition table_decoded (st : state) (entry : nat) : value :=
  match nth_error (decodedSynops st) entry with
  | Some r => decoded r
  | None => VUndef
  end.

(** [decodedData.past_weather[i].value] of a record. *)
Definition past_weather_of (d : value) (i : nat) : result value :=
  at_index (Ok d ./ "past_weather") i ./ "value".

(** A computation that keeps a property of the result table, whether it
    returns or throws. *)
Definition keeps {A : Type} (P : list reply -> Prop) (m : M A) : Prop :=
  forall st, P (decodedSynops st) -> P (decodedSynops (snd (m st))).

(** The first past-weather entry of table entry [entry] holds "3a". *)
Definition first_is_3a (entry : nat) (T : list reply) : Prop :=
  exists r l pw0 rest,
    nth_error T entry = Some r /\ decoded r = VObj l
    /\ JS.lookup "past_weather" l = Some (VArr (VObj pw0 :: rest))
    /\ JS.lookup "value" pw0 = Some (VStr "3a").

(** Both past-weather entries hold "3a". *)
Definition both_are_3a (entry : nat) (T : list reply) : Prop :=
  exists r l pw0 pw1 rest,
    nth_error T entry = Some r /\ decoded r = VObj l
    /\ JS.lookup "past_weather" l = Some (VArr (VObj pw0 :: VObj pw1 :: rest))
    /\ JS.lookup "value" pw0 = Some (VStr "3a")
    /\ JS.lookup "value" pw1 = Some (VStr "3a").

Definition past_weather_path (v : string) : string :=
  "./symbols/W1W2_PastWeather/WeatherSymbol_WMO_PastWeather_W1W2_" ++ v ++ ".svg".

(** A manned station reporting past weather 3 and 3. *)
Definition blowing_snow_observation : value :=
  VObj [("weather_indicator", VObj [("value", JS.num 1); ("automatic", VBool false)]);
        ("past_weather", VArr [value_of (JS.num 3); value_of (JS.num 3)])].

Definition sample_data : synop_data := mkData (VStr "AAXX 01004") (JS.num 1).

(** ** The slot grid *)

Definition no_node : node := Dom.fresh "" None.

(** The group of slot [i] in a state. *)
Definition slot_node (st : state) (i : nat) : node := nth i (slots (dom st)) no_node.

(** The element that is the last child of the group of slot [i]. *)
Definition last_child (st : state) (i : nat) : option node :=
  match last (kids (slot_node st i)) HSvg with
  | HNode n => nth_error (nodes (dom st)) n
  | _ => None
  end.

Definition is_slot (h : handle) : bool :=
  match h with HSlot _ => true | _ => false end.

(** The slot groups among the children of the root, in order. *)
Definition slots_appended (st : state) : list handle :=
  filter is_slot (kids (svg (dom st))).

(** [var x] and [var y] when the callback is entered for slot [k]. *)
Definition adjust (k : nat) (p : float * float) : float * float :=
  if (negb (k =? 0)%nat && (k mod 5 =? 0)%nat)%bool
  then (grid_origin, (snd p + grid_step)%float)
  else p.

Fixpoint xy_before (k : nat) : float * float :=
  match k with
  | O => (grid_origin, grid_origin)
  | S j => let p := adjust j (xy_before j) in ((fst p + grid_step)%float, snd p)
  end.

(** The transform the callback gives the group of a slot other than 12. *)
Definition slot_transform (k : nat) : string :=
  let p := adjust k (xy_before k) in
  "translate(" ++ str (fst p) ++ ", " ++ str (snd p) ++ ")".

(** The grid position of slot [i] in closed form: column [i mod 5] and row
    [i / 5], each reached from 16.66 by repeated addition of 13.33. *)
Definition grid_coordinate (n : nat) : float :=
  Nat.iter n (fun a => (a + grid_step)%float) grid_origin.

Definition grid_transform (i : nat) : string :=
  "translate(" ++ str (grid_coordinate (i mod 5)) ++ ", "
  ++ str (grid_coordinate (i / 5)) ++ ")".

(** The store after the loop that generates the 26 groups. *)
Definition debug_options (b : bool) : options :=
  mkOptions (scaling defaultOptions) true true "raw" "raw" [] b.

Definition init_store (b : bool) : store :=
  dom (snd (for_each (generate_slot (debug_options b)) (seq 0 26) (module_state []))).

(** The group of slot [i] as generated: its origin, for slot 12 the
    provisional transform, in debug mode the dashed box of the cell. *)
Definition generated_slot (b : bool) (i : nat) : node :=
  if (i =? 12)%nat then
    mkNode "g" None [("transform-origin", "50% 50%"); ("transform", "translate(50% 50%)")] "" []
  else
    mkNode "g" None [("transform-origin", "50% 50%")] ""
           (if b then [HNode (if (i <? 12)%nat then i else i - 1)] else []).

(** [v.k] of a value that is not [null] or [undefined]. *)
Definition read (v : value) (k : string) : value :=
  match JS.get v k with Ok x => x | Throw _ => VUndef end.

(** The root element with the attributes [create_svg] gives it when
    [options.scaling] can be read. *)
Definition svg_attributes (o : options) (n : node) : node :=
  Dom.with_attr "font-size" (str (JS.to_num (read (scaling o) "font") - 0.35) ++ "em")
    (Dom.with_attr "transform"
       ("scale(" ++ JS.to_str (JS.add (read (scaling o) "stationModel") (VNum 0.7)) ++ ")")
       (Dom.with_attr "viewBox" "0 0 100 100"
          (Dom.with_attr "height" (str 100)
             (Dom.with_attr "width" (str 100)
                (Dom.with_attr "style" "display: block" n))))).

(** What a slot rule may do, seen from the other slots: [idx] is the slot it
    fills, [N0] the number of elements created before it started. *)
Record stable (idx N0 : nat) (st st' : state) : Prop := mkStable {
  st_len : List.length (slots (dom st')) = List.length (slots (dom st));
  st_attrs : forall j, j <> idx -> attrs (slot_node st' j) = attrs (slot_node st j);
  st_node : forall j, j <> idx ->
            (forall n, In (HNode n) (kids (slot_node st j)) -> (n < N0)%nat) ->
            slot_node st' j = slot_node st j;
  st_transform : Dom.get_attr "transform" (attrs (slot_node st' idx))
                 = Dom.get_attr "transform" (attrs (slot_node st idx));
  st_svg : slots_appended st' = slots_appended st;
  st_nodes : (List.length (nodes (dom st)) <= List.length (nodes (dom st')))%nat;
  st_x : var_x st' = var_x st;
  st_y : var_y st' = var_y st;
  st_console : forall m, In m (console st) -> In m (console st')
}.

(** A computation that, when it returns, has stayed within those bounds and
    returns a value satisfying [Q]. *)
Definition okM {A : Type} (idx N0 : nat) (Q : A -> Prop) (m : M A) : Prop :=
  forall st a st',
    (N0 <= List.length (nodes (dom st)))%nat ->
    m st = (Ok a, st') ->
    stable idx N0 st st' /\ Q a.

Definition is_new (N0 : nat) (n : nat) : Prop := (N0 <= n)%nat.
Definition is_new_icon (N0 : nat) (icon : option nat) : Prop :=
  forall n, icon = Some n -> (N0 <= n)%nat.
Definition anything {A : Type} (a : A) : Prop := True.

(** ** The callback of the slot loop, step by step *)

(** [options.elementsToOmit.includes(idx)] on the merged options. *)
Definition omitted (o : options) (i : nat) : bool := includes (elementsToOmit o) i.

(** The record a call waits for: the first table entry under the call's id. *)
Definition awaited (data : synop_data) (st : state) : value :=
  match find_reply (data_leafletID data) (decodedSynops st) 0 with
  | Some entry => table_decoded st entry
  | None => VUndef
  end.

(** The state once the callback has positioned the group of slot [k] and
    appended it to the root: the part before the [elementsToOmit] test. *)
Definition placed (k : nat) (st : state) : state :=
  let p := adjust k (var_x st, var_y st) in
  let t := if (k =? 12)%nat then "translate(50, 50)"
           else "translate(" ++ str (fst p) ++ ", " ++ str (snd p) ++ ")" in
  mkState (Dom.append HSvg (HSlot k)
             (Dom.update (HSlot k) (Dom.with_attr "transform" t) (dom st)))
          (fst p) (snd p) (decodedSynops st) (posted st) (console st).

(** The state after [console.warn(msg)]. *)
Definition logged (msg : string) (st : state) : state :=
  mkState (dom st) (var_x st) (var_y st) (decodedSynops st) (posted st)
          (console st ++ [msg]).

(** [x += 13.33]: on to the next cell of the row. *)
Definition next_cell : M unit := set_xy (fun x => (x + grid_step)%float) (fun y => y).

Definition moved (st : state) : state :=
  mkState (dom st) (var_x st + grid_step)%float (var_y st) (decodedSynops st)
          (posted st) (console st).

(** What holds when the callback is entered for slot [k]: the groups before
    [k] are appended in order, the cursor is where [k] cells put it, the
    groups from [k] on are as generated, the omitted groups before [k] got
    their position and nothing else, and slot 12, once passed, sits at the
    centre with the warning logged if it was to be omitted. *)
Record Inv (o : options) (k : nat) (st : state) : Prop := mkInv {
  inv_len : List.length (slots (dom st)) = 26%nat;
  inv_svg : slots_appended st = map HSlot (seq 0 k);
  inv_xy : (var_x st, var_y st) = xy_before k;
  inv_nodes : ((if debug o then 25 else 0) <= List.length (nodes (dom st)))%nat;
  inv_rest : forall j, (k <= j)%nat -> (j < 26)%nat ->
             slot_node st j = generated_slot (debug o) j;
  inv_omitted : forall j, (j < k)%nat -> j <> 12%nat -> omitted o j = true ->
                slot_node st j
                = Dom.with_attr "transform" (slot_transform j) (generated_slot (debug o) j);
  inv_center : (12 < k)%nat ->
               Dom.get_attr "transform" (attrs (slot_node st 12)) = Some "translate(50, 50)";
  inv_warned : (12 < k)%nat -> omitted o 12 = true -> In omit_warning_12 (console st)
}.

(** The state in which the slot loop of a call starts. *)
Definition ready (o : options) (data : synop_data) (st : state) : state :=
  mkState (Dom.update HSvg (svg_attributes o) (init_store (debug o)))
          grid_origin grid_origin (decodedSynops st)
          (posted st ++ [mkRequest (rawSynop data) (data_leafletID data)])
          (console st).

(** Options of a caller who asks to leave out cells 12 and 3, and of one who
    asks to leave out the exterior cell 25. *)
Definition omit_center_and_3 : user_options :=
  mkUserOptions None None None None None (Some [JS.num 12; JS.num 3]) None.

Definition omit_25 : user_options :=
  mkUserOptions None None None None None (Some [JS.num 25]) None.

(** A reply table holding the record [d] under the id of [sample_data]. *)
Definition decoded_as (d : value) : state := module_state [mkReply d (JS.num 1)].

(** ** Records and assets on which a slot rule stops

    Low clouds of type 5 with their amount, the cloud base reported as null. *)
Definition null_cloud_base_observation : value :=
  VObj [("lowest_cloud_base", VNull);
        ("cloud_types", VObj [("low_cloud_type", value_of (JS.num 5));
                              ("low_cloud_amount", value_of (JS.num 3))])].

(** No low clouds (type 0), the amount of middle clouds given, no cloud base
    in the record. *)
Definition no_cloud_base_observation : value :=
  VObj [("cloud_types", VObj [("low_cloud_type", value_of (JS.num 0));
                              ("middle_cloud_amount", value_of (JS.num 4))])].

(** All assets are served but the northern wind shaft of class 05. *)
Definition missing_north_05 (path : string) : bool :=
  negb (String.eqb path (north_path "05")).

(** ** Further definitions for the properties beyond the slot rules

    The worker taking a sequence of messages, one event each: an exception
    ends the event it is raised in, the next message meets the state it
    left. *)
Fixpoint events (valid_base : string -> bool) (decode : value -> result value)
    (ms : list value) (w : worker) : worker :=
  match ms with
  | [] => w
  | m :: r => events valid_base decode r (snd (onmessage valid_base decode m w))
  end.

(** The part of [meteoStation] from the wait for the reply on. *)
Definition await_and_fill (http_ok : string -> bool) (o : options) (data : synop_data)
    (pointCoords : value) : M unit :=
  entry <- waitForDecodedSynop (data_leafletID data) ;;
  d <- decodedData entry ;;
  when (negb (JS.is_nullish d))
       (for_each (slot_callback http_ok o pointCoords entry) (seq 0 26)).



(** A computation that returns from every state. *)
Definition never_throws {A : Type} (m : M A) : Prop :=
  forall st, exists a, fst (m st) = Ok a.

(** What a call never touches, whether it returns or throws: the messages
    posted so far, the ids of the table entries, the attributes of the
    root, and the number of groups. *)
Record outside (st st' : state) : Prop := mkOutside {
  out_posted : posted st' = posted st;
  out_ids : map leafletID (decodedSynops st') = map leafletID (decodedSynops st);
  out_root : attrs (svg (dom st')) = attrs (svg (dom st));
  out_slots : List.length (slots (dom st')) = List.length (slots (dom st))
}.

Definition leaves {A : Type} (m : M A) : Prop :=
  forall st, outside st (snd (m st)).

(** The attributes [meteoStation] gives the root, in the order it sets
    them: the four of the canvas, then the two read from
    [options.scaling]. *)
Definition canvas_attributes : list (string * string) :=
  [("style", "display: block"); ("width", "100"); ("height", "100");
   ("viewBox", "0 0 100 100")].

Definition root_attributes (o : options) : list (string * string) :=
  canvas_attributes
  ++ [("transform",
       "scale(" ++ JS.to_str (JS.add (read (scaling o) "stationModel") (VNum 0.7)) ++ ")");
      ("font-size", str (JS.to_num (read (scaling o) "font") - 0.35) ++ "em")].

(** The state in which a call stops when [options.scaling] cannot be read:
    the groups generated, the root with the attributes of the canvas. *)
Definition unscaled (o : options) (st : state) : state :=
  mkState (Dom.update HSvg
             (fun n => Dom.with_attr "viewBox" "0 0 100 100"
                         (Dom.with_attr "height" (str 100)
                            (Dom.with_attr "width" (str 100)
                               (Dom.with_attr "style" "display: block" n))))
             (init_store (debug o)))
          (var_x st) (var_y st) (decodedSynops st) (posted st) (console st).

(** The amount slot 23 plots: a value strictly between 0 and 1 loses its
    first character. *)
Definition final_amount (precipAmount : value) : value :=
  if (JS.gt_num precipAmount 0 && JS.lt_num precipAmount 1)%bool
  then VStr (JSString.slice_from 1 (JS.to_str precipAmount))
  else precipAmount.

(** A precipitation group [k] of the record that holds the amount [a] and
    the time code [t]. *)
Definition group_reads (l : list (string * value)) (k : string) (a t : value) : Prop :=
  exists gl al tl,
    JS.lookup k l = Some (VObj gl)
    /\ JS.lookup "amount" gl = Some (VObj al)
    /\ JS.lookup "time_before_obs" gl = Some (VObj tl)
    /\ field "value" al = a /\ field "_code" tl = t.

(** Slot 23 once the amount [a] is plotted: alone in the middle, or, when
    there is a time code [t], shifted to the left with the code to its
    right. *)
Definition plotted_amount (element : handle) (a t : value) (st : state) : state :=
  if JS.is_nullish t then with_child element (text_element (final_amount a)) st
  else
    with_child element (shifted_text_element t "translate(4.443333333333333 0)")
      (with_child element
         (shifted_text_element (final_amount a) "translate(-3.1738095238095236 0)") st).

(** The transform the callback gives the group of slot [j]. *)
Definition slot_position (j : nat) : string :=
  if (j =? 12)%nat then "translate(50, 50)" else slot_transform j.

(** The groups before [k] carry their position. *)
Definition positioned (k : nat) (st : state) : Prop :=
  forall j, (j < k)%nat ->
    Dom.get_attr "transform" (attrs (slot_node st j)) = Some (slot_position j).

(** * Properties *)

(** ** The worker and the wrapper *)

Section WorkerFacts.

Variable valid_base : string -> bool.
Variable decode : value -> result value.

Lemma handleMessage_null (data raw id : value) (w : worker) :
  JS.get data "SYNOP_raw" = Ok raw ->
  JS.is_nullish raw = true ->
  JS.get data "leafletID" = Ok id ->
  handleMessage decode data w
  = (Ok tt, mkWorker (messageQueue w) (pyodideStarting w) (processQueueIsRunning w)
                     (ctx w) (outbox w ++ [mkReply VNull id]) (decoder_runs w)).
Proof.
  intros Hraw Hnull Hid.
  unfold handleMessage, wbind, wlift.
  rewrite Hraw, Hnull, Hid. reflexivity.
Qed.

Lemma each_layer_missing (field : string) (l : layer) :
  JS.hasOwnProperty (properties l) field = Ok false ->
  each_layer field l = Ok None.
Proof.
  intros H. unfold each_layer. rewrite H. reflexivity.
Qed.

Lemma each_layer_empty (field : string) (l : layer) :
  JS.hasOwnProperty (properties l) field = Ok true ->
  JS.get (properties l) field = Ok (VStr "") ->
  each_layer field l = Ok None.
Proof.
  intros H H'. unfold each_layer. rewrite H. cbn. rewrite H'. reflexivity.
Qed.

Lemma each_layer_call (field : string) (l : layer) (c : call) :
  each_layer field l = Ok (Some c) ->
  JS.hasOwnProperty (properties l) field = Ok true
  /\ JS.get (properties l) field = Ok (rawSynop (call_data c))
  /\ JS.eq_str (rawSynop (call_data c)) "" = false
  /\ data_leafletID (call_data c) = _leaflet_id l
  /\ call_coords c = coordinates l.
Proof.
  unfold each_layer.
  destruct (JS.hasOwnProperty (properties l) field) as [[|]|e]; cbn; try discriminate.
  destruct (JS.get (properties l) field) as [v|e]; cbn; try discriminate.
  destruct (JS.eq_str v "") eqn:E; try discriminate.
  intros H. inversion H; subst; cbn. auto.
Qed.

Lemma _main_calls (field : string) (layers : list layer) (c : call) :
  In c (snd (_main field layers)) ->
  exists l, In l layers /\ each_layer field l = Ok (Some c).
Proof.
  induction layers as [|l r IH]; cbn.
  - intros [].
  - destruct (each_layer field l) as [[c'|]|e] eqn:E.
    + destruct (_main field r) as [res cs] eqn:Er. cbn in *.
      intros [->|Hin].
      * exists l. auto.
      * destruct (IH Hin) as (l' & Hl' & Hc). exists l'. auto.
    + intros Hin. destruct (IH Hin) as (l' & Hl' & Hc). exists l'. auto.
    + intros [].
Qed.

(** C8. A request whose report text is [null] or [undefined] is answered at
    once with [{decoded: null, leafletID}]: nothing joins the queue and the
    decoder is not run, whether it arrives through [onmessage] or
    [handleMessage] and whatever the worker's state. In the wrapper a layer
    whose attribute is missing or the empty string issues no [meteoStation]
    call, and every call [_main] issues carries a present attribute that is
    not loosely equal to the empty string. *)
Theorem C8_absent_text_never_reaches_decoder :
  (forall (raw id : value) (w : worker),
      JS.is_nullish raw = true ->
      let data := VObj [("SYNOP_raw", raw); ("leafletID", id)] in
      let w' := mkWorker (messageQueue w) (pyodideStarting w) (processQueueIsRunning w)
                         (ctx w) (outbox w ++ [mkReply VNull id]) (decoder_runs w) in
      handleMessage decode data w = (Ok tt, w')
      /\ onmessage valid_base decode data w = (Ok tt, w'))
  /\ (forall (field : string) (l : layer),
         JS.hasOwnProperty (properties l) field = Ok false
         \/ (JS.hasOwnProperty (properties l) field = Ok true
             /\ JS.get (properties l) field = Ok (VStr "")) ->
         each_layer field l = Ok None)
  /\ (forall (field : string) (layers : list layer) (c : call),
         In c (snd (_main field layers)) ->
         exists l, In l layers
                   /\ JS.hasOwnProperty (properties l) field = Ok true
                   /\ JS.get (properties l) field = Ok (rawSynop (call_data c))
                   /\ rawSynop (call_data c) <> VStr "").
Proof.
  split; [|split].
  - intros raw id w Hnull data w'.
    assert (Hh : handleMessage decode data w = (Ok tt, w')).
    { apply handleMessage_null with (raw := raw); auto. }
    split; [exact Hh|].
    unfold onmessage, wbind, wlift. cbn. exact Hh.
  - intros field l [H|[H H']].
    + now apply each_layer_missing.
    + now apply each_layer_empty.
  - intros field layers c Hin.
    destruct (_main_calls field layers c Hin) as (l & Hl & Hc).
    destruct (each_layer_call field l c Hc) as (H1 & H2 & H3 & _).
    exists l. repeat split; auto.
    intros E. rewrite E in H3. discriminate.
Qed.

End WorkerFacts.

Lemma C8_witness :
  handleMessage sample_decoder
    (VObj [("SYNOP_raw", VNull); ("leafletID", JS.num 7)]) worker_start
  = (Ok tt, mkWorker [] false false false [mkReply VNull (JS.num 7)] [])
  /\ each_layer "synop" (mkLayer (VObj [("synop", VStr "")]) VNull (JS.num 1)) = Ok None.
Proof.
  destruct (C8_absent_text_never_reaches_decoder http_base sample_decoder) as (H1 & H2 & _).
  split.
  - exact (proj1 (H1 VNull (JS.num 7) worker_start eq_refl)).
  - apply H2. right. split; reflexivity.
Defined.

Section QueueFacts.

Variable valid_base : string -> bool.
Variable decode : value -> result value.

Lemma onmessage_buffers (m : value) (w : worker) :
  non_null_request m ->
  pyodideStarting w = true ->
  onmessage valid_base decode m w
  = (Ok tt, mkWorker (messageQueue w ++ [m]) true (processQueueIsRunning w)
                     (ctx w) (outbox w) (decoder_runs w)).
Proof.
  intros (raw & id & -> & Hraw) Hs.
  unfold onmessage, handleMessage, wbind, wlift, push. cbn.
  rewrite Hraw, Hs. cbn. rewrite Hs. reflexivity.
Qed.

Lemma handle_all_buffers (ms : list value) :
  Forall non_null_request ms ->
  forall w, pyodideStarting w = true ->
  handle_all valid_base decode ms w
  = (Ok tt, mkWorker (messageQueue w ++ ms) true (processQueueIsRunning w)
                     (ctx w) (outbox w) (decoder_runs w)).
Proof.
  induction 1 as [|m r Hm Hr IH]; intros w Hs; cbn [handle_all].
  - rewrite app_nil_r. destruct w; cbn in *; subst; reflexivity.
  - unfold wbind. rewrite (onmessage_buffers m w Hm Hs).
    rewrite IH by reflexivity. cbn. rewrite <- app_assoc. reflexivity.
Qed.

Lemma decodeSynop_ok (m : value) (r : reply) (w : worker) :
  reply_of decode m = Ok r ->
  ctx w = true ->
  decodeSynop decode m w
  = (Ok tt, mkWorker (messageQueue w) (pyodideStarting w) (processQueueIsRunning w)
                     true (outbox w ++ [r]) (decoder_runs w ++ [raw_of m])).
Proof.
  unfold reply_of, decodeSynop, raw_of, wbind, wlift, runPython, worker_postMessage.
  intros H Hc. destruct w as [q s p c o dr]; cbn in *; subst c.
  destruct (JS.get m "SYNOP_raw") as [raw|]; cbn in *; [|discriminate].
  destruct (decode raw) as [parsed|]; cbn in *; [|discriminate].
  destruct (with_raw parsed raw) as [parsed'|]; cbn in *; [|discriminate].
  destruct (JS.get m "leafletID") as [id|]; cbn in *; [|discriminate].
  inversion H; subst. reflexivity.
Qed.

(** The queue is drained from its head: each message is taken off, decoded
    and answered before the next one is looked at. *)
Lemma drain_fifo (q : list value) :
  forall (rs : list reply) (w : worker),
  Forall2 (fun m r => reply_of decode m = Ok r) q rs ->
  ctx w = true ->
  messageQueue w = q ->
  drain decode q w
  = (Ok tt, mkWorker [] (pyodideStarting w) (processQueueIsRunning w) true
                     (outbox w ++ rs) (decoder_runs w ++ map raw_of q)).
Proof.
  induction q as [|m q IH]; intros rs w H Hc Hq; inversion H; subst; cbn [drain map].
  - rewrite !app_nil_r. unfold wret. destruct w; cbn in *; subst; reflexivity.
  - unfold wbind.
    erewrite decodeSynop_ok by eauto.
    erewrite IH by (eauto; reflexivity). cbn.
    rewrite <- !app_assoc. reflexivity.
Qed.

Lemma processQueue_fifo (rs : list reply) (w : worker) :
  Forall2 (fun m r => reply_of decode m = Ok r) (messageQueue w) rs ->
  ctx w = true ->
  processQueue decode w
  = (Ok tt, mkWorker [] (pyodideStarting w) false true
                     (outbox w ++ rs) (decoder_runs w ++ map raw_of (messageQueue w))).
Proof.
  intros H Hc. unfold processQueue, wbind, set_running.
  erewrite drain_fifo by (cbn; eauto). reflexivity.
Qed.

Lemma startPyodide_then_fifo (rs : list reply) (w : worker) :
  Forall2 (fun m r => reply_of decode m = Ok r) (messageQueue w) rs ->
  processQueueIsRunning w = false ->
  startPyodide_then decode w
  = (Ok tt, mkWorker [] false false true
                     (outbox w ++ rs) (decoder_runs w ++ map raw_of (messageQueue w))).
Proof.
  intros H Hp. destruct w as [q s p c o dr]; cbn in *; subst p.
  unfold startPyodide_then, wbind, set_starting, set_ctx.
  cbn [messageQueue pyodideStarting processQueueIsRunning ctx outbox decoder_runs].
  destruct q as [|m q].
  - inversion H; subst. cbn. rewrite !app_nil_r. reflexivity.
  - cbn [List.length Nat.eqb negb].
    erewrite processQueue_fifo by (cbn; eauto). reflexivity.
Qed.

(** A request that arrives once Pyodide runs and the queue is idle is
    decoded and answered within its own event. *)
Lemma onmessage_idle (m : value) (r : reply) (w : worker) :
  non_null_request m ->
  reply_of decode m = Ok r ->
  pyodideStarting w = false -> processQueueIsRunning w = false ->
  ctx w = true -> messageQueue w = [] ->
  onmessage valid_base decode m w
  = (Ok tt, mkWorker [] false false true (outbox w ++ [r]) (decoder_runs w ++ [raw_of m])).
Proof.
  intros (raw & id & -> & Hraw) Hr Hs Hp Hc Hq.
  destruct w as [q s p c o dr]; cbn in *; subst q s p c.
  unfold onmessage, handleMessage, wbind, wlift, push.
  cbn [JS.hasOwnProperty JS.get JS.lookup request_message String.eqb Ascii.eqb Bool.eqb].
  rewrite Hraw.
  cbn [messageQueue pyodideStarting processQueueIsRunning ctx outbox decoder_runs app].
  erewrite processQueue_fifo with (rs := [r]); [reflexivity| |reflexivity].
  cbn. constructor; auto.
Qed.

Lemma handle_all_idle (ms : list value) :
  forall (rs : list reply) (w : worker),
  Forall non_null_request ms ->
  Forall2 (fun m r => reply_of decode m = Ok r) ms rs ->
  pyodideStarting w = false -> processQueueIsRunning w = false ->
  ctx w = true -> messageQueue w = [] ->
  handle_all valid_base decode ms w
  = (Ok tt, mkWorker [] false false true (outbox w ++ rs) (decoder_runs w ++ map raw_of ms)).
Proof.
  induction ms as [|m ms IH]; intros rs w Hn H Hs Hp Hc Hq; inversion H; inversion Hn; subst;
    cbn [handle_all map].
  - rewrite !app_nil_r. unfold wret. destruct w; cbn in *; subst; reflexivity.
  - unfold wbind. erewrite onmessage_idle by eauto.
    erewrite IH by (eauto; reflexivity). cbn. rewrite <- !app_assoc. reflexivity.
Qed.

Lemma deliver_appends (rs : list reply) (st : state) :
  deliver rs st
  = (Ok tt, mkState (dom st) (var_x st) (var_y st) (decodedSynops st ++ rs)
                    (posted st) (console st)).
Proof.
  revert st. induction rs as [|r rs IH]; intros st; cbn.
  - rewrite app_nil_r. destruct st; reflexivity.
  - unfold bind, main_onmessage. rewrite IH. cbn. rewrite <- app_assoc. reflexivity.
Qed.

(** Decoding a request fails when the decoder raises or gives back [null]:
    the text was handed to the decoder, nothing is posted. *)
Lemma decodeSynop_fails (m : value) (e : exn) (w : worker) :
  non_null_request m ->
  reply_of decode m = Throw e ->
  ctx w = true ->
  decodeSynop decode m w
  = (Throw e, mkWorker (messageQueue w) (pyodideStarting w) (processQueueIsRunning w)
                       true (outbox w) (decoder_runs w ++ [raw_of m])).
Proof.
  intros (raw & id & -> & Hraw) H Hc.
  unfold reply_of, decodeSynop, raw_of, wbind, wlift, runPython, worker_postMessage in *.
  destruct w as [q s p c o dr]; cbn in Hc; subst c.
  cbn [JS.get JS.lookup request_message String.eqb Ascii.eqb Bool.eqb rbind] in *.
  cbn [messageQueue pyodideStarting processQueueIsRunning ctx outbox decoder_runs].
  destruct (decode raw) as [parsed|e']; cbn [rbind] in *.
  - destruct (with_raw parsed raw) as [parsed'|e'']; cbn [rbind] in *; [discriminate|].
    now injection H as ->.
  - now injection H as ->.
Qed.

Lemma drain_head_fails (m : value) (r : list value) (e : exn) (w w' : worker) :
  decodeSynop decode m
    (mkWorker r (pyodideStarting w) (processQueueIsRunning w) (ctx w) (outbox w)
              (decoder_runs w))
  = (Throw e, w') ->
  drain decode (m :: r) w = (Throw e, w').
Proof. intros H. cbn [drain]. unfold wbind. now rewrite H. Qed.

(** A request with a text met while [processQueueIsRunning] is set and
    Pyodide is not starting only joins the queue. *)
Lemma onmessage_running (m : value) (w : worker) :
  non_null_request m ->
  pyodideStarting w = false ->
  processQueueIsRunning w = true ->
  onmessage valid_base decode m w
  = (Ok tt, mkWorker (messageQueue w ++ [m]) false true (ctx w) (outbox w) (decoder_runs w)).
Proof.
  intros (raw & id & -> & Hraw) Hs Hp.
  destruct w as [q s p c o dr]; cbn in Hs, Hp; subst s p.
  unfold onmessage, handleMessage, wbind, wlift, push.
  cbn [JS.hasOwnProperty JS.get JS.lookup request_message String.eqb Ascii.eqb Bool.eqb].
  rewrite Hraw.
  cbn [messageQueue pyodideStarting processQueueIsRunning ctx outbox decoder_runs].
  reflexivity.
Qed.

Lemma handle_all_running (ms : list value) :
  Forall non_null_request ms ->
  forall w, pyodideStarting w = false -> processQueueIsRunning w = true ->
  handle_all valid_base decode ms w
  = (Ok tt, mkWorker (messageQueue w ++ ms) false true (ctx w) (outbox w) (decoder_runs w)).
Proof.
  induction 1 as [|m r Hm Hr IH]; intros w Hs Hp; cbn [handle_all].
  - rewrite app_nil_r. destruct w; cbn in *; subst; reflexivity.
  - unfold wbind. rewrite (onmessage_running m w Hm Hs Hp).
    rewrite IH by reflexivity.
    cbn [messageQueue ctx outbox decoder_runs]. now rewrite <- app_assoc.
Qed.

(** The drain ends at the first request whose decoding raises: the requests
    before it are answered, the ones behind it stay in the queue. *)
Lemma drain_stops (good : list value) :
  forall (rs : list reply) (bad : value) (rest : list value) (e : exn) (w : worker),
  Forall2 (fun m r => reply_of decode m = Ok r) good rs ->
  non_null_request bad ->
  reply_of decode bad = Throw e ->
  ctx w = true ->
  drain decode (good ++ bad :: rest) w
  = (Throw e, mkWorker rest (pyodideStarting w) (processQueueIsRunning w) true
                       (outbox w ++ rs) (decoder_runs w ++ map raw_of (good ++ [bad]))).
Proof.
  induction good as [|m good IH]; intros rs bad rest e w H Hb He Hc; inversion H; subst.
  - cbn [app map]. rewrite app_nil_r.
    apply drain_head_fails.
    rewrite (decodeSynop_fails bad e _ Hb He) by exact Hc. reflexivity.
  - cbn [app drain map]. unfold wbind.
    erewrite decodeSynop_ok by eauto.
    erewrite IH by (eauto; reflexivity).
    cbn [messageQueue pyodideStarting processQueueIsRunning ctx outbox decoder_runs map].
    rewrite <- !app_assoc. reflexivity.
Qed.

Lemma startPyodide_then_stops (good : list value) (rs : list reply) (bad : value)
    (rest : list value) (e : exn) :
  Forall2 (fun m r => reply_of decode m = Ok r) good rs ->
  non_null_request bad ->
  reply_of decode bad = Throw e ->
  startPyodide_then decode (mkWorker (good ++ bad :: rest) true false false [] [])
  = (Throw e, mkWorker rest false true true rs (map raw_of (good ++ [bad]))).
Proof.
  intros H Hb He.
  unfold startPyodide_then, wbind, set_starting, set_ctx, processQueue, set_running.
  cbn [messageQueue pyodideStarting processQueueIsRunning ctx outbox decoder_runs].
  replace (negb (Nat.eqb (List.length (good ++ bad :: rest)) 0)) with true
    by (destruct good; reflexivity).
  unfold wbind.
  cbn [messageQueue pyodideStarting processQueueIsRunning ctx outbox decoder_runs].
  rewrite (drain_stops good rs bad rest e _ H Hb He) by reflexivity.
  reflexivity.
Qed.

(** C9. A plain message that has no [SYNOP_raw] and that the URL parser
    takes as a base starts Pyodide. Requests with a report text that arrive while it
    starts are appended to [messageQueue] in arrival order and nothing is
    decoded or answered. When the start completes, and the decoder returns
    a record for each of them ([reply_of] is [Ok]), the [then] callback
    drains the queue from its head within one event, one [runPython] after
    the other, posting the replies in that order; requests arriving
    afterwards are decoded and answered after them, and the main thread's
    table receives the replies in the order the requests were submitted.
    When the decoding of a buffered request raises, the drain ends there:
    the requests before it are answered in order, the request itself and
    those behind it never, and later requests only join the queue. *)
Theorem C9_buffered_requests_fifo (base : value) :
  JS.plain base = true ->
  JS.hasOwnProperty base "SYNOP_raw" = Ok false ->
  valid_base (JS.to_str base) = true ->
  let w1 := snd (onmessage valid_base decode base worker_start) in
  w1 = mkWorker [] true false false [] []
  /\ (forall early : list value,
         Forall non_null_request early ->
         snd (handle_all valid_base decode early w1) = mkWorker early true false false [] [])
  /\ (forall (early late : list value) (rs_early rs_late : list reply),
         Forall non_null_request early ->
         Forall non_null_request late ->
         Forall2 (fun m r => reply_of decode m = Ok r) early rs_early ->
         Forall2 (fun m r => reply_of decode m = Ok r) late rs_late ->
         let w3 := snd (startPyodide_then decode (snd (handle_all valid_base decode early w1))) in
         let w4 := snd (handle_all valid_base decode late w3) in
         w3 = mkWorker [] false false true rs_early (map raw_of early)
         /\ w4 = mkWorker [] false false true (rs_early ++ rs_late)
                          (map raw_of early ++ map raw_of late)
         /\ forall st, decodedSynops (snd (deliver (outbox w4) st))
                       = (decodedSynops st ++ rs_early ++ rs_late)%list)
  /\ (forall (good rest late : list value) (bad : value) (rs : list reply) (e : exn),
         Forall non_null_request (good ++ bad :: rest) ->
         Forall non_null_request late ->
         Forall2 (fun m r => reply_of decode m = Ok r) good rs ->
         reply_of decode bad = Throw e ->
         let w2 := snd (handle_all valid_base decode (good ++ bad :: rest) w1) in
         startPyodide_then decode w2
         = (Throw e, mkWorker rest false true true rs (map raw_of (good ++ [bad])))
         /\ snd (handle_all valid_base decode late (snd (startPyodide_then decode w2)))
            = mkWorker (rest ++ late) false true true rs (map raw_of (good ++ [bad]))).
Proof.
  intros _ Hbase Hurl w1.
  assert (E1 : w1 = mkWorker [] true false false [] []).
  { unfold w1, onmessage, new_URL, wbind, wlift. rewrite Hbase, Hurl. reflexivity. }
  assert (E2 : forall early, Forall non_null_request early ->
                 snd (handle_all valid_base decode early w1)
                 = mkWorker early true false false [] []).
  { intros early He. rewrite E1. rewrite handle_all_buffers by auto. reflexivity. }
  split; [exact E1|]. split; [exact E2|]. split.
  - intros early late rs_early rs_late He Hl Her Hlr w3 w4.
    assert (E3 : w3 = mkWorker [] false false true rs_early (map raw_of early)).
    { unfold w3. rewrite (E2 early He).
      erewrite startPyodide_then_fifo by (cbn; eauto). reflexivity. }
    assert (E4 : w4 = mkWorker [] false false true (rs_early ++ rs_late)
                               (map raw_of early ++ map raw_of late)).
    { unfold w4. rewrite E3. erewrite handle_all_idle by (cbn; eauto). reflexivity. }
    split; [exact E3|]. split; [exact E4|].
    intros st. rewrite E4, deliver_appends. reflexivity.
  - intros good rest late bad rs e Hq Hl Hg Hb w2.
    assert (Nb : non_null_request bad).
    { apply Forall_app in Hq. destruct Hq as (_ & Hq). now inversion Hq. }
    assert (E : startPyodide_then decode w2
                = (Throw e, mkWorker rest false true true rs (map raw_of (good ++ [bad])))).
    { unfold w2. rewrite (E2 _ Hq). now apply startPyodide_then_stops. }
    split; [exact E|]. rewrite E. cbn [snd].
    rewrite (handle_all_running late Hl) by reflexivity. reflexivity.
Qed.

End QueueFacts.

Lemma C9_witness :
  let m1 := request_message (VStr "AAXX 1") (JS.num 1) in
  let m2 := request_message (VStr "AAXX 2") (JS.num 2) in
  let m3 := request_message (VStr "AAXX 3") (JS.num 3) in
  let r (n : Z) := mkReply (VObj [("_raw", VStr ("AAXX " ++ JSNumber.Z_digits n))]) (JS.num n) in
  outbox (snd (handle_all http_base sample_decoder [m3]
                 (snd (startPyodide_then sample_decoder
                         (snd (handle_all http_base sample_decoder [m1; m2]
                                 (snd (onmessage http_base sample_decoder
                                         (VStr "http://host/") worker_start))))))))
  = [r 1; r 2; r 3].
Proof.
  intros m1 m2 m3 r.
  assert (N : forall s n, non_null_request (request_message (VStr s) (JS.num n))).
  { intros s n. exists (VStr s), (JS.num n). split; reflexivity. }
  destruct (C9_buffered_requests_fifo http_base sample_decoder (VStr "http://host/")
              eq_refl eq_refl eq_refl) as (_ & _ & H & _).
  destruct (H [m1; m2] [m3] [r 1; r 2] [r 3]) as (_ & E4 & _).
  - repeat constructor; apply N.
  - repeat constructor; apply N.
  - repeat constructor.
  - repeat constructor.
  - rewrite E4. reflexivity.
Defined.

(** Without the condition on the decoder the buffered requests are not all
    answered. Three requests with a text are buffered while Pyodide starts;
    the decoder raises on the first. The [then] callback ends with that
    exception: the first request is off the queue and unanswered, the two
    behind it stay in the queue, and [processQueueIsRunning] stays set, so
    a fourth request only joins them. Nothing is ever posted, and the main
    thread's table stays as it was. *)
Lemma C9_counterexample :
  let decode := failing_decoder "AAXX bad" in
  let m1 := request_message (VStr "AAXX bad") (JS.num 1) in
  let m2 := request_message (VStr "AAXX 2") (JS.num 2) in
  let m3 := request_message (VStr "AAXX 3") (JS.num 3) in
  let m4 := request_message (VStr "AAXX 4") (JS.num 4) in
  let w1 := snd (onmessage http_base decode (VStr "http://host/") worker_start) in
  let w2 := snd (handle_all http_base decode [m1; m2; m3] w1) in
  let w4 := snd (handle_all http_base decode [m4] (snd (startPyodide_then decode w2))) in
  Forall non_null_request [m1; m2; m3; m4]
  /\ w2 = mkWorker [m1; m2; m3] true false false [] []
  /\ startPyodide_then decode w2
     = (Throw (Error "decode failed"), mkWorker [m2; m3] false true true [] [VStr "AAXX bad"])
  /\ w4 = mkWorker [m2; m3; m4] false true true [] [VStr "AAXX bad"]
  /\ forall st, decodedSynops (snd (deliver (outbox w4) st)) = decodedSynops st.
Proof.
  intros decode m1 m2 m3 m4 w1 w2 w4.
  assert (N : forall s n, non_null_request (request_message (VStr s) (JS.num n))).
  { intros s n. exists (VStr s), (JS.num n). split; reflexivity. }
  split; [repeat constructor; apply N|].
  split; [reflexivity|]. split; [reflexivity|]. split; [reflexivity|].
  intros st. reflexivity.
Qed.

(** ** Numbers and their plotted text *)

Lemma all_from_spec (lo : Z) (n : nat) (p : Z -> bool) :
  all_from lo n p = true -> forall t, lo <= t < lo + Z.of_nat n -> p t = true.
Proof.
  induction n as [|k IH]; cbn [all_from]; intros H t Ht.
  - lia.
  - apply andb_prop in H. destruct H as [H1 H2].
    destruct (Z.eq_dec t (lo + Z.of_nat k)) as [->|Hne]; [exact H1|].
    apply IH; [exact H2|lia].
Qed.

Lemma bind_lift_ok {A B : Type} (r : result A) (a : A) (f : A -> M B) :
  r = Ok a -> bind (lift r) f = f a.
Proof. intros ->. reflexivity. Qed.

(** Evaluating the conditions of a rule on a record given by its fields. *)
Ltac js_eval :=
  repeat (progress (
    cbn [dot at_index has rbind rmap rand ror not_null is_num isnt_num is_bool
         JS.get JS.hasOwnProperty JS.is_nullish negb andb orb field];
    repeat match goal with
           | H : JS.lookup _ _ = _ |- _ => rewrite H
           end)).















(** ** The rules of slots 11 and 12 *)

Lemma leb_zero_not_gt (lat : float) :
  PrimFloat.leb lat 0 = true -> PrimFloat.ltb 0 lat = false.
Proof.
  rewrite leb_spec, ltb_spec.
  replace (Prim2SF 0) with (S754_zero false) by reflexivity.
  destruct (Prim2SF lat) as [s| s | | s m e]; try destruct s; cbn; congruence.
Qed.

Lemma wind_plot_arrow (http_ok : string -> bool) (pointCoords : value) (element : handle)
    (d speed sourceUnit : value) (dir lat : float) :
  has_wind d (VNum dir) speed sourceUnit ->
  is_calm (windSpeedSymbolMatch speed sourceUnit) = false ->
  JS.get_index pointCoords 1 = Ok (VNum lat) ->
  wind_plot http_ok pointCoords element d
  = (icon <- (console_all (windSpeedSymbolMatch_error sourceUnit) ;;
              hemisphere_arrow http_ok lat dir (windSpeedSymbolMatch speed sourceUnit)) ;;
     appendChild_icon element icon).
Proof.
  intros (l & wl & dl & sl & -> & Hw & Hd & Hdir & Hnn & Hs & Hsp & Hu) Hcalm Hlat.
  unfold wind_plot. js_eval.
  unfold field in Hdir, Hsp, Hu. rewrite Hdir, Hsp, Hu.
  cbn [negb when JS.is_nullish]. rewrite !(bind_lift_ok _ _ _ eq_refl). cbn [when].
  unfold is_calm in Hcalm. rewrite Hcalm.
  rewrite Hlat. rewrite !(bind_lift_ok _ _ _ eq_refl).
  unfold hemisphere_arrow, JS.gt_num, north_path, south_path.
  cbn [JS.to_num]. destruct (PrimFloat.ltb 0 lat); reflexivity.
Qed.

(** C5. For a record whose surface wind has a direction [dir] and a speed
    whose symbol index is not calm, at a point of latitude [lat]: a positive
    latitude loads the northern-hemisphere shaft of that index and turns it
    by [dir + 90], a latitude that is zero or negative loads the southern
    one and turns it by [dir - 90]. 12 m/s from 270 at latitude 45 gives the
    northern shaft "05" turned by 360. *)
Theorem C5_hemisphere_and_rotation :
  (forall (http_ok : string -> bool) (pointCoords : value) (element : handle)
          (d speed sourceUnit : value) (dir lat : float),
      has_wind d (VNum dir) speed sourceUnit ->
      is_calm (windSpeedSymbolMatch speed sourceUnit) = false ->
      JS.get_index pointCoords 1 = Ok (VNum lat) ->
      let symbolFileNumber := windSpeedSymbolMatch speed sourceUnit in
      let shaft (path origin transform : string) : M unit :=
        icon <- (console_all (windSpeedSymbolMatch_error sourceUnit) ;;
                 wind_arrow http_ok path origin transform) ;;
        appendChild_icon element icon in
      (PrimFloat.ltb 0 lat = true ->
       wind_plot http_ok pointCoords element d
       = shaft (north_path symbolFileNumber) "35.666 18.666"
               ("translate(-35.66 -18.66) rotate(" ++ str (dir + 90) ++ ")"))
      /\ (PrimFloat.leb lat 0 = true ->
          wind_plot http_ok pointCoords element d
          = shaft (south_path symbolFileNumber) "-6.666 18.666"
                  ("translate(6.666 -18.666)rotate(" ++ str (dir - 90) ++ ")")))
  /\ (let st := snd (wind_plot all_icons (at_latitude 45) (HSlot 12)
                       west_wind_observation (sample_state west_wind_observation)) in
      last_source st = Some (north_path "05")
      /\ last_attr "transform" st = Some "translate(-35.66 -18.66) rotate(360)"
      /\ kids (nth 12 (slots (dom st)) (Dom.fresh "" None)) = [HNode 0]).
Proof.
  split.
  - intros http_ok pointCoords element d speed sourceUnit dir lat Hw Hc Hlat sym shaft.
    pose proof (wind_plot_arrow http_ok pointCoords element d speed sourceUnit dir lat Hw Hc Hlat) as E.
    unfold hemisphere_arrow in E. split; intros H.
    + rewrite H in E. exact E.
    + rewrite (leb_zero_not_gt lat H) in E. exact E.
  - vm_compute. repeat split.
Qed.

Lemma C5_witness :
  snd (wind_plot all_icons (at_latitude (-33)) (HSlot 12) west_wind_observation
         (sample_state west_wind_observation))
  = snd ((icon <- (console_all [] ;;
                   wind_arrow all_icons (south_path "05") "-6.666 18.666"
                              "translate(6.666 -18.666)rotate(180)") ;;
          appendChild_icon (HSlot 12) icon) (sample_state west_wind_observation)).
Proof.
  destruct C5_hemisphere_and_rotation as (H & _).
  destruct (H all_icons (at_latitude (-33)) (HSlot 12) west_wind_observation
              (JS.num 12) (VStr "m/s") 270%float (-33)%float) as (_ & Hs).
  - exists [("surface_wind",
             VObj [("direction", value_of (JS.num 270));
                   ("speed", VObj [("value", JS.num 12); ("unit", VStr "m/s")])])],
           [("direction", value_of (JS.num 270));
            ("speed", VObj [("value", JS.num 12); ("unit", VStr "m/s")])],
           [("value", JS.num 270)],
           [("value", JS.num 12); ("unit", VStr "m/s")].
    unfold west_wind_observation.
    split; [reflexivity|]. split; [reflexivity|]. split; [reflexivity|].
    split; [vm_compute; reflexivity|]. split; [reflexivity|]. split; [reflexivity|].
    split; reflexivity.
  - vm_compute. reflexivity.
  - vm_compute. reflexivity.
  - rewrite Hs by (vm_compute; reflexivity). vm_compute. reflexivity.
Defined.

(** *** What the text and icon helpers leave in the store *)

Lemma update_nth_last {A : Type} (f : A -> A) (l : list A) (a : A) :
  Dom.update_nth (List.length l) f (l ++ [a]) = (l ++ [f a])%list.
Proof. induction l as [|x l IH]; cbn; [reflexivity|now rewrite IH]. Qed.

Lemma createTextElement_run (v : value) (st : state) :
  createTextElement v st
  = (Ok (List.length (nodes (dom st))),
     mkState (mkStore (slots (dom st)) (svg (dom st)) (nodes (dom st) ++ [text_element v]))
             (var_x st) (var_y st) (decodedSynops st) (posted st) (console st)).
Proof.
  assert (S : str (13.33 / 2) = "6.665") by (vm_compute; reflexivity).
  destruct st as [[sl sv nd] x y t p c].
  unfold createTextElement, createElementNS, set_innerHTML, setAttribute, modify_dom, ret.
  cbn [bind dom slots svg nodes var_x var_y decodedSynops posted console Dom.update].
  rewrite S. rewrite !update_nth_last. reflexivity.
Qed.

Lemma text_appended (element : handle) (v : value) (st : state) :
  (t <- createTextElement v ;; appendChild element (HNode t)) st
  = (Ok tt, with_child element (text_element v) st).
Proof.
  unfold bind. rewrite createTextElement_run.
  unfold appendChild, modify_dom, with_child. reflexivity.
Qed.

Lemma slashes_run (element : handle) (s : string) (st : state) :
  slashes element s st = (Ok tt, with_child element (text_element (VStr s)) st).
Proof. apply text_appended. Qed.

Lemma placed_text_run (element : handle) (v : value) (transform : string) (st : state) :
  placed_text element v transform st
  = (Ok tt, with_child element (shifted_text_element v transform) st).
Proof.
  assert (S : str (w_slot / 2) = "6.665") by (vm_compute; reflexivity).
  unfold placed_text, bind. rewrite createTextElement_run.
  destruct st as [[sl sv nd] x y t p c].
  unfold set_origin, appendChild, setAttribute, modify_dom, with_child.
  cbn [bind dom slots svg nodes var_x var_y decodedSynops posted console Dom.update].
  rewrite S. rewrite !update_nth_last. reflexivity.
Qed.

Lemma present_weather_icon_run (http_ok : string -> bool) (element : handle) (path : string)
    (st : state) :
  present_weather_icon http_ok element path st
  = (Ok tt, if http_ok path then with_child element (present_weather_element path) st else st).
Proof.
  assert (S : str (w_slot / 2) = "6.665") by (vm_compute; reflexivity).
  assert (S1 : str w_slot = "13.33") by (vm_compute; reflexivity).
  assert (S2 : str (w_slot / 10) = "1.333") by (vm_compute; reflexivity).
  unfold present_weather_icon, loadSVGIcon.
  destruct (http_ok path); [|reflexivity].
  destruct st as [[sl sv nd] x y t p c].
  unfold ret, createElementNS, set_size, appendChild, setAttribute, modify_dom, with_child.
  cbn [bind dom slots svg nodes var_x var_y decodedSynops posted console Dom.update].
  rewrite S, S1, S2. rewrite !update_nth_last. reflexivity.
Qed.

Lemma nth_update_nth_same {A : Type} (f : A -> A) (d : A) (l : list A) :
  forall i, (i < List.length l)%nat -> nth i (Dom.update_nth i f l) d = f (nth i l d).
Proof.
  induction l as [|a l IH]; intros [|i] H; cbn [Dom.update_nth nth List.length] in *;
    try lia; auto.
  apply IH. lia.
Qed.

(** The new element is the last child of the group it was appended to. *)
Lemma with_child_last (i : nat) (e : node) (st : state) :
  (i < List.length (slots (dom st)))%nat -> kids e = [] ->
  last_child (with_child (HSlot i) e st) i = Some e.
Proof.
  intros Hi He. destruct st as [[sl sv nd] x y t p c]. cbn [dom slots] in Hi.
  unfold last_child, with_child, slot_node, Dom.append, Dom.detach, Dom.update.
  cbn [dom slots svg nodes].
  assert (Hi' : (i < List.length (map (Dom.without_kid (HNode (List.length nd))) sl))%nat)
    by (rewrite length_map; exact Hi).
  rewrite (nth_update_nth_same _ no_node _ i Hi').
  unfold Dom.with_kid at 1. cbn [kids]. rewrite last_last.
  rewrite nth_error_map, nth_error_app2, Nat.sub_diag by lia. cbn [nth_error option_map].
  destruct e as [tg src at_ html ks]. cbn [kids] in He. subst ks. reflexivity.
Qed.

Lemma bind_lift_run {A B : Type} (a : A) (f : A -> M B) (st : state) :
  bind (lift (Ok a)) f st = f a st.
Proof. reflexivity. Qed.

Ltac run_lifts :=
  repeat first [ rewrite bind_lift_run
               | progress cbn [when rand ror rbind rmap negb andb orb] ].

Lemma case_11_rule (http_ok : string -> bool) (element : handle)
    (l pl wl : list (string * value)) (st : state) :
  JS.lookup "present_weather" l = Some (VObj pl) ->
  JS.lookup "weather_indicator" l = Some (VObj wl) ->
  case_11 http_ok element (VObj l) st
  = (Ok tt, shown http_ok element
              (slot11_rule (JS.eq_bool (field "automatic" wl) true) (field "value" wl) true
                           (field "value" pl)) st).
Proof.
  intros Hp Hw. unfold case_11, slot11_rule. js_eval.
  change (JSFloat.of_Z 5) with 5%float. change (JSFloat.of_Z 6) with 6%float.
  change (JSFloat.of_Z 7) with 7%float. change (JSFloat.of_Z 1) with 1%float.
  change (JSFloat.of_Z 2) with 2%float. change (JSFloat.of_Z 3) with 3%float.
  change (JSFloat.of_Z 4) with 4%float.
  unfold field.
  set (ix := match JS.lookup "value" wl with Some v => v | None => VUndef end).
  set (code := match JS.lookup "value" pl with Some v => v | None => VUndef end).
  assert (A : forall s c, shown http_ok element (Icon s c) st
                          = if http_ok (icon_set_path s c)
                            then with_child element (present_weather_element (icon_set_path s c)) st
                            else st) by reflexivity.
  destruct (JS.eq_bool _ true);
    destruct (JS.eq_num ix 5); run_lifts; try reflexivity;
    destruct (JS.eq_num ix 6); run_lifts; try apply slashes_run;
    destruct (JS.eq_num ix 7); run_lifts; try apply slashes_run;
    destruct (JS.eq_num ix 2); run_lifts; try reflexivity;
    destruct (JS.eq_num ix 3); run_lifts; try apply slashes_run;
    destruct (JS.eq_num ix 1); run_lifts; try apply slashes_run;
    destruct (JS.eq_num ix 4); run_lifts; try apply slashes_run;
    rewrite A; apply present_weather_icon_run.
Qed.

Lemma case_11_without_group (http_ok : string -> bool) (element : handle)
    (l : list (string * value)) (st : state) :
  JS.is_nullish (field "present_weather" l) = true ->
  case_11 http_ok element (VObj l) st = (Ok tt, st).
Proof.
  intros H. unfold case_11. unfold field in H.
  cbn [dot rbind rmap not_null JS.get].
  rewrite bind_lift_run. rewrite H. reflexivity.
Qed.

(** C6. Slot 11 and the weather indicator. With a present-weather group and
    a weather indicator in a plain record, the rule leaves in the slot what the
    indicator rules give: for an automatic station nothing at indicator 5,
    a new text "//" at 6, otherwise the wawa icon of the present-weather
    code padded to two digits (also at 7); for a manned station nothing at
    2 and 5, "//" at 3 and 6, otherwise the ww icon (also at 1 and 4); an
    icon is the newly loaded element, sized and shifted, appended as the
    last child of the slot, and nothing when the asset is missing. Without
    a present-weather group (the key absent or null) the rule leaves the
    slot as it was, whatever the indicator: the tests for "indicator 7 and
    no group" and "indicator 1 or 4 and no group", for which the rule in
    the words of the specification gives "//", are never reached. *)
Theorem C6_present_weather_rules :
  (forall (http_ok : string -> bool) (element : handle) (l pl wl : list (string * value))
          (st : state),
      JS.plain (VObj l) = true ->
      JS.lookup "present_weather" l = Some (VObj pl) ->
      JS.lookup "weather_indicator" l = Some (VObj wl) ->
      case_11 http_ok element (VObj l) st
      = (Ok tt, shown http_ok element
                  (slot11_rule (JS.eq_bool (field "automatic" wl) true) (field "value" wl) true
                               (field "value" pl)) st))
  /\ (forall ix code : value,
         slot11_rule true ix true code
         = if JS.eq_num ix 5 then Blank
           else if JS.eq_num ix 6 then Slashes
           else Icon "wawa" (JSString.padStart0 2 (JS.to_str code)))
  /\ (forall ix code : value,
         slot11_rule false ix true code
         = if (JS.eq_num ix 2 || JS.eq_num ix 5)%bool then Blank
           else if (JS.eq_num ix 3 || JS.eq_num ix 6)%bool then Slashes
           else Icon "ww" (JSString.padStart0 2 (JS.to_str code)))
  /\ (forall (i : nat) (e : node) (st : state),
         (i < List.length (slots (dom st)))%nat -> kids e = [] ->
         last_child (with_child (HSlot i) e st) i = Some e)
  /\ (forall (http_ok : string -> bool) (element : handle) (l : list (string * value))
             (st : state),
         JS.is_nullish (field "present_weather" l) = true ->
         case_11 http_ok element (VObj l) st = (Ok tt, st))
  /\ (forall code : value,
         slot11_rule true (JS.num 7) false code = Slashes
         /\ slot11_rule false (JS.num 1) false code = Slashes
         /\ slot11_rule false (JS.num 4) false code = Slashes)
  /\ (forall (automatic : bool) (ix : Z),
         let d := without_present_weather automatic ix in
         case_11 all_icons (HSlot 11) d (sample_state d) = (Ok tt, sample_state d)
         /\ kids (slot_node (sample_state d) 11) = [])
  /\ last_child (snd (case_11 all_icons (HSlot 11) (manned_observation 1 5)
                              (sample_state (manned_observation 1 5)))) 11
     = Some (present_weather_element
               "./symbols/ww_PresentWeather/WeatherSymbol_WMO_PresentWeather_ww_05.svg").
Proof.
  split; [|split; [|split; [|split; [|split; [|split; [|split]]]]]].
  - intros http_ok element l pl wl st _ Hp Hw. now apply case_11_rule.
  - intros ix code. unfold slot11_rule.
    change (JSFloat.of_Z 5) with 5%float. change (JSFloat.of_Z 6) with 6%float.
    destruct (JS.eq_num ix 5); [reflexivity|].
    destruct (JS.eq_num ix 6); [reflexivity|].
    cbn [orb andb negb]. rewrite andb_false_r. reflexivity.
  - intros ix code. unfold slot11_rule.
    change (JSFloat.of_Z 2) with 2%float. change (JSFloat.of_Z 5) with 5%float.
    change (JSFloat.of_Z 3) with 3%float. change (JSFloat.of_Z 6) with 6%float.
    destruct (JS.eq_num ix 2 || JS.eq_num ix 5)%bool; [reflexivity|].
    cbn [negb]. rewrite andb_false_r, orb_false_r. reflexivity.
  - exact with_child_last.
  - exact case_11_without_group.
  - intros code. split; [|split]; vm_compute; reflexivity.
  - intros automatic ix d. split.
    + apply case_11_without_group. reflexivity.
    + vm_compute. reflexivity.
  - vm_compute. reflexivity.
Qed.

Lemma C6_witness :
  case_11 all_icons (HSlot 11) (manned_observation 3 5)
    (sample_state (manned_observation 3 5))
  = (Ok tt, with_child (HSlot 11) (text_element (VStr "//"))
              (sample_state (manned_observation 3 5))).
Proof.
  unfold manned_observation at 1. unfold value_of.
  rewrite (proj1 C6_present_weather_rules all_icons (HSlot 11)
             [("weather_indicator", VObj [("value", JS.num 3); ("automatic", VBool false)]);
              ("present_weather", VObj [("value", JS.num 5)])]
             [("value", JS.num 5)]
             [("value", JS.num 3); ("automatic", VBool false)]
             (sample_state (manned_observation 3 5))
             eq_refl eq_refl eq_refl).
  reflexivity.
Defined.

(** ** Slot 18 writes to the decoded record *)

Section TableFacts.

Variable http_ok : string -> bool.
Variable P : list reply -> Prop.

Lemma snd_bind {A B : Type} (m : M A) (f : A -> M B) (st : state) :
  snd (bind m f st)
  = match m st with
    | (Ok a, st') => snd (f a st')
    | (Throw _, st') => st'
    end.
Proof. unfold bind. destruct (m st) as [[a|e] st']; reflexivity. Qed.

Lemma keeps_bind {A B : Type} (m : M A) (f : A -> M B) :
  keeps P m -> (forall a, keeps P (f a)) -> keeps P (bind m f).
Proof.
  intros Hm Hf st HP. rewrite snd_bind.
  specialize (Hm st HP). destruct (m st) as [[a|e] st']; cbn in *; auto.
  now apply Hf.
Qed.

Lemma keeps_ret {A : Type} (a : A) : keeps P (ret a).
Proof. intros st HP. exact HP. Qed.

Lemma keeps_lift {A : Type} (r : result A) : keeps P (lift r).
Proof. intros st HP. exact HP. Qed.

Lemma keeps_when (b : bool) (m : M unit) : keeps P m -> keeps P (when b m).
Proof. destruct b; cbn; auto using keeps_ret. Qed.

Lemma keeps_modify_dom (f : store -> store) : keeps P (modify_dom f).
Proof. intros st HP. exact HP. Qed.

Lemma keeps_createElementNS (t : string) (src : option string) :
  keeps P (createElementNS t src).
Proof. intros st HP. exact HP. Qed.

Lemma keeps_setAttribute (h : handle) (k v : string) : keeps P (setAttribute h k v).
Proof. apply keeps_modify_dom. Qed.

Lemma keeps_appendChild (p c : handle) : keeps P (appendChild p c).
Proof. apply keeps_modify_dom. Qed.

Lemma keeps_loadSVGIcon (path : string) : keeps P (loadSVGIcon http_ok path).
Proof.
  unfold loadSVGIcon. destruct (http_ok path).
  - apply keeps_bind; [apply keeps_createElementNS|intros; apply keeps_ret].
  - apply keeps_ret.
Qed.

Lemma keeps_set_size (n : nat) (w h : float) : keeps P (set_size n w h).
Proof.
  unfold set_size.
  repeat (apply keeps_bind; [apply keeps_setAttribute|intros _]).
  apply keeps_setAttribute.
Qed.

Lemma keeps_decodedData (entry : nat) : keeps P (decodedData entry).
Proof. intros st HP. exact HP. Qed.

Lemma keeps_past_weather_value (entry i : nat) : keeps P (past_weather_value entry i).
Proof.
  unfold past_weather_value.
  apply keeps_bind; [apply keeps_decodedData|intros; apply keeps_lift].
Qed.

Lemma keeps_past_weather_icon (element : handle) (path : string)
    (transform : option string) (red : bool) (after : M unit) :
  keeps P after ->
  keeps P (past_weather_icon http_ok element path transform red after).
Proof.
  intros Ha. unfold past_weather_icon.
  apply keeps_bind; [apply keeps_loadSVGIcon|intros [n|]; [|apply keeps_ret]].
  apply keeps_bind; [apply keeps_set_size|intros _].
  apply keeps_bind; [destruct transform; [apply keeps_setAttribute|apply keeps_ret]|intros _].
  apply keeps_bind; [apply keeps_when, keeps_setAttribute|intros _].
  apply keeps_bind; [apply keeps_appendChild|intros _; exact Ha].
Qed.

End TableFacts.

Lemma lookup_assign (k : string) (v : value) (l : list (string * value)) :
  JS.lookup k (JS.assign k v l) = Some v.
Proof.
  induction l as [|[k' v'] l IH]; cbn.
  - now rewrite String.eqb_refl.
  - destruct (String.eqb k k') eqn:E; cbn; rewrite ?String.eqb_refl, ?E; auto.
Qed.

Lemma nth_error_update_nth {A : Type} (f : A -> A) (l : list A) :
  forall (n : nat) (a : A),
  nth_error l n = Some a -> nth_error (Dom.update_nth n f l) n = Some (f a).
Proof.
  induction l as [|b l IH]; intros [|n] a H; cbn [nth_error Dom.update_nth] in *;
    try discriminate.
  - now inversion H.
  - now apply IH.
Qed.

(** Writing "3a" to the second entry leaves the first one alone. *)
Lemma rename_second_keeps_first (entry : nat) :
  keeps (first_is_3a entry) (rename_3 entry 1).
Proof.
  unfold rename_3. apply keeps_bind; [apply keeps_decodedData|intros d].
  apply keeps_bind; [apply keeps_lift|intros [|]; [|apply keeps_ret]].
  intros st (r & l & pw0 & rest & Hn & Hd & Hp & Hv).
  unfold assign_decoded. cbn [snd decodedSynops].
  change (JSNumber.Z_digits (Z.of_nat 1)) with "1".
  eexists _, _, pw0, _. split; [apply nth_error_update_nth; exact Hn|].
  cbn [decoded]. rewrite Hd. cbn [set_path]. rewrite Hp.
  change (JS.index_of_key "1") with (Some 1%nat). cbn [Dom.update_nth].
  split; [reflexivity|split; [apply lookup_assign|exact Hv]].
Qed.

Lemma get_index_0 (l : list value) : JS.get_index (VArr l) 0 = Ok (nth 0 l VUndef).
Proof. reflexivity. Qed.

Lemma get_index_1 (l : list value) : JS.get_index (VArr l) 1 = Ok (nth 1 l VUndef).
Proof. reflexivity. Qed.

Lemma get_total (v : value) (k : string) :
  JS.is_nullish v = false -> exists x, JS.get v k = Ok x.
Proof.
  destruct v; cbn [JS.is_nullish JS.get]; try discriminate; intros _; eauto.
  - destruct (String.eqb k "length"); [eauto|destruct (JS.index_of_key k); eauto].
  - destruct (String.eqb k "length"); [eauto|destruct (JS.index_of_key k); eauto].
Qed.

(** The test for a second symbol never throws. *)
Lemma second_symbol_total (w2 : value) :
  exists b, rand (not_null (Ok w2)) (plotted (Ok w2 ./ "value")) = Ok b.
Proof.
  cbn [not_null rmap rbind rand].
  destruct (JS.is_nullish w2) eqn:E; cbn [negb]; [eauto|].
  destruct (get_total w2 "value" E) as (x & Hx).
  cbn [dot rbind]. rewrite Hx. unfold plotted.
  cbn [not_null isnt_num rmap rbind rand].
  destruct (negb (JS.is_nullish x)); [|eauto].
  destruct (negb (JS.eq_num x 0)); [|eauto].
  destruct (negb (JS.eq_num x 1)); eauto.
Qed.

Lemma table_decoded_entry (st : state) (entry : nat) (l : list (string * value)) :
  table_decoded st entry = VObj l ->
  exists r, nth_error (decodedSynops st) entry = Some r /\ decoded r = VObj l.
Proof.
  unfold table_decoded. destruct (nth_error (decodedSynops st) entry) as [r|]; [eauto|discriminate].
Qed.

(** On a record whose first past-weather entry is the number 3, the first
    renaming writes "3a" into the table. *)
Lemma rename_first (entry : nat) (st : state) (l pw0 : list (string * value))
    (rest : list value) :
  table_decoded st entry = VObj l ->
  JS.lookup "past_weather" l = Some (VArr (VObj pw0 :: rest)) ->
  JS.lookup "value" pw0 = Some (VNum 3) ->
  exists st',
    rename_3 entry 0 st = (Ok tt, st')
    /\ dom st' = dom st
    /\ first_is_3a entry (decodedSynops st')
    /\ table_decoded st' entry
       = VObj (JS.assign "past_weather"
                 (VArr (VObj (JS.assign "value" (VStr "3a") pw0) :: rest)) l).
Proof.
  intros Ht Hp Hv. destruct (table_decoded_entry st entry l Ht) as (r & Hn & Hd).
  unfold rename_3, bind, decodedData. fold (table_decoded st entry). rewrite Ht.
  cbn [dot rbind JS.get]. rewrite Hp. unfold at_index. cbn [rbind].
  rewrite get_index_0. cbn [nth rbind dot JS.get is_num rmap]. rewrite Hv.
  replace (JS.eq_num (VNum 3) 3) with true by reflexivity.
  cbn [lift when]. unfold assign_decoded.
  change (JSNumber.Z_digits (Z.of_nat 0)) with "0".
  eexists. split; [reflexivity|]. split; [reflexivity|].
  assert (E : set_path ["past_weather"; "0"; "value"] (VStr "3a") (VObj l)
              = VObj (JS.assign "past_weather"
                        (VArr (VObj (JS.assign "value" (VStr "3a") pw0) :: rest)) l)).
  { cbn [set_path]. rewrite Hp. change (JS.index_of_key "0") with (Some 0%nat).
    cbn [Dom.update_nth set_path]. reflexivity. }
  split.
  - cbn [decodedSynops].
    eexists _, _, _, rest. split; [apply nth_error_update_nth; exact Hn|].
    cbn [decoded]. rewrite Hd, E.
    split; [reflexivity|split; apply lookup_assign].
  - unfold table_decoded. cbn [decodedSynops].
    rewrite (nth_error_update_nth _ _ _ _ Hn). cbn [decoded]. rewrite Hd. exact E.
Qed.

Lemma rename_second (entry : nat) (st : state) (l p0 pw1 : list (string * value))
    (rest : list value) :
  table_decoded st entry = VObj l ->
  JS.lookup "past_weather" l = Some (VArr (VObj p0 :: VObj pw1 :: rest)) ->
  JS.lookup "value" p0 = Some (VStr "3a") ->
  JS.lookup "value" pw1 = Some (VNum 3) ->
  exists st',
    rename_3 entry 1 st = (Ok tt, st') /\ both_are_3a entry (decodedSynops st').
Proof.
  intros Ht Hp Hv0 Hv1. destruct (table_decoded_entry st entry l Ht) as (r & Hn & Hd).
  unfold rename_3, bind, decodedData. fold (table_decoded st entry). rewrite Ht.
  cbn [dot rbind JS.get]. rewrite Hp. unfold at_index. cbn [rbind].
  rewrite get_index_1. cbn [nth rbind dot JS.get is_num rmap]. rewrite Hv1.
  replace (JS.eq_num (VNum 3) 3) with true by reflexivity.
  cbn [lift when]. unfold assign_decoded.
  change (JSNumber.Z_digits (Z.of_nat 1)) with "1".
  eexists. split; [reflexivity|].
  cbn [decodedSynops].
  eexists _, _, p0, _, rest. split; [apply nth_error_update_nth; exact Hn|].
  cbn [decoded]. rewrite Hd. cbn [set_path]. rewrite Hp.
  change (JS.index_of_key "1") with (Some 1%nat). cbn [Dom.update_nth set_path].
  split; [reflexivity|split; [apply lookup_assign|split; [exact Hv0|apply lookup_assign]]].
Qed.

Lemma table_decoded_same (st st' : state) (entry : nat) :
  decodedSynops st' = decodedSynops st -> table_decoded st' entry = table_decoded st entry.
Proof. unfold table_decoded. now intros ->. Qed.

Section Slot18.

Variable http_ok : string -> bool.

Lemma case_18_tail_keeps (P : list reply -> Prop) (o : options) (entry : nat)
    (element : handle) (p1 p2 : value -> string) (t1 t2 : option string) (after : M unit) :
  keeps P after ->
  keeps P (v1 <- past_weather_value entry 0 ;;
           past_weather_icon http_ok element (p1 v1) t1 false after ;;
           v2 <- past_weather_value entry 1 ;;
           past_weather_icon http_ok element (p2 v2) t2 (polyChromatic o) (ret tt)).
Proof.
  intros Ha.
  apply keeps_bind; [apply keeps_past_weather_value|intros v1].
  apply keeps_bind; [apply keeps_past_weather_icon; exact Ha|intros _].
  apply keeps_bind; [apply keeps_past_weather_value|intros v2].
  apply keeps_past_weather_icon, keeps_ret.
Qed.

Lemma case_18_first (o : options) (entry : nat) (element : handle) (st : state)
    (l pw0 wl : list (string * value)) (rest : list value) :
  table_decoded st entry = VObj l ->
  JS.lookup "past_weather" l = Some (VArr (VObj pw0 :: rest)) ->
  JS.lookup "value" pw0 = Some (VNum 3) ->
  JS.lookup "weather_indicator" l = Some (VObj wl) ->
  JS.eq_num (field "automatic" wl) 1 = false ->
  first_is_3a entry (decodedSynops (snd (case_18 http_ok o entry element (VObj l) st))).
Proof.
  intros Ht Hp Hv Hw Ha.
  destruct (rename_first entry st l pw0 rest Ht Hp Hv) as (st' & Hr & _ & H3 & _).
  unfold case_18. js_eval. unfold at_index. cbn [rbind].
  rewrite get_index_0, get_index_1. cbn [nth].
  change (not_null (Ok (VObj pw0))) with (Ok true). cbn [ror rbind lift].
  rewrite !(bind_lift_ok _ true _ eq_refl). cbn [when].
  unfold field in Ha. rewrite Ha. rewrite (bind_lift_ok _ false _ eq_refl).
  destruct (second_symbol_total (nth 0 rest VUndef)) as ([|] & Hb); rewrite Hb;
    rewrite (bind_lift_ok _ _ _ eq_refl).
  - rewrite snd_bind, Hr.
    apply (case_18_tail_keeps _ o entry element
             (fun v1 => _ ++ JS.to_str v1 ++ ".svg") (fun v2 => _ ++ JS.to_str v2 ++ ".svg"));
      [apply rename_second_keeps_first|exact H3].
  - cbn [dot rbind JS.get]. rewrite Hv.
    replace (plotted (Ok (VNum 3))) with (Ok true) by reflexivity.
    cbn [rand rbind]. rewrite (bind_lift_ok _ true _ eq_refl). cbn [when].
    rewrite snd_bind, Hr.
    revert H3. generalize st'. fold (keeps (first_is_3a entry)
      (v1 <- past_weather_value entry 0 ;;
       past_weather_icon http_ok element
         ("./symbols/W1W2_PastWeather/WeatherSymbol_WMO_PastWeather_W1W2_" ++ JS.to_str v1 ++ ".svg")
         None (polyChromatic o) (ret tt))).
    apply keeps_bind; [apply keeps_past_weather_value|intros v1].
    apply keeps_past_weather_icon, keeps_ret.
Qed.

(** With its asset at hand, a past-weather icon is created and appended,
    the table untouched, and [after] runs. *)
Lemma past_weather_icon_loaded (element : handle) (path : string)
    (transform : option string) (red : bool) (after : M unit) (st : state) :
  http_ok path = true ->
  exists st',
    decodedSynops st' = decodedSynops st
    /\ past_weather_icon http_ok element path transform red after st = after st'.
Proof.
  intros H. unfold past_weather_icon, loadSVGIcon. rewrite H.
  unfold bind, createElementNS, ret, set_size, setAttribute, appendChild, modify_dom, when.
  cbn [fst snd]. destruct transform, red; cbn [fst snd dom var_x var_y decodedSynops posted console];
    (eexists; split; [|reflexivity]); reflexivity.
Qed.

Lemma case_18_second (o : options) (entry : nat) (element : handle) (st : state)
    (l pw0 pw1 wl : list (string * value)) (rest : list value) :
  table_decoded st entry = VObj l ->
  JS.lookup "past_weather" l = Some (VArr (VObj pw0 :: VObj pw1 :: rest)) ->
  JS.lookup "value" pw0 = Some (VNum 3) ->
  JS.lookup "value" pw1 = Some (VNum 3) ->
  JS.lookup "weather_indicator" l = Some (VObj wl) ->
  JS.eq_num (field "automatic" wl) 1 = false ->
  http_ok (past_weather_path "3a") = true ->
  both_are_3a entry (decodedSynops (snd (case_18 http_ok o entry element (VObj l) st))).
Proof.
  intros Ht Hp Hv0 Hv1 Hw Ha Hok.
  destruct (rename_first entry st l pw0 _ Ht Hp Hv0) as (st1 & Hr & _ & _ & Ht1).
  unfold case_18. js_eval. unfold at_index. cbn [rbind].
  rewrite get_index_0, get_index_1. cbn [nth].
  change (not_null (Ok (VObj pw0))) with (Ok true). cbn [ror rbind lift].
  rewrite !(bind_lift_ok _ true _ eq_refl). cbn [when].
  unfold field in Ha. rewrite Ha. rewrite (bind_lift_ok _ false _ eq_refl).
  change (not_null (Ok (VObj pw1))) with (Ok true).
  cbn [rand rbind dot JS.get]. rewrite Hv1.
  replace (plotted (Ok (VNum 3))) with (Ok true) by reflexivity.
  rewrite (bind_lift_ok _ true _ eq_refl).
  rewrite snd_bind, Hr.
  (* the path of the first icon is read from the renamed record *)
  rewrite snd_bind.
  assert (E1 : past_weather_value entry 0 st1 = (Ok (VStr "3a"), st1)).
  { unfold past_weather_value, bind, decodedData. fold (table_decoded st1 entry).
    rewrite Ht1. cbn [dot rbind JS.get lift]. rewrite lookup_assign.
    unfold at_index. cbn [rbind]. rewrite get_index_0.
    cbn [nth rbind dot JS.get]. rewrite lookup_assign. reflexivity. }
  rewrite E1. cbn [JS.to_str].
  rewrite snd_bind.
  destruct (past_weather_icon_loaded element
              ("./symbols/W1W2_PastWeather/WeatherSymbol_WMO_PastWeather_W1W2_" ++ "3a" ++ ".svg")
              (Some ("translate(-" ++ str (w_slot / 3.8) ++ " 0)")) false
              (rename_3 entry 1) st1 Hok) as (st2 & HT & ->).
  destruct (rename_second entry st2 _ _ pw1 rest
              (eq_trans (table_decoded_same st1 st2 entry HT) Ht1)
              (lookup_assign _ _ _) (lookup_assign _ _ _) Hv1) as (st3 & -> & H3).
  revert H3. generalize st3.
  fold (keeps (both_are_3a entry)
          (v2 <- past_weather_value entry 1 ;;
           past_weather_icon http_ok element
             ("./symbols/W1W2_PastWeather/WeatherSymbol_WMO_PastWeather_W1W2_" ++ JS.to_str v2 ++ ".svg")
             (Some ("translate(" ++ str (w_slot / 2.2) ++ " 0)")) (polyChromatic o) (ret tt))).
  apply keeps_bind; [apply keeps_past_weather_value|intros v2].
  apply keeps_past_weather_icon, keeps_ret.
Qed.

End Slot18.

Lemma first_is_3a_read (entry : nat) (st : state) :
  first_is_3a entry (decodedSynops st) ->
  past_weather_of (table_decoded st entry) 0 = Ok (VStr "3a").
Proof.
  intros (r & l & pw0 & rest & Hn & Hd & Hp & Hv).
  unfold table_decoded, past_weather_of. rewrite Hn, Hd.
  cbn [dot rbind JS.get]. rewrite Hp. unfold at_index. cbn [rbind].
  rewrite get_index_0. cbn [nth dot rbind JS.get]. now rewrite Hv.
Qed.

Lemma both_are_3a_read (entry : nat) (st : state) :
  both_are_3a entry (decodedSynops st) ->
  past_weather_of (table_decoded st entry) 0 = Ok (VStr "3a")
  /\ past_weather_of (table_decoded st entry) 1 = Ok (VStr "3a").
Proof.
  intros (r & l & pw0 & pw1 & rest & Hn & Hd & Hp & Hv0 & Hv1).
  unfold table_decoded, past_weather_of. rewrite Hn, Hd.
  cbn [dot rbind JS.get]. rewrite Hp. unfold at_index. cbn [rbind].
  rewrite get_index_0, get_index_1. cbn [nth dot rbind JS.get]. now rewrite Hv0, Hv1.
Qed.

(** C10. Rendering writes to the decoded record. For a manned station
    whose first past-weather entry is the number 3, the slot-18 rule leaves
    the string "3a" in [past_weather[0].value] of the table entry it reads,
    whatever the second entry, the options and the icons available; when the
    second entry is 3 too and the first icon loads, [past_weather[1].value]
    becomes "3a" as well. A whole [meteoStation] call on such a record
    returns with the table entry changed from 3 to "3a" in both places, and
    the two icons it loaded are those of "3a". *)
Theorem C10_rendering_rewrites_table_entry :
  (forall (http_ok : string -> bool) (o : options) (entry : nat) (element : handle)
          (st : state) (l pw0 wl : list (string * value)) (rest : list value),
      table_decoded st entry = VObj l ->
      JS.lookup "past_weather" l = Some (VArr (VObj pw0 :: rest)) ->
      JS.lookup "value" pw0 = Some (VNum 3) ->
      JS.lookup "weather_indicator" l = Some (VObj wl) ->
      JS.eq_num (field "automatic" wl) 1 = false ->
      past_weather_of (table_decoded st entry) 0 = Ok (VNum 3)
      /\ past_weather_of
           (table_decoded (snd (case_18 http_ok o entry element (VObj l) st)) entry) 0
         = Ok (VStr "3a"))
  /\ (forall (http_ok : string -> bool) (o : options) (entry : nat) (element : handle)
             (st : state) (l pw0 pw1 wl : list (string * value)) (rest : list value),
         table_decoded st entry = VObj l ->
         JS.lookup "past_weather" l = Some (VArr (VObj pw0 :: VObj pw1 :: rest)) ->
         JS.lookup "value" pw0 = Some (VNum 3) ->
         JS.lookup "value" pw1 = Some (VNum 3) ->
         JS.lookup "weather_indicator" l = Some (VObj wl) ->
         JS.eq_num (field "automatic" wl) 1 = false ->
         http_ok (past_weather_path "3a") = true ->
         past_weather_of
           (table_decoded (snd (case_18 http_ok o entry element (VObj l) st)) entry) 1
         = Ok (VStr "3a"))
  /\ (let st0 := module_state [mkReply blowing_snow_observation (JS.num 1)] in
      let run := meteoStation all_icons sample_data (at_latitude 45) no_user_options st0 in
      fst run = Ok tt
      /\ past_weather_of (table_decoded st0 0) 0 = Ok (VNum 3)
      /\ past_weather_of (table_decoded st0 0) 1 = Ok (VNum 3)
      /\ past_weather_of (table_decoded (snd run) 0) 0 = Ok (VStr "3a")
      /\ past_weather_of (table_decoded (snd run) 0) 1 = Ok (VStr "3a")
      /\ map source (nodes (dom (snd run)))
         = [Some (past_weather_path "3a"); Some (past_weather_path "3a")]).
Proof.
  split; [|split].
  - intros http_ok o entry element st l pw0 wl rest Ht Hp Hv Hw Ha. split.
    + rewrite Ht. unfold past_weather_of. cbn [dot rbind JS.get]. rewrite Hp.
      unfold at_index. cbn [rbind]. rewrite get_index_0. cbn [nth dot rbind JS.get]. now rewrite Hv.
    + apply first_is_3a_read. now apply case_18_first with (pw0 := pw0) (wl := wl) (rest := rest).
  - intros http_ok o entry element st l pw0 pw1 wl rest Ht Hp Hv0 Hv1 Hw Ha Hok.
    apply both_are_3a_read.
    now apply case_18_second with (pw0 := pw0) (pw1 := pw1) (wl := wl) (rest := rest).
  - vm_compute. repeat split.
Qed.

Lemma C10_witness :
  let d := blowing_snow_observation in
  past_weather_of (table_decoded (snd (case_18 no_icons defaultOptions 0 (HSlot 18) d
                                               (sample_state d))) 0) 0
  = Ok (VStr "3a").
Proof.
  destruct C10_rendering_rewrites_table_entry as (H & _).
  exact (proj2 (H no_icons defaultOptions 0%nat (HSlot 18)
                  (sample_state blowing_snow_observation)
                  [("weather_indicator", VObj [("value", JS.num 1); ("automatic", VBool false)]);
                   ("past_weather", VArr [value_of (JS.num 3); value_of (JS.num 3)])]
                  [("value", JS.num 3)]
                  [("value", JS.num 1); ("automatic", VBool false)]
                  [value_of (JS.num 3)]
                  eq_refl eq_refl eq_refl eq_refl eq_refl)).
Defined.

(** ** What a slot rule leaves alone *)

Lemma nth_update_nth_other {A : Type} (f : A -> A) (d : A) (l : list A) :
  forall i j, j <> i -> nth j (Dom.update_nth i f l) d = nth j l d.
Proof.
  induction l as [|a l IH]; intros [|i] [|j] H; cbn [Dom.update_nth nth]; auto.
  - congruence.
Qed.

Lemma nth_update_nth_beyond {A : Type} (f : A -> A) (d : A) (l : list A) :
  forall i, (List.length l <= i)%nat -> nth i (Dom.update_nth i f l) d = nth i l d.
Proof.
  induction l as [|a l IH]; intros [|i] H; cbn [Dom.update_nth nth List.length] in *;
    try lia; auto.
  apply IH. lia.
Qed.

Lemma length_update_nth {A : Type} (f : A -> A) (l : list A) :
  forall i, List.length (Dom.update_nth i f l) = List.length l.
Proof.
  induction l as [|a l IH]; intros [|i]; cbn [Dom.update_nth List.length]; auto.
Qed.

Lemma get_attr_set_attr_other (k k' v : string) (l : list (string * string)) :
  String.eqb k' k = false ->
  Dom.get_attr k' (Dom.set_attr k v l) = Dom.get_attr k' l.
Proof.
  intros H. induction l as [|[a b] l IH]; cbn [Dom.set_attr Dom.get_attr].
  - now rewrite H.
  - destruct (String.eqb k a) eqn:E; cbn [Dom.get_attr].
    + apply String.eqb_eq in E. subst a. now rewrite H.
    + now rewrite IH.
Qed.

Lemma get_attr_set_attr_same (k v : string) (l : list (string * string)) :
  Dom.get_attr k (Dom.set_attr k v l) = Some v.
Proof.
  induction l as [|[a b] l IH]; cbn [Dom.set_attr Dom.get_attr].
  - now rewrite String.eqb_refl.
  - destruct (String.eqb k a) eqn:E; cbn [Dom.get_attr]; rewrite ?String.eqb_refl, ?E; auto.
Qed.

Lemma filter_slots_without (n : nat) (l : list handle) :
  filter is_slot (filter (fun h => negb (handle_eqb h (HNode n))) l) = filter is_slot l.
Proof.
  induction l as [|h l IH]; cbn [filter]; auto.
  destruct h as [|i|m]; cbn [handle_eqb negb is_slot filter]; rewrite ?IH; auto.
  destruct (Nat.eqb m n); cbn [negb filter is_slot]; auto.
Qed.

Lemma filter_slots_app_node (n : nat) (l : list handle) :
  filter is_slot (l ++ [HNode n]) = filter is_slot l.
Proof. rewrite filter_app. cbn. apply app_nil_r. Qed.

Lemma without_kid_absent (c : handle) (nd : node) :
  ~ In c (kids nd) -> Dom.without_kid c nd = nd.
Proof.
  intros H. destruct nd as [t s a i k]. unfold Dom.without_kid. cbn [tag source attrs innerHTML kids] in *.
  f_equal. induction k as [|h k IH]; cbn [filter]; auto.
  destruct (handle_eqb h c) eqn:E; cbn [negb].
  - exfalso. apply H. left.
    destruct h, c; cbn in E; try discriminate; auto; apply Nat.eqb_eq in E; now subst.
  - f_equal. apply IH. intros Hin. apply H. now right.
Qed.

Lemma nth_map_without (c : handle) (l : list node) (j : nat) :
  nth j (map (Dom.without_kid c) l) no_node = Dom.without_kid c (nth j l no_node).
Proof.
  change no_node with (Dom.without_kid c no_node) at 1. apply map_nth.
Qed.

Section Frame.

Variable http_ok : string -> bool.
Variables idx N0 : nat.

Lemma stable_refl (st : state) : stable idx N0 st st.
Proof. constructor; auto. Qed.

Lemma stable_trans (st1 st2 st3 : state) :
  stable idx N0 st1 st2 -> stable idx N0 st2 st3 -> stable idx N0 st1 st3.
Proof.
  intros [L1 A1 S1 T1 V1 N1 X1 Y1 C1] [L2 A2 S2 T2 V2 N2 X2 Y2 C2].
  constructor; try congruence; try lia; auto.
  - intros j Hj. rewrite A2, A1; auto.
  - intros j Hj Hb. rewrite S2; auto. rewrite S1; auto.
Qed.

Lemma ok_ret {A : Type} (Q : A -> Prop) (a : A) : Q a -> okM idx N0 Q (ret a).
Proof.
  intros HQ st a' st' _ H. inversion H; subst. split; [apply stable_refl|exact HQ].
Qed.

Lemma ok_lift {A : Type} (r : result A) : okM idx N0 anything (lift r).
Proof.
  intros st a st' _ H. unfold lift in H. inversion H; subst.
  split; [apply stable_refl|exact I].
Qed.

Lemma ok_throw {A : Type} (Q : A -> Prop) (e : exn) : okM idx N0 Q (throw e).
Proof. intros st a st' _ H. discriminate. Qed.

Lemma ok_bind {A B : Type} (Q : A -> Prop) (Q' : B -> Prop) (m : M A) (f : A -> M B) :
  okM idx N0 Q m -> (forall a, Q a -> okM idx N0 Q' (f a)) -> okM idx N0 Q' (bind m f).
Proof.
  intros Hm Hf st b st' HN H. unfold bind in H.
  destruct (m st) as [[a|e] st1] eqn:E; [|discriminate].
  destruct (Hm st a st1 HN E) as [S1 Qa].
  destruct (Hf a Qa st1 b st' ltac:(pose proof (st_nodes _ _ _ _ S1); lia) H) as [S2 Qb].
  split; [eapply stable_trans; eauto|exact Qb].
Qed.

Lemma ok_weaken {A : Type} (Q Q' : A -> Prop) (m : M A) :
  okM idx N0 Q m -> (forall a, Q a -> Q' a) -> okM idx N0 Q' m.
Proof.
  intros Hm HQ st a st' HN H. destruct (Hm st a st' HN H). auto.
Qed.

Lemma ok_when (b : bool) (m : M unit) :
  okM idx N0 anything m -> okM idx N0 anything (when b m).
Proof. destruct b; cbn [when]; auto. intros _. now apply ok_ret. Qed.

Lemma ok_createElementNS (t : string) (src : option string) :
  okM idx N0 (is_new N0) (createElementNS t src).
Proof.
  intros st a st' HN H. unfold createElementNS in H. inversion H; subst. split; [|exact HN].
  constructor; cbn; auto. rewrite length_app. lia.
Qed.

Lemma ok_console_log (m : string) : okM idx N0 anything (console_log m).
Proof.
  intros st a st' HN H. unfold console_log in H. inversion H; subst. split; [|exact I].
  constructor; cbn; auto. intros m' Hm. apply in_or_app. now left.
Qed.

Lemma ok_decodedData (entry : nat) : okM idx N0 anything (decodedData entry).
Proof.
  intros st a st' HN H. unfold decodedData in H. inversion H; subst.
  split; [apply stable_refl|exact I].
Qed.

Lemma ok_assign_decoded (entry : nat) (path : list string) (v : value) :
  okM idx N0 anything (assign_decoded entry path v).
Proof.
  intros st a st' HN H. unfold assign_decoded in H. inversion H; subst. split; [|exact I].
  constructor; cbn; auto.
Qed.

Lemma ok_update_node (n : nat) (f : node -> node) :
  okM idx N0 anything (modify_dom (Dom.update (HNode n) f)).
Proof.
  intros st a st' HN H. unfold modify_dom in H. inversion H; subst. split; [|exact I].
  constructor; cbn; auto. rewrite length_update_nth. lia.
Qed.

Lemma ok_setAttribute_node (n : nat) (k v : string) :
  okM idx N0 anything (setAttribute (HNode n) k v).
Proof. apply ok_update_node. Qed.

Lemma ok_set_innerHTML (n : nat) (v : value) :
  okM idx N0 anything (set_innerHTML (HNode n) v).
Proof. apply ok_update_node. Qed.

(** The slot's own group may get any attribute but its transform. *)
Lemma ok_setAttribute_slot (k v : string) :
  String.eqb "transform" k = false ->
  okM idx N0 anything (setAttribute (HSlot idx) k v).
Proof.
  intros Hk st a st' HN H. unfold setAttribute, modify_dom in H. inversion H; subst.
  split; [|exact I].
  constructor; unfold slot_node, slots_appended; cbn [dom Dom.update slots svg nodes var_x var_y console]; auto.
  - apply length_update_nth.
  - intros j Hj. now rewrite nth_update_nth_other.
  - intros j Hj _. now rewrite nth_update_nth_other.
  - destruct (Nat.lt_ge_cases idx (List.length (slots (dom st)))) as [Hlt|Hge].
    + rewrite nth_update_nth_same by exact Hlt. cbn [attrs Dom.with_attr].
      now apply get_attr_set_attr_other.
    + now rewrite nth_update_nth_beyond.
Qed.

Lemma stable_append (p : handle) (n : nat) (st : state) :
  (N0 <= n)%nat ->
  p = HSlot idx \/ p = HSvg ->
  stable idx N0 st
    (mkState (Dom.append p (HNode n) (dom st)) (var_x st) (var_y st)
             (decodedSynops st) (posted st) (console st)).
Proof.
  intros Hn Hp.
  assert (Hw : forall j, attrs (nth j (map (Dom.without_kid (HNode n)) (slots (dom st))) no_node)
                         = attrs (nth j (slots (dom st)) no_node)).
  { intros j. now rewrite nth_map_without. }
  assert (Hs : forall j,
             (forall m, In (HNode m) (kids (nth j (slots (dom st)) no_node)) -> (m < N0)%nat) ->
             nth j (map (Dom.without_kid (HNode n)) (slots (dom st))) no_node
             = nth j (slots (dom st)) no_node).
  { intros j Hb. rewrite nth_map_without. apply without_kid_absent.
    intros Hin. apply Hb in Hin. lia. }
  unfold Dom.append, Dom.detach.
  destruct Hp as [-> | ->];
    constructor; unfold slot_node, slots_appended;
    cbn [dom Dom.update slots svg nodes var_x var_y console kids Dom.with_kid Dom.without_kid];
    try reflexivity; try (intros; assumption);
    try (rewrite ?length_update_nth, length_map; (reflexivity || lia));
    try (intros j Hj; rewrite ?nth_update_nth_other by exact Hj; now rewrite Hw);
    try (intros j Hj Hb; rewrite ?nth_update_nth_other by exact Hj; now apply Hs);
    try (now rewrite Hw);
    try (rewrite ?filter_slots_app_node; now apply filter_slots_without).
  destruct (Nat.lt_ge_cases idx (List.length (slots (dom st)))) as [Hlt|Hge].
  - rewrite nth_update_nth_same by (now rewrite length_map). cbn [attrs Dom.with_kid].
    now rewrite Hw.
  - rewrite nth_update_nth_beyond by (now rewrite length_map). now rewrite Hw.
Qed.

Lemma ok_appendChild_slot (n : nat) :
  (N0 <= n)%nat -> okM idx N0 anything (appendChild (HSlot idx) (HNode n)).
Proof.
  intros Hn st a st' HN H. unfold appendChild, modify_dom in H.
  apply (f_equal snd) in H. cbn [snd] in H. subst st'.
  split; [exact (stable_append (HSlot idx) n st Hn (or_introl eq_refl))|exact I].
Qed.

Lemma ok_appendChild_svg (n : nat) :
  (N0 <= n)%nat -> okM idx N0 anything (appendChild HSvg (HNode n)).
Proof.
  intros Hn st a st' HN H. unfold appendChild, modify_dom in H.
  apply (f_equal snd) in H. cbn [snd] in H. subst st'.
  split; [exact (stable_append HSvg n st Hn (or_intror eq_refl))|exact I].
Qed.

Lemma ok_loadSVGIcon (path : string) :
  okM idx N0 (is_new_icon N0) (loadSVGIcon http_ok path).
Proof.
  unfold loadSVGIcon. destruct (http_ok path).
  - eapply ok_bind; [apply ok_createElementNS|].
    intros n Hn. apply ok_ret. intros m Hm. inversion Hm; subst. exact Hn.
  - apply ok_ret. intros m Hm. discriminate.
Qed.

End Frame.

Ltac ok_new :=
  match goal with
  | H : is_new _ ?n |- (_ <= ?n)%nat => exact H
  | H : is_new_icon _ (Some ?n) |- (_ <= ?n)%nat => exact (H n eq_refl)
  end.

Ltac ok_ret_tac :=
  first [ apply ok_ret; assumption
        | apply (ok_ret _ _ anything); exact I
        | apply ok_ret; exact I ].

(** One step through a rule: split a sequence, a branch or a match, or
    close a primitive or a block proved before (database [ok]). *)
Ltac ok_auto :=
  cbv zeta;
  lazymatch goal with
  | |- okM _ _ _ (bind _ _) => eapply ok_bind; [ok_auto|intros ? ?; ok_auto]
  | |- okM _ _ _ (when _ _) => apply ok_when; ok_auto
  | |- okM _ _ _ (if ?b then _ else _) => destruct b; ok_auto
  | |- okM _ _ _ (match ?x with Some _ => _ | None => _ end) => destruct x; ok_auto
  | |- okM _ _ _ (match ?x with (_, _) => _ end) => destruct x; ok_auto
  | |- okM _ _ _ (lift _) => apply ok_lift
  | |- okM _ _ _ (ret _) => ok_ret_tac
  | |- okM _ _ _ (throw _) => apply ok_throw
  | |- okM _ _ _ (decodedData _) => apply ok_decodedData
  | |- okM _ _ _ (assign_decoded _ _ _) => apply ok_assign_decoded
  | |- okM _ _ _ (console_log _) => apply ok_console_log
  | |- okM _ _ _ (createElementNS _ _) => apply ok_createElementNS
  | |- okM _ _ _ (loadSVGIcon _ _) => apply ok_loadSVGIcon
  | |- okM _ _ _ (set_innerHTML _ _) => apply ok_set_innerHTML
  | |- okM _ _ _ (setAttribute (HNode _) _ _) => apply ok_setAttribute_node
  | |- okM _ _ _ (setAttribute (HSlot _) _ _) => apply ok_setAttribute_slot; reflexivity
  | |- okM _ _ _ (appendChild (HSlot _) (HNode _)) => apply ok_appendChild_slot; ok_new
  | |- okM _ _ _ (appendChild HSvg (HNode _)) => apply ok_appendChild_svg; ok_new
  | |- okM _ _ ?Q _ =>
      first [ is_evar Q; solve [eauto 3 with ok nocore]
            | solve [eauto 3 with ok nocore]
            | eapply ok_weaken; [solve [eauto 3 with ok nocore]|intros; exact I] ]
  end.

Create HintDb ok.

Section RuleFrame.

Variable http_ok : string -> bool.
Variables idx N0 : nat.

Lemma ok_createTextElement (v : value) :
  okM idx N0 (is_new N0) (createTextElement v).
Proof. unfold createTextElement. ok_auto. Qed.

Lemma ok_set_size (n : nat) (w h : float) : okM idx N0 anything (set_size n w h).
Proof. unfold set_size. ok_auto. Qed.

Lemma ok_set_origin (n : nat) (w h : float) : okM idx N0 anything (set_origin n w h).
Proof. unfold set_origin. ok_auto. Qed.

Hint Resolve ok_createTextElement ok_set_size ok_set_origin : ok.

Lemma ok_slashes (s : string) : okM idx N0 anything (slashes (HSlot idx) s).
Proof. unfold slashes. ok_auto. Qed.

Lemma ok_placed_text (v : value) (t : string) :
  okM idx N0 anything (placed_text (HSlot idx) v t).
Proof. unfold placed_text. ok_auto. Qed.

Lemma ok_present_weather_icon (path : string) :
  okM idx N0 anything (present_weather_icon http_ok (HSlot idx) path).
Proof. unfold present_weather_icon. ok_auto. Qed.

Lemma ok_low_cloud_icon (v : value) (t : option string) :
  okM idx N0 anything (low_cloud_icon http_ok (HSlot idx) v t).
Proof. unfold low_cloud_icon. ok_auto. Qed.

Lemma ok_console_all (l : list string) : okM idx N0 anything (console_all l).
Proof.
  induction l as [|m l IH]; cbn [console_all].
  - apply ok_ret. exact I.
  - eapply ok_bind; [apply ok_console_log|intros _ _; exact IH].
Qed.

Lemma ok_calm_wind : okM idx N0 (is_new_icon N0) (calm_wind http_ok).
Proof. unfold calm_wind. ok_auto. Qed.

Lemma ok_wind_arrow (path origin transform : string) :
  okM idx N0 (is_new_icon N0) (wind_arrow http_ok path origin transform).
Proof. unfold wind_arrow. ok_auto. Qed.

Lemma ok_appendChild_icon (icon : option nat) :
  is_new_icon N0 icon -> okM idx N0 anything (appendChild_icon (HSlot idx) icon).
Proof. intros H. unfold appendChild_icon. ok_auto. Qed.

Hint Resolve ok_slashes ok_placed_text ok_present_weather_icon ok_low_cloud_icon
  ok_console_all ok_calm_wind ok_wind_arrow ok_appendChild_icon : ok.

Lemma ok_rename_3 (entry i : nat) : okM idx N0 anything (rename_3 entry i).
Proof. unfold rename_3. ok_auto. Qed.

Lemma ok_past_weather_value (entry i : nat) :
  okM idx N0 anything (past_weather_value entry i).
Proof. unfold past_weather_value. ok_auto. Qed.

Lemma ok_ret_tt : okM idx N0 anything (ret tt).
Proof. apply ok_ret. exact I. Qed.

Hint Resolve ok_rename_3 ok_past_weather_value ok_ret_tt : ok.

Lemma ok_past_weather_icon (path : string) (t : option string) (red : bool) (after : M unit) :
  okM idx N0 anything after ->
  okM idx N0 anything (past_weather_icon http_ok (HSlot idx) path t red after).
Proof. intros H. unfold past_weather_icon. ok_auto. Qed.

Hint Resolve ok_past_weather_icon : ok.

Lemma ok_case_2 (o : options) (d : value) : okM idx N0 anything (case_2 http_ok o (HSlot idx) d).
Proof. unfold case_2. ok_auto. Qed.

Lemma ok_case_6 (o : options) (d : value) : okM idx N0 anything (case_6 o (HSlot idx) d).
Proof. unfold case_6. ok_auto. Qed.

Lemma ok_case_7 (d : value) : okM idx N0 anything (case_7 http_ok (HSlot idx) d).
Proof. unfold case_7. ok_auto. Qed.

Lemma ok_case_8 (d : value) : okM idx N0 anything (case_8 (HSlot idx) d).
Proof. unfold case_8. ok_auto. Qed.

Lemma ok_case_10 (d : value) : okM idx N0 anything (case_10 (HSlot idx) d).
Proof. unfold case_10. ok_auto. Qed.

Lemma ok_case_11 (d : value) : okM idx N0 anything (case_11 http_ok (HSlot idx) d).
Proof. unfold case_11. ok_auto. Qed.

Lemma ok_sky_cover (d : value) : okM idx N0 anything (sky_cover http_ok (HSlot idx) d).
Proof. unfold sky_cover. ok_auto. Qed.

Lemma ok_automatic_station (d : value) :
  okM idx N0 anything (automatic_station http_ok (HSlot idx) d).
Proof. unfold automatic_station. ok_auto. Qed.

Lemma ok_wind_plot (pointCoords d : value) :
  okM idx N0 anything (wind_plot http_ok pointCoords (HSlot idx) d).
Proof. unfold wind_plot. ok_auto. Qed.

Hint Resolve ok_sky_cover ok_automatic_station ok_wind_plot : ok.

Lemma ok_case_12 (pointCoords d : value) :
  okM idx N0 anything (case_12 http_ok pointCoords (HSlot idx) d).
Proof. unfold case_12. ok_auto. Qed.

Lemma ok_case_13 (o : options) (d : value) : okM idx N0 anything (case_13 o (HSlot idx) d).
Proof. unfold case_13. ok_auto. Qed.

Lemma ok_case_14 (o : options) (d : value) :
  okM idx N0 anything (case_14 http_ok o (HSlot idx) d).
Proof. unfold case_14. ok_auto. Qed.

Lemma ok_case_16 (o : options) (d : value) : okM idx N0 anything (case_16 o (HSlot idx) d).
Proof. unfold case_16. ok_auto. Qed.

Lemma ok_case_17 (d : value) : okM idx N0 anything (case_17 http_ok (HSlot idx) d).
Proof. unfold case_17. ok_auto. Qed.

Lemma ok_case_18 (o : options) (entry : nat) (d : value) :
  okM idx N0 anything (case_18 http_ok o entry (HSlot idx) d).
Proof. unfold case_18. ok_auto. Qed.

Lemma ok_case_23 (d : value) : okM idx N0 anything (case_23 (HSlot idx) d).
Proof. unfold case_23. ok_auto. Qed.

Lemma ok_case_default (o : options) : okM idx N0 anything (case_default o (HSlot idx)).
Proof. unfold case_default. ok_auto. Qed.

End RuleFrame.

(** ** The slot loop *)

(** Every per-index rule stays within its own slot. *)
Lemma ok_slot_rule (http_ok : string -> bool) (o : options) (pointCoords : value)
    (entry idx N0 : nat) :
  okM idx N0 anything (slot_rule http_ok o pointCoords entry idx).
Proof.
  unfold slot_rule. cbv zeta.
  eapply ok_bind; [apply ok_decodedData|]. intros d _.
  do 25 (destruct idx as [|idx];
         [first [ apply ok_ret_tt | apply ok_case_2 | apply ok_case_6 | apply ok_case_7
                | apply ok_case_8 | apply ok_case_10 | apply ok_case_11 | apply ok_case_12
                | apply ok_case_13 | apply ok_case_14 | apply ok_case_16 | apply ok_case_17
                | apply ok_case_18 | apply ok_case_23 | apply ok_case_default ]|]).
  apply ok_case_default.
Qed.

Lemma bind_inv {A B : Type} (m : M A) (f : A -> M B) (st st' : state) (b : B) :
  bind m f st = (Ok b, st') ->
  exists a st1, m st = (Ok a, st1) /\ f a st1 = (Ok b, st').
Proof.
  unfold bind. destruct (m st) as [[a|e] st1]; [|discriminate].
  intros H. now exists a, st1.
Qed.

Section Callback.

Variable http_ok : string -> bool.
Variable o : options.
Variable pointCoords : value.
Variable entry : nat.

Ltac run_callback :=
  cbv beta iota zeta delta
    [bind when ret set_xy get_xy setAttribute appendChild modify_dom console_log
     placed logged moved next_cell adjust fst snd dom var_x var_y decodedSynops posted
     console andb negb].

(** An omitted slot other than 12: positioned, appended, warned about, and
    the callback returns without reaching the [switch]. *)
Lemma callback_omitted (k : nat) (st : state) :
  (k < 25)%nat -> k <> 12%nat -> omitted o k = true ->
  slot_callback http_ok o pointCoords entry k st
  = (Ok tt, moved (logged (omit_warning k) (placed k st))).
Proof.
  intros Hk H12 Ho. unfold slot_callback, omitted in *. cbv zeta.
  replace (k =? 25)%nat with false by (symmetry; apply Nat.eqb_neq; lia).
  rewrite Ho.
  replace (k =? 12)%nat with false by (symmetry; now apply Nat.eqb_neq).
  destruct st as [d x y t p c].
  run_callback.
  replace (k =? 12)%nat with false by (symmetry; now apply Nat.eqb_neq).
  destruct (k =? 0)%nat; destruct (k mod 5 =? 0)%nat; reflexivity.
Qed.

(** Slot 12 asked to be omitted: warned about, and its rule runs. *)
Lemma callback_center_omitted (st : state) :
  omitted o 12 = true ->
  slot_callback http_ok o pointCoords entry 12 st
  = (slot_rule http_ok o pointCoords entry 12 ;; next_cell)
      (logged omit_warning_12 (placed 12 st)).
Proof.
  intros Ho. unfold slot_callback, omitted in *. cbv zeta.
  rewrite Ho. destruct st as [d x y t p c].
  change (12 =? 25)%nat with false. change (12 =? 12)%nat with true.
  change (12 =? 0)%nat with false. run_callback. reflexivity.
Qed.

(** A slot that is not omitted: its rule runs. *)
Lemma callback_kept (k : nat) (st : state) :
  (k < 25)%nat -> omitted o k = false ->
  slot_callback http_ok o pointCoords entry k st
  = (slot_rule http_ok o pointCoords entry k ;; next_cell) (placed k st).
Proof.
  intros Hk Ho. unfold slot_callback, omitted in *. cbv zeta.
  replace (k =? 25)%nat with false by (symmetry; apply Nat.eqb_neq; lia).
  rewrite Ho.
  destruct st as [d x y t p c].
  run_callback.
  destruct (k =? 0)%nat; destruct (k mod 5 =? 0)%nat; reflexivity.
Qed.

Lemma callback_last (st : state) :
  slot_callback http_ok o pointCoords entry 25 st = (Ok tt, st).
Proof. reflexivity. Qed.

End Callback.

(** *** Positioning and appending a group *)

Lemma filter_slots_comm (p : handle -> bool) (l : list handle) :
  filter is_slot (filter p l) = filter p (filter is_slot l).
Proof.
  induction l as [|h l IH]; cbn [filter]; auto.
  destruct (p h) eqn:Ep; destruct (is_slot h) eqn:Es; cbn [filter];
    rewrite ?Ep, ?Es, IH; reflexivity.
Qed.

Lemma filter_other_slots (k : nat) (l : list nat) :
  (forall j, In j l -> j <> k) ->
  filter (fun h => negb (handle_eqb h (HSlot k))) (map HSlot l) = map HSlot l.
Proof.
  induction l as [|j l IH]; intros H; cbn [map filter handle_eqb]; auto.
  replace (j =? k)%nat with false
    by (symmetry; apply Nat.eqb_neq; apply H; now left).
  cbn [negb]. f_equal. apply IH. intros i Hi. apply H. now right.
Qed.

Lemma without_generated (k j : nat) (b : bool) :
  Dom.without_kid (HSlot k) (generated_slot b j) = generated_slot b j.
Proof. unfold generated_slot. destruct (j =? 12)%nat; destruct b; reflexivity. Qed.

Lemma generated_kids (b : bool) (j n : nat) :
  (j < 26)%nat -> In (HNode n) (kids (generated_slot b j)) ->
  (n < (if b then 25 else 0))%nat.
Proof.
  intros Hj. unfold generated_slot.
  destruct (j =? 12)%nat eqn:E12; cbn [kids]; [intros []|].
  apply Nat.eqb_neq in E12.
  destruct b; cbn [In]; [|intros []].
  intros [H|[]]. injection H as <-.
  destruct (j <? 12)%nat eqn:E; [apply Nat.ltb_lt in E|apply Nat.ltb_ge in E]; lia.
Qed.

Lemma slot_node_placed_other (k j : nat) (st : state) :
  j <> k ->
  slot_node (placed k st) j = Dom.without_kid (HSlot k) (slot_node st j).
Proof.
  intros H. unfold slot_node, placed. cbv zeta.
  cbn [dom Dom.append Dom.detach Dom.update slots].
  rewrite nth_map_without. now rewrite nth_update_nth_other.
Qed.

Lemma slot_node_placed_same (k : nat) (st : state) :
  (k < List.length (slots (dom st)))%nat ->
  slot_node (placed k st) k
  = Dom.without_kid (HSlot k)
      (Dom.with_attr "transform"
         (if (k =? 12)%nat then "translate(50, 50)"
          else let p := adjust k (var_x st, var_y st) in
               "translate(" ++ str (fst p) ++ ", " ++ str (snd p) ++ ")")
         (slot_node st k)).
Proof.
  intros H. unfold slot_node, placed. cbv zeta.
  cbn [dom Dom.append Dom.detach Dom.update slots].
  rewrite nth_map_without. now rewrite nth_update_nth_same.
Qed.

Lemma slots_appended_placed (k : nat) (st : state) :
  slots_appended st = map HSlot (seq 0 k) ->
  slots_appended (placed k st) = map HSlot (seq 0 (S k)).
Proof.
  intros H. unfold slots_appended, placed in *. cbv zeta.
  cbn [dom Dom.append Dom.detach Dom.update slots svg kids Dom.with_kid Dom.without_kid].
  rewrite filter_app, filter_slots_comm, H. cbn [filter is_slot].
  rewrite filter_other_slots.
  - now rewrite seq_S, map_app.
  - intros j Hj. apply in_seq in Hj. lia.
Qed.

Lemma length_slots_placed (k : nat) (st : state) :
  List.length (slots (dom (placed k st))) = List.length (slots (dom st)).
Proof.
  unfold placed. cbv zeta. cbn [dom Dom.append Dom.detach Dom.update slots].
  now rewrite length_map, length_update_nth.
Qed.

Lemma length_nodes_placed (k : nat) (st : state) :
  List.length (nodes (dom (placed k st))) = List.length (nodes (dom st)).
Proof.
  unfold placed. cbv zeta. cbn [dom Dom.append Dom.detach Dom.update nodes].
  now rewrite length_map.
Qed.

(** *** One round of the slot loop *)

Section Step.

Variable http_ok : string -> bool.
Variable o : options.
Variable pointCoords : value.
Variable entry : nat.

(** From the positioned group on: whatever stays within slot [k] leads to
    the invariant of the next round. *)
Lemma step_inv (k : nat) (st s2 s3 : state) :
  (k < 25)%nat ->
  Inv o k st ->
  dom s2 = dom (placed k st) ->
  var_x s2 = var_x (placed k st) ->
  var_y s2 = var_y (placed k st) ->
  (forall m, In m (console st) -> In m (console s2)) ->
  (k = 12%nat -> omitted o 12 = true -> In omit_warning_12 (console s2)) ->
  stable k (List.length (nodes (dom s2))) s2 s3 ->
  (k <> 12%nat -> omitted o k = true -> slot_node s3 k = slot_node s2 k) ->
  Inv o (S k) (moved s3).
Proof.
  intros Hk I Hd Hx Hy Hc Hw S Hsame.
  assert (Hnode : forall j, slot_node s2 j = slot_node (placed k st) j).
  { intros j. unfold slot_node. now rewrite Hd. }
  assert (HN : ((if debug o then 25 else 0) <= List.length (nodes (dom s2)))%nat).
  { rewrite Hd, length_nodes_placed. exact (inv_nodes _ _ _ I). }
  assert (Hgen : forall j, (j < 26)%nat -> j <> k ->
                 slot_node st j = generated_slot (debug o) j ->
                 slot_node s3 j = generated_slot (debug o) j).
  { intros j Hj Hjk E. rewrite (st_node _ _ _ _ S j Hjk).
    - rewrite Hnode, slot_node_placed_other by exact Hjk. rewrite E. apply without_generated.
    - intros n. rewrite Hnode, slot_node_placed_other by exact Hjk. rewrite E, without_generated.
      intros Hin. apply (generated_kids _ _ _ Hj) in Hin. lia. }
  assert (Hplaced : slot_node s2 k
                    = Dom.with_attr "transform"
                        (if (k =? 12)%nat then "translate(50, 50)" else slot_transform k)
                        (generated_slot (debug o) k)).
  { rewrite Hnode, slot_node_placed_same by (rewrite (inv_len _ _ _ I); lia).
    rewrite (inv_rest _ _ _ I k) by lia. rewrite (inv_xy _ _ _ I).
    unfold slot_transform, generated_slot.
    destruct (k =? 12)%nat; destruct (debug o); reflexivity. }
  constructor.
  - change (dom (moved s3)) with (dom s3).
    rewrite (st_len _ _ _ _ S), Hd, length_slots_placed. exact (inv_len _ _ _ I).
  - change (slots_appended (moved s3)) with (slots_appended s3).
    rewrite (st_svg _ _ _ _ S). unfold slots_appended. rewrite Hd.
    apply slots_appended_placed. exact (inv_svg _ _ _ I).
  - cbn [moved var_x var_y xy_before].
    rewrite (st_x _ _ _ _ S), (st_y _ _ _ _ S), Hx, Hy.
    unfold placed. cbv zeta. cbn [var_x var_y]. now rewrite (inv_xy _ _ _ I).
  - change (dom (moved s3)) with (dom s3).
    pose proof (st_nodes _ _ _ _ S). lia.
  - intros j Hkj Hj. change (slot_node (moved s3) j) with (slot_node s3 j).
    apply Hgen; [exact Hj|lia|]. apply (inv_rest _ _ _ I); lia.
  - intros j Hj H12 Ho. change (slot_node (moved s3) j) with (slot_node s3 j).
    destruct (Nat.eq_dec j k) as [->|Hjk].
    + rewrite (Hsame H12 Ho), Hplaced.
      replace (k =? 12)%nat with false by (symmetry; now apply Nat.eqb_neq).
      reflexivity.
    + pose proof (inv_omitted _ _ _ I j ltac:(lia) H12 Ho) as E.
      assert (Hj26 : (j < 26)%nat) by lia.
      rewrite (st_node _ _ _ _ S j Hjk).
      * rewrite Hnode, slot_node_placed_other by exact Hjk. rewrite E.
        change (Dom.without_kid (HSlot k)
                  (Dom.with_attr "transform" (slot_transform j) (generated_slot (debug o) j)))
          with (Dom.with_attr "transform" (slot_transform j)
                  (Dom.without_kid (HSlot k) (generated_slot (debug o) j))).
        now rewrite without_generated.
      * intros n. rewrite Hnode, slot_node_placed_other by exact Hjk. rewrite E.
        change (kids (Dom.without_kid (HSlot k)
                  (Dom.with_attr "transform" (slot_transform j) (generated_slot (debug o) j))))
          with (kids (Dom.without_kid (HSlot k) (generated_slot (debug o) j))).
        rewrite without_generated.
        intros Hin. apply (generated_kids _ _ _ Hj26) in Hin. lia.
  - intros H12. change (slot_node (moved s3) 12) with (slot_node s3 12).
    destruct (Nat.eq_dec k 12) as [->|Hne].
    + rewrite (st_transform _ _ _ _ S), Hplaced.
      change (12 =? 12)%nat with true. cbn [Dom.with_attr attrs].
      apply get_attr_set_attr_same.
    + rewrite (st_attrs _ _ _ _ S 12%nat) by (intros E; now apply Hne).
      rewrite Hnode, slot_node_placed_other by (intros E; now apply Hne).
      change (attrs (Dom.without_kid (HSlot k) (slot_node st 12)))
        with (attrs (slot_node st 12)).
      apply (inv_center _ _ _ I). lia.
  - intros H12 Ho. change (console (moved s3)) with (console s3).
    apply (st_console _ _ _ _ S).
    destruct (Nat.eq_dec k 12) as [->|Hne].
    + now apply Hw.
    + apply Hc. apply (inv_warned _ _ _ I); [lia|exact Ho].
Qed.

Lemma rule_then_next (k : nat) (s2 st' : state) :
  (slot_rule http_ok o pointCoords entry k ;; next_cell) s2 = (Ok tt, st') ->
  exists s3, stable k (List.length (nodes (dom s2))) s2 s3 /\ st' = moved s3.
Proof.
  intros H. apply bind_inv in H. destruct H as (u & s3 & Hr & Hn).
  exists s3. split.
  - exact (proj1 (ok_slot_rule http_ok o pointCoords entry k _ s2 u s3 (le_n _) Hr)).
  - unfold next_cell, set_xy in Hn. apply (f_equal snd) in Hn. cbn [snd] in Hn.
    symmetry. exact Hn.
Qed.

Lemma callback_step (k : nat) (st st' : state) :
  (k < 25)%nat ->
  Inv o k st ->
  slot_callback http_ok o pointCoords entry k st = (Ok tt, st') ->
  Inv o (S k) st'.
Proof.
  intros Hk I H.
  destruct (omitted o k) eqn:Ho.
  - destruct (Nat.eq_dec k 12) as [->|Hne].
    + rewrite callback_center_omitted in H by exact Ho.
      apply rule_then_next in H. destruct H as (s3 & S & ->).
      apply (step_inv 12 st (logged omit_warning_12 (placed 12 st)) s3); auto.
      * intros m Hm. cbn [logged console placed]. apply in_or_app. now left.
      * intros _ _. cbn [logged console]. apply in_or_app. right. now left.
      * intros E. now contradiction E.
    + rewrite callback_omitted in H by assumption.
      apply (f_equal snd) in H. cbn [snd] in H. subst st'.
      apply (step_inv k st (logged (omit_warning k) (placed k st))
                      (logged (omit_warning k) (placed k st))); auto.
      * intros m Hm. cbn [logged console placed]. apply in_or_app. now left.
      * intros E. now contradiction Hne.
      * apply stable_refl.
  - rewrite callback_kept in H by assumption.
    apply rule_then_next in H. destruct H as (s3 & S & ->).
    apply (step_inv k st (placed k st) s3); auto.
    + intros E Ho'. subst k. rewrite Ho in Ho'. discriminate.
    + intros _ Ho'. rewrite Ho in Ho'. discriminate.
Qed.

Lemma callback_loop (n k : nat) (st st' : state) :
  (k + n = 26)%nat -> (k <= 25)%nat ->
  Inv o k st ->
  for_each (slot_callback http_ok o pointCoords entry) (seq k n) st = (Ok tt, st') ->
  Inv o 25 st'.
Proof.
  revert k st. induction n as [|n IH]; intros k st Hkn Hk I H; [lia|].
  cbn [seq for_each] in H. apply bind_inv in H. destruct H as ([] & s1 & Hc & Hr).
  destruct (Nat.eq_dec k 25) as [->|Hne].
  - assert (n = 0)%nat as -> by lia. cbn [seq for_each] in Hr.
    rewrite callback_last in Hc.
    apply (f_equal snd) in Hc, Hr. cbn [snd ret] in Hc, Hr. subst. exact I.
  - apply (IH (S k) s1); [lia|lia| |exact Hr].
    apply (callback_step k st s1); [lia|exact I|exact Hc].
Qed.

End Step.

(** *** The call up to the slot loop *)

Lemma for_each_ext (f g : nat -> M unit) (l : list nat) :
  (forall i, f i = g i) -> for_each f l = for_each g l.
Proof. intros H. induction l as [|i l IH]; cbn [for_each]; [reflexivity|]. now rewrite H, IH. Qed.

Lemma generate_run (o : options) (x y : float) (t : list reply) (p : list request)
    (c : list string) :
  for_each (generate_slot o) (seq 0 26) (mkState empty_store x y t p c)
  = (Ok tt, mkState (init_store (debug o)) x y t p c).
Proof.
  rewrite (for_each_ext _ (generate_slot (debug_options (debug o)))) by reflexivity.
  destruct (debug o); vm_compute; reflexivity.
Qed.

(** Reading a property of a value that is not [null] or [undefined]
    returns. *)
Lemma get_read (v : value) (k : string) :
  JS.is_nullish v = false -> JS.get v k = Ok (read v k).
Proof.
  intros H. unfold read.
  destruct v; try discriminate H; cbn [JS.get];
    repeat match goal with
           | |- context [if ?b then _ else _] => destruct b
           | |- context [match ?x with Some _ => _ | None => _ end] => destruct x
           end; reflexivity.
Qed.

Lemma create_svg_run (o : options) (s : state) :
  JS.is_nullish (scaling o) = false ->
  create_svg o s
  = (Ok tt, mkState (Dom.update HSvg (svg_attributes o) (dom s)) (var_x s) (var_y s)
                    (decodedSynops s) (posted s) (console s)).
Proof.
  intros H. destruct s as [d x y t p c].
  cbv beta iota zeta delta
    [create_svg bind setAttribute modify_dom Dom.update svg_attributes dom var_x var_y
     decodedSynops posted console slots svg nodes lift].
  rewrite !(get_read _ _ H).
  reflexivity.
Qed.

(** The merged options of a caller hold a [scaling] object. *)
Lemma merged_scaling (userOptions : user_options) :
  JS.is_nullish (scaling (Object_assign defaultOptions userOptions)) = false.
Proof. unfold Object_assign. destruct (u_scaling userOptions); reflexivity. Qed.

Lemma ready_inv (o : options) (data : synop_data) (st : state) :
  Inv o 0 (ready o data st).
Proof.
  constructor; unfold ready, slot_node, slots_appended;
    cbn [dom Dom.update slots svg nodes var_x var_y console kids svg_attributes Dom.with_attr];
    try (intros; lia).
  - destruct (debug o); vm_compute; reflexivity.
  - destruct (debug o); vm_compute; reflexivity.
  - reflexivity.
  - destruct (debug o); apply Nat.leb_le; vm_compute; reflexivity.
  - intros j _ Hj. destruct (debug o);
      do 26 (destruct j as [|j]; [vm_compute; reflexivity|]); lia.
Qed.

Lemma meteoStation_loop (http_ok : string -> bool) (data : synop_data)
    (pointCoords : value) (userOptions : user_options) (st st' : state) :
  meteoStation http_ok data pointCoords userOptions st = (Ok tt, st') ->
  JS.is_nullish (awaited data st) = false ->
  let o := Object_assign defaultOptions userOptions in
  exists entry,
    for_each (slot_callback http_ok o pointCoords entry) (seq 0 26) (ready o data st)
    = (Ok tt, st').
Proof.
  intros H Hd o. unfold meteoStation, meteoStation_with in H. fold o in H.
  destruct st as [d x y t p c].
  apply bind_inv in H. destruct H as (u1 & s1 & E & H).
  apply (f_equal snd) in E. cbn [snd modify_dom dom var_x var_y decodedSynops posted console] in E.
  subst s1.
  apply bind_inv in H. destruct H as (u2 & s2 & E & H).
  rewrite generate_run in E. apply (f_equal snd) in E. cbn [snd] in E. subst s2.
  apply bind_inv in H. destruct H as (u3 & s3 & E & H).
  rewrite (create_svg_run o _ (merged_scaling userOptions)) in E. apply (f_equal snd) in E.
  cbn [snd dom var_x var_y decodedSynops posted console] in E. subst s3.
  apply bind_inv in H. destruct H as (u4 & s4 & E & H).
  apply (f_equal snd) in E. cbn [snd set_xy dom var_x var_y decodedSynops posted console] in E.
  subst s4.
  apply bind_inv in H. destruct H as (u5 & s5 & E & H).
  apply (f_equal snd) in E.
  cbn [snd postMessage dom var_x var_y decodedSynops posted console] in E. subst s5.
  apply bind_inv in H. destruct H as (entry & s6 & E & H).
  unfold waitForDecodedSynop in E. cbn [decodedSynops] in E.
  unfold awaited in Hd. cbn [decodedSynops] in Hd.
  destruct (find_reply (data_leafletID data) t 0) as [e|] eqn:Ef; [|discriminate].
  pose proof (f_equal snd E) as E2. cbn [snd] in E2. subst s6.
  assert (e = entry) as -> by (apply (f_equal fst) in E; cbn [fst] in E; congruence).
  apply bind_inv in H. destruct H as (v & s7 & E' & H).
  unfold decodedData in E'. cbn [decodedSynops] in E'.
  pose proof (f_equal snd E') as E2. cbn [snd] in E2. subst s7.
  assert (v = table_decoded (mkState d x y t p c) entry) as ->
    by (apply (f_equal fst) in E'; cbn [fst] in E'; unfold table_decoded; cbn [decodedSynops];
        congruence).
  rewrite Hd in H. cbn [negb when] in H.
  exists entry. exact H.
Qed.

Lemma slot_transform_grid (i : nat) :
  (i < 25)%nat -> slot_transform i = grid_transform i.
Proof.
  intros H. do 25 (destruct i as [|i]; [vm_compute; reflexivity|]). lia.
Qed.

Lemma appended_in_root (st : state) (i : nat) :
  slots_appended st = map HSlot (seq 0 25) -> (i < 25)%nat ->
  In (HSlot i) (kids (svg (dom st))).
Proof.
  intros H Hi. unfold slots_appended in H.
  apply (proj1 (filter_In is_slot (HSlot i) (kids (svg (dom st))))).
  rewrite H. apply in_map. apply in_seq. lia.
Qed.

(** C1 (amended). Whenever a call of [meteoStation] returns and the record
    it waited for is not null, then for every options object of the caller:
    the 26 groups exist, the group of slot 12 is a child of the root with
    transform [translate(50, 50)]; if 12 is in [elementsToOmit] the warning
    is logged and the callback of slot 12 still runs its rule; and every
    other omitted index [i < 25] has its group among the children of the
    root, equal to the group as generated plus the transform of its grid
    position (so nothing was added to it), its callback being the
    positioning, the warning and the move to the next cell, without the
    rule. The exterior index 25 and a null record are left out: there the
    groups are created but never positioned or appended. *)
Theorem C1_center_slot_kept_omitted_slots_empty :
  forall (http_ok : string -> bool) (data : synop_data) (pointCoords : value)
         (userOptions : user_options) (st st' : state),
    let o := Object_assign defaultOptions userOptions in
    meteoStation http_ok data pointCoords userOptions st = (Ok tt, st') ->
    JS.is_nullish (awaited data st) = false ->
    List.length (slots (dom st')) = 26%nat
    /\ (In (HSlot 12) (kids (svg (dom st')))
        /\ Dom.get_attr "transform" (attrs (slot_node st' 12)) = Some "translate(50, 50)")
    /\ (omitted o 12 = true ->
        In omit_warning_12 (console st')
        /\ forall (entry : nat) (s : state),
             slot_callback http_ok o pointCoords entry 12 s
             = (slot_rule http_ok o pointCoords entry 12 ;; next_cell)
                 (logged omit_warning_12 (placed 12 s)))
    /\ (forall i : nat, (i < 25)%nat -> i <> 12%nat -> omitted o i = true ->
        In (HSlot i) (kids (svg (dom st')))
        /\ slot_node st' i
           = Dom.with_attr "transform" (grid_transform i) (generated_slot (debug o) i)
        /\ forall (entry : nat) (s : state),
             slot_callback http_ok o pointCoords entry i s
             = (Ok tt, moved (logged (omit_warning i) (placed i s)))).
Proof.
  intros http_ok data pointCoords userOptions st st' o H Hd.
  destruct (meteoStation_loop http_ok data pointCoords userOptions st st' H Hd)
    as (entry & Hloop).
  fold o in Hloop.
  assert (I : Inv o 25 st').
  { apply (callback_loop http_ok o pointCoords entry 26 0 (ready o data st) st');
      [lia|lia|apply ready_inv|exact Hloop]. }
  split; [exact (inv_len _ _ _ I)|].
  split; [split|split].
  - apply appended_in_root; [exact (inv_svg _ _ _ I)|lia].
  - apply (inv_center _ _ _ I). lia.
  - intros Ho. split.
    + apply (inv_warned _ _ _ I); [lia|exact Ho].
    + intros e s. now apply callback_center_omitted.
  - intros i Hi H12 Ho. split; [|split].
    + apply appended_in_root; [exact (inv_svg _ _ _ I)|exact Hi].
    + rewrite <- (slot_transform_grid i Hi). now apply (inv_omitted _ _ _ I).
    + intros e s. now apply callback_omitted.
Qed.

Lemma C1_witness :
  In (HSlot 12)
     (kids (svg (dom (snd (meteoStation all_icons sample_data (at_latitude 45)
                             omit_center_and_3 (decoded_as west_wind_observation))))))
  /\ In omit_warning_12
        (console (snd (meteoStation all_icons sample_data (at_latitude 45)
                         omit_center_and_3 (decoded_as west_wind_observation))))
  /\ slot_node (snd (meteoStation all_icons sample_data (at_latitude 45)
                       omit_center_and_3 (decoded_as west_wind_observation))) 3
     = Dom.with_attr "transform" (grid_transform 3)
         (generated_slot (debug (Object_assign defaultOptions omit_center_and_3)) 3).
Proof.
  pose proof (C1_center_slot_kept_omitted_slots_empty
                all_icons sample_data (at_latitude 45) omit_center_and_3
                (decoded_as west_wind_observation)
                (snd (meteoStation all_icons sample_data (at_latitude 45)
                        omit_center_and_3 (decoded_as west_wind_observation)))) as H.
  cbv zeta in H.
  assert (Hrun : meteoStation all_icons sample_data (at_latitude 45) omit_center_and_3
                   (decoded_as west_wind_observation)
                 = (Ok tt, snd (meteoStation all_icons sample_data (at_latitude 45)
                                  omit_center_and_3 (decoded_as west_wind_observation))))
    by (vm_compute; reflexivity).
  assert (Hd : JS.is_nullish (awaited sample_data (decoded_as west_wind_observation)) = false)
    by (vm_compute; reflexivity).
  assert (H12 : omitted (Object_assign defaultOptions omit_center_and_3) 12 = true)
    by (vm_compute; reflexivity).
  assert (H3 : omitted (Object_assign defaultOptions omit_center_and_3) 3 = true)
    by (vm_compute; reflexivity).
  destruct (H Hrun Hd) as (_ & (Hin & _) & Hc & Ho).
  split; [exact Hin|]. split.
  - exact (proj1 (Hc H12)).
  - exact (proj1 (proj2 (Ho 3%nat ltac:(lia) ltac:(lia) H3))).
Defined.

(** The two inputs the claim as worded does not survive. With cell 25 in
    [elementsToOmit] the call returns, but the group of slot 25 is neither
    positioned nor appended: the children of the root are the groups of
    slots 0 to 24. With a null record the call returns a root without any
    group, slot 12 included, and slot 12 keeps the provisional transform of
    its generation. *)
Lemma C1_counterexample :
  (fst (meteoStation all_icons sample_data (at_latitude 45) omit_25
          (decoded_as west_wind_observation)) = Ok tt
   /\ omitted (Object_assign defaultOptions omit_25) 25 = true
   /\ kids (svg (dom (snd (meteoStation all_icons sample_data (at_latitude 45) omit_25
                              (decoded_as west_wind_observation)))))
      = map HSlot (seq 0 25)
   /\ ~ In (HSlot 25) (map HSlot (seq 0 25))
   /\ Dom.get_attr "transform"
        (attrs (slot_node (snd (meteoStation all_icons sample_data (at_latitude 45) omit_25
                                  (decoded_as west_wind_observation))) 25))
      = None)
  /\ (fst (meteoStation all_icons sample_data (at_latitude 45) no_user_options
             (decoded_as VNull)) = Ok tt
      /\ kids (svg (dom (snd (meteoStation all_icons sample_data (at_latitude 45)
                                 no_user_options (decoded_as VNull)))))
         = []
      /\ Dom.get_attr "transform"
           (attrs (slot_node (snd (meteoStation all_icons sample_data (at_latitude 45)
                                     no_user_options (decoded_as VNull))) 12))
         = Some "translate(50% 50%)").
Proof.
  split.
  - split; [vm_compute; reflexivity|].
    split; [vm_compute; reflexivity|].
    split; [vm_compute; reflexivity|].
    split; [|vm_compute; reflexivity].
    intros H. apply in_map_iff in H. destruct H as (j & Hj & Hin).
    apply in_seq in Hin. injection Hj as ->. lia.
  - split; [vm_compute; reflexivity|].
    split; vm_compute; reflexivity.
Qed.

(** ** Slot rules that stop with an exception *)

(** C7 (refuted by the code). Three calls whose slot rule raises a
    [TypeError] instead of leaving the slot without the primitive:
    slot 17 on a record whose [lowest_cloud_base] is present but null, where
    the test of [lowest_cloud_base._code] reads a property of null;
    slot 17 on a record with low cloud type 0, a middle cloud amount and no
    [lowest_cloud_base], where [_code] is read from undefined after the first
    text has been appended; and the wind block of slot 12 when the asset of
    the wind shaft is missing, where [element.appendChild(icon)] receives
    null. The same holds of the rules run on their own. *)
Theorem C7_slot_rules_can_throw :
  fst (meteoStation all_icons sample_data (at_latitude 45) no_user_options
         (decoded_as null_cloud_base_observation))
  = Throw (TypeError "Cannot read properties of null (reading '_code')")
  /\ fst (meteoStation all_icons sample_data (at_latitude 45) no_user_options
            (decoded_as no_cloud_base_observation))
     = Throw (TypeError "Cannot read properties of undefined (reading '_code')")
  /\ fst (meteoStation missing_north_05 sample_data (at_latitude 45) no_user_options
            (decoded_as west_wind_observation))
     = Throw (TypeError
                "Failed to execute 'appendChild' on 'Node': parameter 1 is not of type 'Node'.")
  /\ fst (case_17 all_icons (HSlot 17) null_cloud_base_observation
            (sample_state null_cloud_base_observation))
     = Throw (TypeError "Cannot read properties of null (reading '_code')")
  /\ fst (case_17 all_icons (HSlot 17) no_cloud_base_observation
            (sample_state no_cloud_base_observation))
     = Throw (TypeError "Cannot read properties of undefined (reading '_code')")
  /\ fst (wind_plot missing_north_05 (at_latitude 45) (HSlot 12) west_wind_observation
            (sample_state west_wind_observation))
     = Throw (TypeError
                "Failed to execute 'appendChild' on 'Node': parameter 1 is not of type 'Node'.")
  /\ fst (meteoStation all_icons sample_data (at_latitude 45) no_user_options
            (decoded_as west_wind_observation))
     = Ok tt.
Proof.
  split; [vm_compute; reflexivity|].
  split; [vm_compute; reflexivity|].
  split; [vm_compute; reflexivity|].
  split; [vm_compute; reflexivity|].
  split; [vm_compute; reflexivity|].
  split; vm_compute; reflexivity.
Qed.

(** ** The worker beyond the start-up queue *)

Lemma lookup_assign_other (k k' : string) (v : value) (l : list (string * value)) :
  k' <> k -> JS.lookup k' (JS.assign k v l) = JS.lookup k' l.
Proof.
  intros H. induction l as [|[a b] l IH]; cbn [JS.assign JS.lookup].
  - replace (String.eqb k' k) with false by (symmetry; now apply String.eqb_neq).
    reflexivity.
  - destruct (String.eqb k a) eqn:E; cbn [JS.lookup].
    + apply String.eqb_eq in E. subst a.
      replace (String.eqb k' k) with false by (symmetry; now apply String.eqb_neq).
      reflexivity.
    + destruct (String.eqb k' a); [reflexivity|exact IH].
Qed.

Section WorkerEvents.

Variable valid_base : string -> bool.
Variable decode : value -> result value.

Lemma events_app (a b : list value) (w : worker) :
  events valid_base decode (a ++ b) w
  = events valid_base decode b (events valid_base decode a w).
Proof. revert w. induction a as [|m a IH]; intros w; cbn [events app]; auto. Qed.

Lemma events_running (ms : list value) :
  Forall non_null_request ms ->
  forall w, pyodideStarting w = false -> processQueueIsRunning w = true ->
  events valid_base decode ms w
  = mkWorker (messageQueue w ++ ms) false true (ctx w) (outbox w) (decoder_runs w).
Proof.
  induction 1 as [|m r Hm Hr IH]; intros w Hs Hp; cbn [events].
  - rewrite app_nil_r. destruct w; cbn in *; subst; reflexivity.
  - rewrite (onmessage_running valid_base decode m w Hm Hs Hp). cbn [snd].
    rewrite IH by reflexivity.
    cbn [messageQueue ctx outbox decoder_runs]. now rewrite <- app_assoc.
Qed.

Lemma events_buffers (ms : list value) :
  Forall non_null_request ms ->
  forall w, pyodideStarting w = true ->
  events valid_base decode ms w
  = mkWorker (messageQueue w ++ ms) true (processQueueIsRunning w)
             (ctx w) (outbox w) (decoder_runs w).
Proof.
  induction 1 as [|m r Hm Hr IH]; intros w Hs; cbn [events].
  - rewrite app_nil_r. destruct w; cbn in *; subst; reflexivity.
  - rewrite (onmessage_buffers valid_base decode m w Hm Hs). cbn [snd].
    rewrite IH by reflexivity.
    cbn [messageQueue processQueueIsRunning ctx outbox decoder_runs].
    now rewrite <- app_assoc.
Qed.

(** X1. One report the decoder fails on silences the worker. On an idle,
    started worker a request whose decoding raises (the decoder throws, or
    returns [null], on which the [_raw] assignment throws) ends its event
    with that exception, taken off the queue and unanswered, and leaves
    [processQueueIsRunning] set. Every later request with a text is then
    only appended to the queue: no decoder run, no reply, however many
    follow. *)
Theorem decoder_failure_wedges_worker
    (m : value) (later : list value) (e : exn) (w : worker) :
  non_null_request m ->
  Forall non_null_request later ->
  reply_of decode m = Throw e ->
  pyodideStarting w = false -> processQueueIsRunning w = false ->
  ctx w = true -> messageQueue w = [] ->
  onmessage valid_base decode m w
  = (Throw e, mkWorker [] false true true (outbox w) (decoder_runs w ++ [raw_of m]))
  /\ events valid_base decode (m :: later) w
     = mkWorker later false true true (outbox w) (decoder_runs w ++ [raw_of m]).
Proof.
  intros Hm Hl Hr Hs Hp Hc Hq.
  assert (E : onmessage valid_base decode m w
              = (Throw e, mkWorker [] false true true (outbox w)
                                   (decoder_runs w ++ [raw_of m]))).
  { destruct w as [q s p c o dr]; cbn in Hs, Hp, Hc, Hq; subst q s p c.
    pose proof (decodeSynop_fails decode m e (mkWorker [] false true true o dr) Hm Hr eq_refl) as D.
    cbn [messageQueue pyodideStarting processQueueIsRunning ctx outbox decoder_runs] in D.
    destruct Hm as (raw & id & -> & Hraw).
    unfold onmessage, handleMessage, wbind, wlift, push, processQueue, set_running.
    cbn [JS.hasOwnProperty JS.get JS.lookup request_message String.eqb Ascii.eqb Bool.eqb].
    rewrite Hraw.
    cbn [messageQueue pyodideStarting processQueueIsRunning ctx outbox decoder_runs app drain].
    unfold wbind.
    cbn [messageQueue pyodideStarting processQueueIsRunning ctx outbox decoder_runs].
    rewrite (drain_head_fails decode (request_message raw id) [] e
               (mkWorker [request_message raw id] false true true o dr) _ D).
    reflexivity. }
  split; [exact E|].
  cbn [events]. rewrite E. cbn [snd].
  rewrite (events_running later Hl) by reflexivity. reflexivity.
Qed.

End WorkerEvents.

Lemma decoder_failure_wedges_worker_witness :
  events http_base (failing_decoder "AAXX bad")
    [request_message (VStr "AAXX bad") (JS.num 1);
     request_message (VStr "AAXX 2") (JS.num 2);
     request_message (VStr "AAXX 3") (JS.num 3)]
    (mkWorker [] false false true [] [])
  = mkWorker [request_message (VStr "AAXX 2") (JS.num 2);
              request_message (VStr "AAXX 3") (JS.num 3)]
             false true true [] [VStr "AAXX bad"].
Proof.
  assert (N : forall s n, non_null_request (request_message (VStr s) (JS.num n))).
  { intros s n. exists (VStr s), (JS.num n). split; reflexivity. }
  exact (proj2 (decoder_failure_wedges_worker http_base (failing_decoder "AAXX bad")
                  (request_message (VStr "AAXX bad") (JS.num 1))
                  [request_message (VStr "AAXX 2") (JS.num 2);
                   request_message (VStr "AAXX 3") (JS.num 3)]
                  (Error "decode failed")
                  (mkWorker [] false false true [] [])
                  (N _ _)
                  (Forall_cons _ (N _ _) (Forall_cons _ (N _ _) (Forall_nil _)))
                  eq_refl eq_refl eq_refl eq_refl eq_refl)).
Defined.

Section WorkerProtocol.

Variable valid_base : string -> bool.
Variable decode : value -> result value.

(** X2. A request that reaches the worker before the message that starts
    Pyodide is lost. Its event ends with a [TypeError] ([ctx] is still
    undefined), the request is off the queue and unanswered, and
    [processQueueIsRunning] stays set. A plain start message whose base the
    URL parser takes and the requests after it are handled as usual. When
    Pyodide is up and the decoder returns a record for each of those
    requests, they are answered in order, the first one never; and if none
    was buffered, the flag is still set, so the worker keeps queueing
    without decoding. *)
Theorem request_before_start_is_lost
    (m base : value) (early : list value) (rs : list reply) :
  non_null_request m ->
  JS.plain base = true ->
  JS.hasOwnProperty base "SYNOP_raw" = Ok false ->
  valid_base (JS.to_str base) = true ->
  Forall non_null_request early ->
  Forall2 (fun q r => reply_of decode q = Ok r) early rs ->
  onmessage valid_base decode m worker_start
  = (Throw (TypeError "Cannot read properties of undefined (reading 'globals')"),
     mkWorker [] false true false [] [])
  /\ events valid_base decode (m :: base :: early) worker_start
     = mkWorker early true true false [] []
  /\ startPyodide_then decode (mkWorker early true true false [] [])
     = (Ok tt, mkWorker [] false (match early with [] => true | _ => false end) true
                        rs (map raw_of early)).
Proof.
  intros Hm _ Hb Hu He Hr.
  assert (E : onmessage valid_base decode m worker_start
              = (Throw (TypeError "Cannot read properties of undefined (reading 'globals')"),
                 mkWorker [] false true false [] [])).
  { destruct Hm as (raw & id & -> & Hraw).
    unfold onmessage, handleMessage, wbind, wlift, push, processQueue, set_running, worker_start.
    cbn [JS.hasOwnProperty JS.get JS.lookup request_message String.eqb Ascii.eqb Bool.eqb].
    rewrite Hraw.
    cbn [messageQueue pyodideStarting processQueueIsRunning ctx outbox decoder_runs app].
    unfold wbind.
    cbn [messageQueue pyodideStarting processQueueIsRunning ctx outbox decoder_runs].
    rewrite (drain_head_fails decode (request_message raw id) []
               (TypeError "Cannot read properties of undefined (reading 'globals')")
               (mkWorker [request_message raw id] false true false [] [])
               (mkWorker [] false true false [] [])); [reflexivity|].
    unfold decodeSynop, wbind, wlift, runPython.
    cbn [JS.get JS.lookup request_message String.eqb Ascii.eqb Bool.eqb
         messageQueue pyodideStarting processQueueIsRunning ctx outbox decoder_runs].
    reflexivity. }
  split; [exact E|]. split.
  - cbn [events]. rewrite E. cbn [snd].
    unfold onmessage at 1. unfold new_URL, wbind, wlift. rewrite Hb, Hu.
    unfold startPyodide_begin, set_starting.
    cbn [snd messageQueue pyodideStarting processQueueIsRunning ctx outbox decoder_runs].
    rewrite (events_buffers valid_base decode early He) by reflexivity. reflexivity.
  - unfold startPyodide_then, wbind, set_starting, set_ctx.
    cbn [messageQueue pyodideStarting processQueueIsRunning ctx outbox decoder_runs].
    destruct early as [|q early].
    + inversion Hr; subst. reflexivity.
    + cbn [List.length Nat.eqb negb].
      rewrite (processQueue_fifo decode rs (mkWorker (q :: early) false true true [] []))
        by (try exact Hr; reflexivity).
      reflexivity.
Qed.

(** X22. A start message the URL parser refuses. When the message is plain,
    has no [SYNOP_raw] and is not an absolute base, [new URL] throws in [onmessage]
    before [startPyodide] is called: the worker is left as it was, so
    [pyodideStarting] is never set and nothing will ever set [ctx]. A
    request with a text that follows is therefore not buffered but run at
    once against the undefined [ctx]: its event ends with a [TypeError], the
    request is off the queue and unanswered, and the requests after it only
    join the queue. *)
Theorem refused_base_never_starts
    (base m : value) (later : list value) :
  JS.plain base = true ->
  JS.hasOwnProperty base "SYNOP_raw" = Ok false ->
  valid_base (JS.to_str base) = false ->
  non_null_request m ->
  Forall non_null_request later ->
  (forall w : worker,
      onmessage valid_base decode base w
      = (Throw (TypeError "Failed to construct 'URL': Invalid base URL"), w))
  /\ onmessage valid_base decode m (snd (onmessage valid_base decode base worker_start))
     = (Throw (TypeError "Cannot read properties of undefined (reading 'globals')"),
        mkWorker [] false true false [] [])
  /\ events valid_base decode (base :: m :: later) worker_start
     = mkWorker later false true false [] [].
Proof.
  intros _ Hb Hu Hm Hl.
  assert (E : forall w, onmessage valid_base decode base w
                        = (Throw (TypeError "Failed to construct 'URL': Invalid base URL"), w)).
  { intros w. unfold onmessage, new_URL, wbind, wlift. rewrite Hb, Hu. reflexivity. }
  assert (F : onmessage valid_base decode m worker_start
              = (Throw (TypeError "Cannot read properties of undefined (reading 'globals')"),
                 mkWorker [] false true false [] [])).
  { destruct Hm as (raw & id & -> & Hraw).
    unfold onmessage, handleMessage, wbind, wlift, push, processQueue, set_running, worker_start.
    cbn [JS.hasOwnProperty JS.get JS.lookup request_message String.eqb Ascii.eqb Bool.eqb].
    rewrite Hraw.
    cbn [messageQueue pyodideStarting processQueueIsRunning ctx outbox decoder_runs app].
    unfold wbind.
    cbn [messageQueue pyodideStarting processQueueIsRunning ctx outbox decoder_runs].
    rewrite (drain_head_fails decode (request_message raw id) []
               (TypeError "Cannot read properties of undefined (reading 'globals')")
               (mkWorker [request_message raw id] false true false [] [])
               (mkWorker [] false true false [] [])); [reflexivity|].
    unfold decodeSynop, wbind, wlift, runPython.
    cbn [JS.get JS.lookup request_message String.eqb Ascii.eqb Bool.eqb
         messageQueue pyodideStarting processQueueIsRunning ctx outbox decoder_runs].
    reflexivity. }
  split; [exact E|]. rewrite E. cbn [snd]. split; [exact F|].
  cbn [events]. rewrite E. cbn [snd]. rewrite F. cbn [snd].
  rewrite (events_running valid_base decode later Hl) by reflexivity. reflexivity.
Qed.

End WorkerProtocol.

Lemma refused_base_never_starts_witness :
  events http_base sample_decoder
    [VStr "pymetdecoder"; request_message (VStr "AAXX 1") (JS.num 1);
     request_message (VStr "AAXX 2") (JS.num 2)]
    worker_start
  = mkWorker [request_message (VStr "AAXX 2") (JS.num 2)] false true false [] [].
Proof.
  assert (N : forall s n, non_null_request (request_message (VStr s) (JS.num n))).
  { intros s n. exists (VStr s), (JS.num n). split; reflexivity. }
  exact (proj2 (proj2 (refused_base_never_starts http_base sample_decoder
                         (VStr "pymetdecoder") (request_message (VStr "AAXX 1") (JS.num 1))
                         [request_message (VStr "AAXX 2") (JS.num 2)]
                         eq_refl eq_refl eq_refl (N _ _)
                         (Forall_cons _ (N _ _) (Forall_nil _))))).
Defined.

Lemma request_before_start_is_lost_witness :
  events http_base sample_decoder
    [request_message (VStr "AAXX 1") (JS.num 1); VStr "http://host/";
     request_message (VStr "AAXX 2") (JS.num 2)]
    worker_start
  = mkWorker [request_message (VStr "AAXX 2") (JS.num 2)] true true false [] [].
Proof.
  assert (N : forall s n, non_null_request (request_message (VStr s) (JS.num n))).
  { intros s n. exists (VStr s), (JS.num n). split; reflexivity. }
  exact (proj1 (proj2 (request_before_start_is_lost http_base sample_decoder
                         (request_message (VStr "AAXX 1") (JS.num 1)) (VStr "http://host/")
                         [request_message (VStr "AAXX 2") (JS.num 2)]
                         [mkReply (VObj [("_raw", VStr "AAXX 2")]) (JS.num 2)]
                         (N _ _) eq_refl eq_refl eq_refl
                         (Forall_cons _ (N _ _) (Forall_nil _))
                         (Forall2_cons (request_message (VStr "AAXX 2") (JS.num 2))
                            (mkReply (VObj [("_raw", VStr "AAXX 2")]) (JS.num 2))
                            eq_refl (Forall2_nil _))))).
Defined.

Section WorkerReplies.

Variable valid_base : string -> bool.
Variable decode : value -> result value.

(** X3. What [decodeSynop] answers. When the decoder returns a record, the
    reply carries the request's id and the record with its [_raw] set to
    the request's text, the other keys as decoded (a [_raw] of the decoder's
    own is overwritten). When the decoder returns [null], nothing is
    answered: the assignment of [_raw] raises a [TypeError] after the text
    has been decoded. *)
Theorem decodeSynop_reply (raw id : value) (w : worker) :
  ctx w = true ->
  (forall l : list (string * value),
      decode raw = Ok (VObj l) ->
      decodeSynop decode (request_message raw id) w
      = (Ok tt, mkWorker (messageQueue w) (pyodideStarting w) (processQueueIsRunning w) true
                         (outbox w ++ [mkReply (VObj (JS.assign "_raw" raw l)) id])
                         (decoder_runs w ++ [raw]))
      /\ JS.lookup "_raw" (JS.assign "_raw" raw l) = Some raw
      /\ forall k : string, k <> "_raw" ->
           JS.lookup k (JS.assign "_raw" raw l) = JS.lookup k l)
  /\ (decode raw = Ok VNull ->
      decodeSynop decode (request_message raw id) w
      = (Throw (TypeError "Cannot set properties of null (setting '_raw')"),
         mkWorker (messageQueue w) (pyodideStarting w) (processQueueIsRunning w) true
                  (outbox w) (decoder_runs w ++ [raw]))).
Proof.
  intros Hc. destruct w as [q s p c o dr]; cbn in Hc; subst c.
  split.
  - intros l Hd. split; [|split].
    + unfold decodeSynop, wbind, wlift, runPython, worker_postMessage.
      cbn [JS.get JS.lookup request_message String.eqb Ascii.eqb Bool.eqb
           messageQueue pyodideStarting processQueueIsRunning ctx outbox decoder_runs].
      rewrite Hd. reflexivity.
    + apply lookup_assign.
    + intros k Hk. now apply lookup_assign_other.
  - intros Hd.
    unfold decodeSynop, wbind, wlift, runPython, worker_postMessage.
    cbn [JS.get JS.lookup request_message String.eqb Ascii.eqb Bool.eqb
         messageQueue pyodideStarting processQueueIsRunning ctx outbox decoder_runs].
    rewrite Hd. reflexivity.
Qed.

(** X4. A request without text overtakes the requests waiting for Pyodide.
    Sent after a list of requests with a text while Pyodide starts, it is
    answered at once; the waiting ones are answered when the start
    completes, so the replies leave in another order than the requests
    came. *)
Theorem null_request_overtakes_buffered
    (early : list value) (rs : list reply) (id : value) (w : worker) :
  Forall non_null_request early ->
  Forall2 (fun q r => reply_of decode q = Ok r) early rs ->
  pyodideStarting w = true -> processQueueIsRunning w = false -> messageQueue w = [] ->
  events valid_base decode (early ++ [request_message VNull id]) w
  = mkWorker early true false (ctx w) (outbox w ++ [mkReply VNull id]) (decoder_runs w)
  /\ startPyodide_then decode
       (events valid_base decode (early ++ [request_message VNull id]) w)
     = (Ok tt, mkWorker [] false false true (outbox w ++ mkReply VNull id :: rs)
                        (decoder_runs w ++ map raw_of early)).
Proof.
  intros He Hr Hs Hp Hq.
  assert (E : events valid_base decode (early ++ [request_message VNull id]) w
              = mkWorker early true false (ctx w) (outbox w ++ [mkReply VNull id])
                         (decoder_runs w)).
  { rewrite events_app, (events_buffers valid_base decode early He w Hs). cbn [events].
    unfold onmessage, wbind, wlift.
    cbn [JS.hasOwnProperty JS.lookup request_message String.eqb Ascii.eqb Bool.eqb].
    rewrite (handleMessage_null decode (request_message VNull id) VNull id)
      by reflexivity.
    cbn [snd messageQueue pyodideStarting processQueueIsRunning ctx outbox decoder_runs].
    now rewrite Hq, Hp. }
  split; [exact E|].
  rewrite E.
  rewrite (startPyodide_then_fifo decode rs) by (try exact Hr; reflexivity).
  cbn [messageQueue outbox decoder_runs]. now rewrite <- app_assoc.
Qed.

End WorkerReplies.

Lemma decodeSynop_reply_witness :
  decodeSynop sample_decoder (request_message (VStr "AAXX 1") (JS.num 7))
    (mkWorker [] false true true [] [])
  = (Ok tt, mkWorker [] false true true
                     [mkReply (VObj [("_raw", VStr "AAXX 1")]) (JS.num 7)]
                     [VStr "AAXX 1"]).
Proof.
  exact (proj1 (proj1 (decodeSynop_reply sample_decoder (VStr "AAXX 1") (JS.num 7)
                         (mkWorker [] false true true [] []) eq_refl)
                 [] eq_refl)).
Defined.

Lemma null_request_overtakes_buffered_witness :
  outbox (events http_base sample_decoder
            [request_message (VStr "AAXX 1") (JS.num 1); request_message VNull (JS.num 2)]
            (mkWorker [] true false false [] []))
  = [mkReply VNull (JS.num 2)].
Proof.
  assert (N : forall s n, non_null_request (request_message (VStr s) (JS.num n))).
  { intros s n. exists (VStr s), (JS.num n). split; reflexivity. }
  exact (f_equal outbox
           (proj1 (null_request_overtakes_buffered http_base sample_decoder
                     [request_message (VStr "AAXX 1") (JS.num 1)]
                     [mkReply (VObj [("_raw", VStr "AAXX 1")]) (JS.num 1)]
                     (JS.num 2) (mkWorker [] true false false [] [])
                     (Forall_cons _ (N _ _) (Forall_nil _))
                     (Forall2_cons (request_message (VStr "AAXX 1") (JS.num 1))
                        (mkReply (VObj [("_raw", VStr "AAXX 1")]) (JS.num 1))
                        eq_refl (Forall2_nil _))
                     eq_refl eq_refl eq_refl))).
Defined.

(** ** The Leaflet wrapper beyond the empty string *)

Lemma _main_app (field : string) (before after : list layer) :
  fst (_main field before) = Ok tt ->
  _main field (before ++ after)
  = (fst (_main field after), (snd (_main field before) ++ snd (_main field after))%list).
Proof.
  induction before as [|l r IH]; cbn [_main app].
  - intros _. now destruct (_main field after).
  - destruct (each_layer field l) as [[c|]|e].
    + destruct (_main field r) as [res cs]. cbn [fst snd] in *.
      intros H. rewrite (IH H). reflexivity.
    + exact IH.
    + discriminate.
Qed.

(** X5. Which layers get a symbol. A layer whose attribute is present gets
    a [meteoStation] call unless the attribute is loosely equal to the empty
    string; the number 0, [false] and the empty array are, so such layers
    are skipped like the empty string, while [null] and a blank string are
    not: the call is made with that value as the report. The call carries
    the layer's id and coordinates. *)
Theorem wrapper_skips_loosely_empty :
  (forall (field : string) (l : layer) (props : list (string * value)) (v : value),
      properties l = VObj props ->
      JS.lookup field props = Some v ->
      each_layer field l
      = if JS.eq_str v ""
        then Ok None
        else Ok (Some (mkCall (mkData v (_leaflet_id l)) (coordinates l))))
  /\ JS.eq_str (JS.num 0) "" = true
  /\ JS.eq_str (VBool false) "" = true
  /\ JS.eq_str (VArr []) "" = true
  /\ JS.eq_str VNull "" = false
  /\ JS.eq_str (VStr " ") "" = false.
Proof.
  split.
  - intros field l props v Hp Hv. unfold each_layer. rewrite Hp.
    cbn [JS.hasOwnProperty JS.get rbind]. rewrite Hv. cbn [negb rbind]. reflexivity.
  - split; [vm_compute; reflexivity|].
    split; [vm_compute; reflexivity|].
    split; [vm_compute; reflexivity|].
    split; reflexivity.
Qed.

Lemma wrapper_skips_loosely_empty_witness :
  each_layer "synop" (mkLayer (VObj [("synop", JS.num 0)]) VNull (JS.num 1)) = Ok None.
Proof.
  rewrite (proj1 wrapper_skips_loosely_empty "synop"
             (mkLayer (VObj [("synop", JS.num 0)]) VNull (JS.num 1))
             [("synop", JS.num 0)] (JS.num 0) eq_refl eq_refl).
  vm_compute. reflexivity.
Defined.

(** X6. A feature without properties stops the wrapper. When a layer's
    [properties] is [null], the callback raises a [TypeError] at
    [hasOwnProperty]; [eachLayer] ends there, so the layers before it have
    their calls and no layer after it gets one. *)
Theorem wrapper_stops_at_null_properties
    (field : string) (before after : list layer) (l : layer) :
  properties l = VNull ->
  fst (_main field before) = Ok tt ->
  _main field (before ++ l :: after)
  = (Throw (TypeError "Cannot read properties of null (reading 'hasOwnProperty')"),
     snd (_main field before)).
Proof.
  intros Hl Hb. rewrite (_main_app field before (l :: after) Hb).
  cbn [_main]. unfold each_layer. rewrite Hl. cbn [JS.hasOwnProperty rbind fst snd].
  now rewrite app_nil_r.
Qed.

Lemma wrapper_stops_at_null_properties_witness :
  _main "synop"
    [mkLayer (VObj [("synop", VStr "AAXX 1")]) VNull (JS.num 1);
     mkLayer VNull VNull (JS.num 2);
     mkLayer (VObj [("synop", VStr "AAXX 3")]) VNull (JS.num 3)]
  = (Throw (TypeError "Cannot read properties of null (reading 'hasOwnProperty')"),
     [mkCall (mkData (VStr "AAXX 1") (JS.num 1)) VNull]).
Proof.
  exact (wrapper_stops_at_null_properties "synop"
           [mkLayer (VObj [("synop", VStr "AAXX 1")]) VNull (JS.num 1)]
           [mkLayer (VObj [("synop", VStr "AAXX 3")]) VNull (JS.num 3)]
           (mkLayer VNull VNull (JS.num 2)) eq_refl eq_refl).
Defined.

(** ** Waiting for the worker's reply *)

Lemma find_reply_some (id : value) (T : list reply) :
  forall k i, find_reply id T k = Some i ->
  (k <= i)%nat
  /\ (exists r, nth_error T (i - k) = Some r /\ JS.strict_eq (leafletID r) id = true)
  /\ forall j r', (j < i - k)%nat -> nth_error T j = Some r' ->
       JS.strict_eq (leafletID r') id = false.
Proof.
  induction T as [|r T IH]; intros k i H; cbn [find_reply] in H; [discriminate|].
  destruct (JS.strict_eq (leafletID r) id) eqn:E.
  - injection H as <-. rewrite Nat.sub_diag. split; [lia|]. split.
    + exists r. split; [reflexivity|exact E].
    + intros j r' Hj. lia.
  - destruct (IH (S k) i H) as (Hk & (r0 & Hr0 & Em) & Hbefore).
    split; [lia|]. split.
    + exists r0. split; [|exact Em].
      replace (i - k)%nat with (S (i - S k)) by lia. exact Hr0.
    + intros [|j] r' Hj Hn; cbn [nth_error] in Hn.
      * injection Hn as <-. exact E.
      * apply (Hbefore j r'); [lia|exact Hn].
Qed.

Lemma find_reply_none (id : value) (T : list reply) :
  forall k, find_reply id T k = None <->
            (forall r, In r T -> JS.strict_eq (leafletID r) id = false).
Proof.
  induction T as [|r T IH]; intros k; cbn [find_reply In].
  - split; [intros _ r []|reflexivity].
  - destruct (JS.strict_eq (leafletID r) id) eqn:E.
    + split; [discriminate|]. intros H. rewrite (H r (or_introl eq_refl)) in E. discriminate.
    + rewrite IH. split.
      * intros H r' [<-|Hin]; [exact E|now apply H].
      * intros H r' Hin. apply H. now right.
Qed.

Lemma find_reply_app (id : value) (T T' : list reply) :
  forall k i, find_reply id T k = Some i -> find_reply id (T ++ T') k = Some i.
Proof.
  induction T as [|r T IH]; intros k i H; cbn [find_reply app] in *; [discriminate|].
  destruct (JS.strict_eq (leafletID r) id); [exact H|]. now apply IH.
Qed.

(** X7. [waitForDecodedSynop] settles on the oldest reply under the id. It
    resolves with the first table entry whose [leafletID] is strictly equal
    to the awaited one, leaving the state as it is; replies pushed later,
    also under the same id, never change that entry, so a second call for
    the same feature is served the first call's record. When no entry has
    the id it rejects with the time-out error. *)
Theorem waitForDecodedSynop_first_match (id : value) (st : state) :
  (forall i : nat,
      find_reply id (decodedSynops st) 0 = Some i ->
      waitForDecodedSynop id st = (Ok i, st)
      /\ (exists r, nth_error (decodedSynops st) i = Some r
                    /\ JS.strict_eq (leafletID r) id = true)
      /\ (forall j r', (j < i)%nat -> nth_error (decodedSynops st) j = Some r' ->
            JS.strict_eq (leafletID r') id = false)
      /\ (forall later : list reply,
            waitForDecodedSynop id (snd (deliver later st))
            = (Ok i, snd (deliver later st))))
  /\ ((forall r, In r (decodedSynops st) -> JS.strict_eq (leafletID r) id = false) ->
      waitForDecodedSynop id st = (Throw (Error "catching item timed out"), st)).
Proof.
  split.
  - intros i H.
    destruct (find_reply_some id (decodedSynops st) 0 i H) as (_ & Hr & Hb).
    rewrite Nat.sub_0_r in Hr, Hb.
    split; [unfold waitForDecodedSynop; now rewrite H|].
    split; [exact Hr|]. split; [exact Hb|].
    intros later. rewrite deliver_appends. cbn [snd].
    unfold waitForDecodedSynop. cbn [decodedSynops].
    now rewrite (find_reply_app id (decodedSynops st) later 0 i H).
  - intros H. apply (find_reply_none id (decodedSynops st) 0) in H.
    unfold waitForDecodedSynop. now rewrite H.
Qed.

Lemma waitForDecodedSynop_first_match_witness :
  waitForDecodedSynop (JS.num 1)
    (snd (deliver [mkReply (VObj [("_raw", VStr "AAXX new")]) (JS.num 1)]
            (decoded_as west_wind_observation)))
  = (Ok 0%nat,
     snd (deliver [mkReply (VObj [("_raw", VStr "AAXX new")]) (JS.num 1)]
            (decoded_as west_wind_observation))).
Proof.
  assert (F : find_reply (JS.num 1) (decodedSynops (decoded_as west_wind_observation)) 0
              = Some 0%nat) by (vm_compute; reflexivity).
  exact (proj2 (proj2 (proj2 (proj1 (waitForDecodedSynop_first_match (JS.num 1)
                                        (decoded_as west_wind_observation)) 0%nat F)))
           [mkReply (VObj [("_raw", VStr "AAXX new")]) (JS.num 1)]).
Defined.

(** ** A call of [meteoStation] without a record to draw *)

Lemma bind_ok {A B : Type} (m : M A) (f : A -> M B) (st st1 : state) (a : A) :
  m st = (Ok a, st1) -> bind m f st = f a st1.
Proof. intros H. unfold bind. now rewrite H. Qed.

(** Up to the wait, a call only builds its groups and root, resets the
    cursor and posts its request. *)
Lemma meteoStation_with_ready (http_ok : string -> bool) (o : options) (data : synop_data)
    (pointCoords : value) (st : state) :
  JS.is_nullish (scaling o) = false ->
  meteoStation_with http_ok o data pointCoords st
  = await_and_fill http_ok o data pointCoords (ready o data st).
Proof.
  intros Hs. destruct st as [d x y t p c]. unfold meteoStation_with.
  rewrite (bind_ok _ _ _ (mkState empty_store x y t p c) tt) by reflexivity.
  rewrite (bind_ok _ _ _ (mkState (init_store (debug o)) x y t p c) tt)
    by apply generate_run.
  rewrite (bind_ok _ _ _
             (mkState (Dom.update HSvg (svg_attributes o) (init_store (debug o))) x y t p c) tt)
    by (rewrite (create_svg_run o _ Hs); reflexivity).
  rewrite (bind_ok _ _ _
             (mkState (Dom.update HSvg (svg_attributes o) (init_store (debug o)))
                      grid_origin grid_origin t p c) tt)
    by reflexivity.
  rewrite (bind_ok _ _ _ (ready o data (mkState d x y t p c)) tt) by reflexivity.
  reflexivity.
Qed.

Lemma meteoStation_ready (http_ok : string -> bool) (data : synop_data)
    (pointCoords : value) (userOptions : user_options) (st : state) :
  meteoStation http_ok data pointCoords userOptions st
  = await_and_fill http_ok (Object_assign defaultOptions userOptions) data pointCoords
      (ready (Object_assign defaultOptions userOptions) data st).
Proof. apply meteoStation_with_ready, merged_scaling. Qed.

Lemma ready_root (o : options) (data : synop_data) (st : state) :
  kids (svg (dom (ready o data st))) = []
  /\ List.length (slots (dom (ready o data st))) = 26%nat.
Proof.
  unfold ready.
  cbn [dom Dom.update slots svg kids svg_attributes Dom.with_attr].
  destruct (debug o); split; vm_compute; reflexivity.
Qed.

(** X8. A call whose reply never comes. When the table holds no entry under
    the call's id, [meteoStation] rejects with the time-out error; by then it
    has posted its request, and built the 26 groups and the root without
    attaching any group; table and console are as before. *)
Theorem meteoStation_times_out
    (http_ok : string -> bool) (data : synop_data) (pointCoords : value)
    (userOptions : user_options) (st : state) :
  (forall r, In r (decodedSynops st) ->
        JS.strict_eq (leafletID r) (data_leafletID data) = false) ->
  let st' := snd (meteoStation http_ok data pointCoords userOptions st) in
  fst (meteoStation http_ok data pointCoords userOptions st)
  = Throw (Error "catching item timed out")
  /\ posted st' = (posted st ++ [mkRequest (rawSynop data) (data_leafletID data)])%list
  /\ kids (svg (dom st')) = []
  /\ List.length (slots (dom st')) = 26%nat
  /\ decodedSynops st' = decodedSynops st
  /\ console st' = console st.
Proof.
  intros H st'. subst st'. rewrite meteoStation_ready.
  set (o := Object_assign defaultOptions userOptions).
  apply (find_reply_none (data_leafletID data) (decodedSynops st) 0) in H.
  assert (E : await_and_fill http_ok o data pointCoords (ready o data st)
              = (Throw (Error "catching item timed out"), ready o data st)).
  { unfold await_and_fill, bind, waitForDecodedSynop.
    change (decodedSynops (ready o data st)) with (decodedSynops st).
    now rewrite H. }
  rewrite E. cbn [fst snd].
  destruct (ready_root o data st) as (Hk & Hl).
  split; [reflexivity|]. split; [reflexivity|]. split; [exact Hk|].
  split; [exact Hl|]. split; reflexivity.
Qed.

Lemma meteoStation_times_out_witness :
  fst (meteoStation all_icons sample_data (at_latitude 45) no_user_options (module_state []))
  = Throw (Error "catching item timed out").
Proof.
  exact (proj1 (meteoStation_times_out all_icons sample_data (at_latitude 45)
                  no_user_options (module_state []) (fun r (H : In r []) => match H with end))).
Defined.



(** ** Wind speeds the symbol table does not cover *)





(** ** Temperatures: slots 6 and 16 *)






(** ** Which slot rules can stop a call *)

Lemma has_total (v : value) (k : string) :
  JS.is_nullish v = false -> exists b, JS.hasOwnProperty v k = Ok b.
Proof.
  destruct v; cbn [JS.is_nullish JS.hasOwnProperty]; try discriminate; intros _; eauto.
Qed.

Lemma nt_ret {A : Type} (a : A) : never_throws (ret a).
Proof. intros st. now exists a. Qed.

Lemma nt_bind {A B : Type} (m : M A) (f : A -> M B) :
  never_throws m -> (forall a, never_throws (f a)) -> never_throws (bind m f).
Proof.
  intros Hm Hf st. unfold bind. destruct (Hm st) as (a & Ha).
  destruct (m st) as [[a'|e] st1]; cbn [fst] in Ha; [|discriminate].
  apply Hf.
Qed.

Lemma nt_when (b : bool) (m : M unit) : never_throws m -> never_throws (when b m).
Proof. destruct b; cbn [when]; auto using nt_ret. Qed.

Lemma nt_modify_dom (f : store -> store) : never_throws (modify_dom f).
Proof. intros st. now exists tt. Qed.

Lemma nt_createElementNS (t : string) (src : option string) :
  never_throws (createElementNS t src).
Proof. intros st. eexists. reflexivity. Qed.

Lemma nt_loadSVGIcon (http_ok : string -> bool) (path : string) :
  never_throws (loadSVGIcon http_ok path).
Proof.
  unfold loadSVGIcon. destruct (http_ok path); [|apply nt_ret].
  apply nt_bind; [apply nt_createElementNS|intros; apply nt_ret].
Qed.

Lemma nt_createTextElement (v : value) : never_throws (createTextElement v).
Proof.
  unfold createTextElement. cbv zeta.
  apply nt_bind; [apply nt_createElementNS|intros n].
  repeat (apply nt_bind; [apply nt_modify_dom|intros _]).
  apply nt_ret.
Qed.

Lemma nt_text (element : handle) (v : value) :
  never_throws (t <- createTextElement v ;; appendChild element (HNode t)).
Proof. apply nt_bind; [apply nt_createTextElement|intros; apply nt_modify_dom]. Qed.

Lemma nt_set_size (n : nat) (w h : float) : never_throws (set_size n w h).
Proof.
  unfold set_size. repeat (apply nt_bind; [apply nt_modify_dom|intros _]).
  apply nt_modify_dom.
Qed.

(** Reading a field of a value that is not null, and testing for a key. *)
Ltac read_field v k :=
  let x := fresh "x" in
  let Hx := fresh "Hx" in
  match goal with
  | H : JS.is_nullish v = false |- _ =>
      destruct (get_total v k H) as (x & Hx); rewrite !Hx;
      cbn [dot has rbind rmap rand ror not_null is_num isnt_num]
  end.

Ltac test_key v k :=
  let b := fresh "b" in
  let Hb := fresh "Hb" in
  match goal with
  | H : JS.is_nullish v = false |- _ =>
      destruct (has_total v k H) as (b & Hb); rewrite !Hb;
      cbn [dot has rbind rmap rand ror not_null is_num isnt_num]
  end.

Section SafeRules.

Variable http_ok : string -> bool.
Variable o : options.
Variable element : handle.
Variable d : value.
Hypothesis Hd : JS.is_nullish d = false.

Lemma nt_value_text (k sub : string) (f : value -> value) :
  never_throws
    (c <- lift (not_null (Ok d ./ k)) ;;
     when c (v <- lift (Ok d ./ k ./ sub) ;;
             t <- createTextElement (f v) ;;
             appendChild element (HNode t))).
Proof.
  cbn [dot has rbind rmap rand ror not_null]. read_field d k.
  rewrite (bind_lift_ok _ _ _ eq_refl).
  destruct (JS.is_nullish x) eqn:E; cbn [negb when]; [apply nt_ret|].
  read_field x sub. rewrite (bind_lift_ok _ _ _ eq_refl). apply nt_text.
Qed.

Lemma nt_case_6 : never_throws (case_6 o element d).
Proof. exact (nt_value_text "air_temperature" "value" (temperature_text (temperature o))). Qed.

Lemma nt_case_8 : never_throws (case_8 element d).
Proof.
  exact (nt_value_text "sea_level_pressure" "value" (fun v => VStr (pressure_plot_code v))).
Qed.

Lemma nt_case_10 : never_throws (case_10 element d).
Proof. exact (nt_value_text "visibility" "_code" (fun v => v)). Qed.

Lemma nt_cloud_icon (k prefix : string) (after : nat -> M unit) :
  (forall n, never_throws (after n)) ->
  never_throws
    (c <- lift (not_null (Ok d ./ "cloud_types")) ;;
     when c (
       c' <- lift (has (Ok d ./ "cloud_types") k
                   <&&> not_null (Ok d ./ "cloud_types" ./ k)
                   <&&> isnt_num (Ok d ./ "cloud_types" ./ k ./ "value") 0) ;;
       when c' (
         v <- lift (Ok d ./ "cloud_types" ./ k ./ "value") ;;
         icon <- loadSVGIcon http_ok (prefix ++ JS.to_str v ++ ".svg") ;;
         match icon with
         | Some n => after n
         | None => ret tt
         end))).
Proof.
  intros Ha.
  cbn [dot has rbind rmap rand ror not_null is_num isnt_num]. read_field d "cloud_types".
  rewrite (bind_lift_ok _ _ _ eq_refl).
  destruct (JS.is_nullish x) eqn:E; cbn [negb when]; [apply nt_ret|].
  test_key x k. destruct b; [|rewrite (bind_lift_ok _ _ _ eq_refl); apply nt_ret].
  read_field x k.
  destruct (JS.is_nullish x0) eqn:E0; cbn [negb];
    [rewrite (bind_lift_ok _ _ _ eq_refl); apply nt_ret|].
  read_field x0 "value". rewrite (bind_lift_ok _ _ _ eq_refl).
  destruct (negb (JS.eq_num x1 0)); cbn [when]; [|apply nt_ret].
  rewrite (bind_lift_ok _ _ _ eq_refl).
  apply nt_bind; [apply nt_loadSVGIcon|intros [n|]; [apply Ha|apply nt_ret]].
Qed.

Lemma nt_case_2 : never_throws (case_2 http_ok o element d).
Proof.
  apply (nt_cloud_icon "high_cloud_type" "./symbols/CH_CloudHigh/WeatherSymbol_WMO_CloudHigh_CH_"
           (fun n => set_size n w_slot w_slot ;;
                     when (highCloudsInRed o) (setAttribute element "style" red_filter) ;;
                     appendChild element (HNode n))).
  intros n. apply nt_bind; [apply nt_set_size|intros _].
  apply nt_bind; [apply nt_when, nt_modify_dom|intros _]. apply nt_modify_dom.
Qed.

Lemma nt_case_7 : never_throws (case_7 http_ok element d).
Proof.
  apply (nt_cloud_icon "middle_cloud_type"
           "./symbols/CM_CloudMedium/WeatherSymbol_WMO_CloudMedium_CM_"
           (fun n => set_size n w_slot w_slot ;; appendChild element (HNode n))).
  intros n. apply nt_bind; [apply nt_set_size|intros _]. apply nt_modify_dom.
Qed.

Lemma nt_case_default : never_throws (case_default o element).
Proof. unfold case_default, slashes. apply nt_when, nt_text. Qed.

End SafeRules.

(** X12. The rules that cannot stop a call. For a record that is not null
    and is plain (no object in it owns a key [hasOwnProperty], [toString] or
    [valueOf], on which the method call of slots 2 and 7 and the conversions
    to text and number would raise), the rule of every slot other than 11,
    12, 13, 14, 16, 17, 18 and 23 returns, whatever else the record holds,
    the options, the coordinates and the assets that are missing: slots 2,
    6, 7, 8 and 10 guard every field they read, the remaining cells hold
    nothing or the debug mark. *)
Theorem guarded_slot_rules_return
    (http_ok : string -> bool) (o : options) (pointCoords : value)
    (entry idx : nat) (st : state) :
  JS.is_nullish (table_decoded st entry) = false ->
  JS.plain (table_decoded st entry) = true ->
  ~ In idx [11; 12; 13; 14; 16; 17; 18; 23]%nat ->
  exists st', slot_rule http_ok o pointCoords entry idx st = (Ok tt, st').
Proof.
  intros Hd _ Hidx.
  assert (R : forall m : M unit, never_throws m ->
                exists st', m st = (Ok tt, st')).
  { intros m Hm. destruct (Hm st) as ([] & Ha).
    exists (snd (m st)). destruct (m st) as [r s]. cbn [fst snd] in *. now subst r. }
  unfold slot_rule. cbv zeta.
  rewrite (bind_ok _ _ st st (table_decoded st entry)) by reflexivity.
  do 25 (destruct idx as [|idx];
         [first [ apply R, nt_ret
                | apply R, nt_case_2; exact Hd
                | apply R, nt_case_6; exact Hd
                | apply R, nt_case_7; exact Hd
                | apply R, nt_case_8; exact Hd
                | apply R, nt_case_10; exact Hd
                | apply R, nt_case_default
                | exfalso; apply Hidx; cbn [In]; tauto ]|]).
  apply R, nt_case_default.
Qed.

Lemma guarded_slot_rules_return_witness :
  exists st', slot_rule no_icons defaultOptions (at_latitude 45) 0 8
                (decoded_as (VObj [("sea_level_pressure", JS.num 1013)]))
              = (Ok tt, st').
Proof.
  apply guarded_slot_rules_return.
  - reflexivity.
  - reflexivity.
  - cbn [In]. intros H. repeat (destruct H as [H|H]; [discriminate H|]). exact H.
Defined.

(** X13. Fields that are present but null. A record whose
    [pressure_tendency] is null stops the rules of slots 13 and 14, one whose
    [dewpoint_temperature] is null the rule of slot 16, one whose
    [cloud_types] is null the rule of slot 17, one whose
    [precipitation_indicator] is null the rule of slot 23, and one whose
    [weather_indicator] is null the automatic-station block of slot 12: each
    tests [hasOwnProperty] and then reads a property of null. A record with
    a present weather or past weather but no [weather_indicator] stops the
    rules of slots 11 and 18. *)
Theorem null_fields_stop_rules
    (http_ok : string -> bool) (o : options) (element : handle) (entry : nat)
    (l : list (string * value)) (st : state) :
  (JS.lookup "pressure_tendency" l = Some VNull ->
   case_13 o element (VObj l) st
   = (Throw (TypeError "Cannot read properties of null (reading 'hasOwnProperty')"), st)
   /\ case_14 http_ok o element (VObj l) st
      = (Throw (TypeError "Cannot read properties of null (reading 'hasOwnProperty')"), st))
  /\ (JS.lookup "dewpoint_temperature" l = Some VNull ->
      case_16 o element (VObj l) st
      = (Throw (TypeError "Cannot read properties of null (reading 'value')"), st))
  /\ (JS.lookup "cloud_types" l = Some VNull ->
      case_17 http_ok element (VObj l) st
      = (Throw (TypeError "Cannot read properties of null (reading 'hasOwnProperty')"), st))
  /\ (JS.lookup "precipitation_indicator" l = Some VNull ->
      case_23 element (VObj l) st
      = (Throw (TypeError "Cannot read properties of null (reading 'value')"), st))
  /\ (JS.lookup "weather_indicator" l = Some VNull ->
      automatic_station http_ok element (VObj l) st
      = (Throw (TypeError "Cannot read properties of null (reading 'automatic')"), st))
  /\ (forall v : value,
         JS.lookup "present_weather" l = Some v -> JS.is_nullish v = false ->
         JS.lookup "weather_indicator" l = None ->
         case_11 http_ok element (VObj l) st
         = (Throw (TypeError "Cannot read properties of undefined (reading 'automatic')"), st))
  /\ (forall w1 rest,
         JS.lookup "past_weather" l = Some (VArr (w1 :: rest)) -> JS.is_nullish w1 = false ->
         JS.lookup "weather_indicator" l = None ->
         case_18 http_ok o entry element (VObj l) st
         = (Throw (TypeError "Cannot read properties of undefined (reading 'automatic')"), st)).
Proof.
  split; [|split; [|split; [|split; [|split; [|split]]]]].
  - intros H. split.
    + unfold case_13. js_eval. reflexivity.
    + unfold case_14. js_eval. reflexivity.
  - intros H. unfold case_16. js_eval. reflexivity.
  - intros H. unfold case_17. js_eval. reflexivity.
  - intros H. unfold case_23. js_eval. reflexivity.
  - intros H. unfold automatic_station. js_eval. reflexivity.
  - intros v Hv Hn Hw. unfold case_11. js_eval. rewrite Hn. reflexivity.
  - intros w1 rest Hp Hn Hw. unfold case_18. js_eval.
    unfold bind, lift. cbn [when]. rewrite get_index_0. cbn [nth rbind rmap not_null ror].
    rewrite Hn. reflexivity.
Qed.

Lemma null_fields_stop_rules_witness :
  case_16 defaultOptions (HSlot 16) (VObj [("dewpoint_temperature", VNull)])
    (sample_state VNull)
  = (Throw (TypeError "Cannot read properties of null (reading 'value')"),
     sample_state VNull).
Proof.
  exact (proj1 (proj2 (null_fields_stop_rules no_icons defaultOptions (HSlot 16) 0%nat
                         [("dewpoint_temperature", VNull)] (sample_state VNull)))
           eq_refl).
Defined.

(** ** The centre symbol: sky cover and the automatic-station mark *)



(** ** What a call leaves alone *)

Lemma outside_refl (st : state) : outside st st.
Proof. constructor; reflexivity. Qed.

Lemma outside_trans (s1 s2 s3 : state) : outside s1 s2 -> outside s2 s3 -> outside s1 s3.
Proof.
  intros [a b c d] [a' b' c' d'].
  constructor; [now rewrite a'|now rewrite b'|now rewrite c'|now rewrite d'].
Qed.

Lemma map_ids_update (entry : nat) (f : value -> value) (T : list reply) :
  map leafletID (Dom.update_nth entry (fun r => mkReply (f (decoded r)) (leafletID r)) T)
  = map leafletID T.
Proof.
  revert entry. induction T as [|r T IH]; intros [|entry]; cbn [Dom.update_nth map leafletID];
    auto. now rewrite IH.
Qed.

Lemma lv_ret {A : Type} (a : A) : leaves (ret a).
Proof. intros st. apply outside_refl. Qed.

Lemma lv_lift {A : Type} (r : result A) : leaves (lift r).
Proof. intros st. apply outside_refl. Qed.

Lemma lv_throw {A : Type} (e : exn) : leaves (throw (A := A) e).
Proof. intros st. apply outside_refl. Qed.

Lemma lv_bind {A B : Type} (m : M A) (f : A -> M B) :
  leaves m -> (forall a, leaves (f a)) -> leaves (bind m f).
Proof.
  intros Hm Hf st. rewrite snd_bind. specialize (Hm st).
  destruct (m st) as [[a|e] st1]; cbn [snd] in Hm; [|exact Hm].
  exact (outside_trans _ _ _ Hm (Hf a st1)).
Qed.

Lemma lv_when (b : bool) (m : M unit) : leaves m -> leaves (when b m).
Proof. destruct b; cbn [when]; auto using lv_ret. Qed.

Lemma lv_createElementNS (t : string) (src : option string) : leaves (createElementNS t src).
Proof. intros st. constructor; reflexivity. Qed.

Lemma lv_console_log (msg : string) : leaves (console_log msg).
Proof. intros st. constructor; reflexivity. Qed.

Lemma lv_decodedData (entry : nat) : leaves (decodedData entry).
Proof. intros st. apply outside_refl. Qed.

Lemma lv_assign_decoded (entry : nat) (path : list string) (v : value) :
  leaves (assign_decoded entry path v).
Proof.
  intros st. constructor; try reflexivity.
  unfold assign_decoded. cbn [snd decodedSynops]. apply map_ids_update.
Qed.

Lemma lv_set_xy (fx fy : float -> float) : leaves (set_xy fx fy).
Proof. intros st. constructor; reflexivity. Qed.

Lemma lv_get_xy : leaves get_xy.
Proof. intros st. apply outside_refl. Qed.

Lemma lv_waitForDecodedSynop (id : value) : leaves (waitForDecodedSynop id).
Proof.
  intros st. unfold waitForDecodedSynop.
  destruct (find_reply id (decodedSynops st) 0); apply outside_refl.
Qed.

Lemma lv_update_node (n : nat) (f : node -> node) : leaves (modify_dom (Dom.update (HNode n) f)).
Proof. intros st. constructor; reflexivity. Qed.

Lemma lv_update_slot (i : nat) (f : node -> node) : leaves (modify_dom (Dom.update (HSlot i) f)).
Proof.
  intros st. constructor; try reflexivity.
  cbn [snd modify_dom dom Dom.update slots]. apply length_update_nth.
Qed.

Lemma lv_setAttribute_node (n : nat) (k v : string) : leaves (setAttribute (HNode n) k v).
Proof. apply lv_update_node. Qed.

Lemma lv_setAttribute_slot (i : nat) (k v : string) : leaves (setAttribute (HSlot i) k v).
Proof. apply lv_update_slot. Qed.

Lemma lv_set_innerHTML (n : nat) (v : value) : leaves (set_innerHTML (HNode n) v).
Proof. apply lv_update_node. Qed.

Lemma lv_appendChild (p c : handle) : leaves (appendChild p c).
Proof.
  intros st. constructor; try reflexivity.
  - unfold appendChild, modify_dom, Dom.append, Dom.detach. cbn [snd dom].
    destruct p; reflexivity.
  - unfold appendChild, modify_dom, Dom.append, Dom.detach. cbn [snd dom].
    destruct p; cbn [Dom.update slots]; rewrite ?length_update_nth, length_map; reflexivity.
Qed.

Lemma lv_loadSVGIcon (http_ok : string -> bool) (path : string) :
  leaves (loadSVGIcon http_ok path).
Proof.
  unfold loadSVGIcon. destruct (http_ok path); [|apply lv_ret].
  apply lv_bind; [apply lv_createElementNS|intros; apply lv_ret].
Qed.

Create HintDb lv.

(** One step through a rule, as for the frame of a slot. *)
Ltac lv_auto :=
  cbv zeta;
  lazymatch goal with
  | |- leaves (bind _ _) => apply lv_bind; [lv_auto|intros ?; lv_auto]
  | |- leaves (when _ _) => apply lv_when; lv_auto
  | |- leaves (if ?b then _ else _) => destruct b; lv_auto
  | |- leaves (match ?x with Some _ => _ | None => _ end) => destruct x; lv_auto
  | |- leaves (match ?x with (_, _) => _ end) => destruct x; lv_auto
  | |- leaves (lift _) => apply lv_lift
  | |- leaves (ret _) => apply lv_ret
  | |- leaves (throw _) => apply lv_throw
  | |- leaves (decodedData _) => apply lv_decodedData
  | |- leaves (assign_decoded _ _ _) => apply lv_assign_decoded
  | |- leaves (console_log _) => apply lv_console_log
  | |- leaves (createElementNS _ _) => apply lv_createElementNS
  | |- leaves (loadSVGIcon _ _) => apply lv_loadSVGIcon
  | |- leaves (set_innerHTML (HNode _) _) => apply lv_set_innerHTML
  | |- leaves (setAttribute (HNode _) _ _) => apply lv_setAttribute_node
  | |- leaves (setAttribute (HSlot _) _ _) => apply lv_setAttribute_slot
  | |- leaves (appendChild _ _) => apply lv_appendChild
  | |- leaves (set_xy _ _) => apply lv_set_xy
  | |- leaves get_xy => apply lv_get_xy
  | |- _ => solve [eauto 3 with lv nocore]
  end.

Section RuleLeaves.

Variable http_ok : string -> bool.
Variable idx : nat.

Lemma lv_createTextElement (v : value) : leaves (createTextElement v).
Proof. unfold createTextElement. lv_auto. Qed.

Lemma lv_set_size (n : nat) (w h : float) : leaves (set_size n w h).
Proof. unfold set_size. lv_auto. Qed.

Lemma lv_set_origin (n : nat) (w h : float) : leaves (set_origin n w h).
Proof. unfold set_origin. lv_auto. Qed.

Hint Resolve lv_createTextElement lv_set_size lv_set_origin lv_ret : lv.

Lemma lv_slashes (s : string) : leaves (slashes (HSlot idx) s).
Proof. unfold slashes. lv_auto. Qed.

Lemma lv_placed_text (v : value) (t : string) : leaves (placed_text (HSlot idx) v t).
Proof. unfold placed_text. lv_auto. Qed.

Lemma lv_present_weather_icon (path : string) :
  leaves (present_weather_icon http_ok (HSlot idx) path).
Proof. unfold present_weather_icon. lv_auto. Qed.

Lemma lv_low_cloud_icon (v : value) (t : option string) :
  leaves (low_cloud_icon http_ok (HSlot idx) v t).
Proof. unfold low_cloud_icon. lv_auto. Qed.

Lemma lv_console_all (l : list string) : leaves (console_all l).
Proof.
  induction l as [|m l IH]; cbn [console_all]; [apply lv_ret|].
  apply lv_bind; [apply lv_console_log|intros _; exact IH].
Qed.

Lemma lv_calm_wind : leaves (calm_wind http_ok).
Proof. unfold calm_wind. lv_auto. Qed.

Lemma lv_wind_arrow (path origin transform : string) :
  leaves (wind_arrow http_ok path origin transform).
Proof. unfold wind_arrow. lv_auto. Qed.

Lemma lv_appendChild_icon (icon : option nat) : leaves (appendChild_icon (HSlot idx) icon).
Proof. unfold appendChild_icon. lv_auto. Qed.

Lemma lv_rename_3 (entry i : nat) : leaves (rename_3 entry i).
Proof. unfold rename_3. lv_auto. Qed.

Lemma lv_past_weather_value (entry i : nat) : leaves (past_weather_value entry i).
Proof. unfold past_weather_value. lv_auto. Qed.

Hint Resolve lv_slashes lv_placed_text lv_present_weather_icon lv_low_cloud_icon
  lv_console_all lv_calm_wind lv_wind_arrow lv_appendChild_icon lv_rename_3
  lv_past_weather_value : lv.

Lemma lv_past_weather_icon (path : string) (t : option string) (red : bool) (after : M unit) :
  leaves after -> leaves (past_weather_icon http_ok (HSlot idx) path t red after).
Proof. intros H. unfold past_weather_icon. lv_auto. Qed.

Hint Resolve lv_past_weather_icon : lv.

Lemma lv_sky_cover (d : value) : leaves (sky_cover http_ok (HSlot idx) d).
Proof. unfold sky_cover. lv_auto. Qed.

Lemma lv_automatic_station (d : value) : leaves (automatic_station http_ok (HSlot idx) d).
Proof. unfold automatic_station. lv_auto. Qed.

Lemma lv_wind_plot (pointCoords d : value) :
  leaves (wind_plot http_ok pointCoords (HSlot idx) d).
Proof. unfold wind_plot. lv_auto. Qed.

Hint Resolve lv_sky_cover lv_automatic_station lv_wind_plot : lv.

Lemma lv_case_2 (o : options) (d : value) : leaves (case_2 http_ok o (HSlot idx) d).
Proof. unfold case_2. lv_auto. Qed.

Lemma lv_case_6 (o : options) (d : value) : leaves (case_6 o (HSlot idx) d).
Proof. unfold case_6. lv_auto. Qed.

Lemma lv_case_7 (d : value) : leaves (case_7 http_ok (HSlot idx) d).
Proof. unfold case_7. lv_auto. Qed.

Lemma lv_case_8 (d : value) : leaves (case_8 (HSlot idx) d).
Proof. unfold case_8. lv_auto. Qed.

Lemma lv_case_10 (d : value) : leaves (case_10 (HSlot idx) d).
Proof. unfold case_10. lv_auto. Qed.

Lemma lv_case_11 (d : value) : leaves (case_11 http_ok (HSlot idx) d).
Proof. unfold case_11. lv_auto. Qed.

Lemma lv_case_12 (pointCoords d : value) : leaves (case_12 http_ok pointCoords (HSlot idx) d).
Proof. unfold case_12. lv_auto. Qed.

Lemma lv_case_13 (o : options) (d : value) : leaves (case_13 o (HSlot idx) d).
Proof. unfold case_13. lv_auto. Qed.

Lemma lv_case_14 (o : options) (d : value) : leaves (case_14 http_ok o (HSlot idx) d).
Proof. unfold case_14. lv_auto. Qed.

Lemma lv_case_16 (o : options) (d : value) : leaves (case_16 o (HSlot idx) d).
Proof. unfold case_16. lv_auto. Qed.

Lemma lv_case_17 (d : value) : leaves (case_17 http_ok (HSlot idx) d).
Proof. unfold case_17. lv_auto. Qed.

Lemma lv_case_18 (o : options) (entry : nat) (d : value) :
  leaves (case_18 http_ok o entry (HSlot idx) d).
Proof. unfold case_18. lv_auto. Qed.

Lemma lv_case_23 (d : value) : leaves (case_23 (HSlot idx) d).
Proof. unfold case_23. lv_auto. Qed.

Lemma lv_case_default (o : options) : leaves (case_default o (HSlot idx)).
Proof. unfold case_default. lv_auto. Qed.

End RuleLeaves.

Lemma lv_slot_rule (http_ok : string -> bool) (o : options) (pointCoords : value)
    (entry idx : nat) :
  leaves (slot_rule http_ok o pointCoords entry idx).
Proof.
  unfold slot_rule. cbv zeta. apply lv_bind; [apply lv_decodedData|intros d].
  do 25 (destruct idx as [|idx];
         [first [ apply lv_ret | apply lv_case_2 | apply lv_case_6 | apply lv_case_7
                | apply lv_case_8 | apply lv_case_10 | apply lv_case_11 | apply lv_case_12
                | apply lv_case_13 | apply lv_case_14 | apply lv_case_16 | apply lv_case_17
                | apply lv_case_18 | apply lv_case_23 | apply lv_case_default ]|]).
  apply lv_case_default.
Qed.

Lemma lv_slot_callback (http_ok : string -> bool) (o : options) (pointCoords : value)
    (entry idx : nat) :
  leaves (slot_callback http_ok o pointCoords entry idx).
Proof.
  pose proof (lv_slot_rule http_ok o pointCoords entry idx) as R.
  unfold slot_callback. cbv zeta.
  destruct (negb (idx =? 25)%nat); [|apply lv_ret].
  apply lv_bind; [apply lv_when, lv_set_xy|intros _].
  apply lv_bind; [apply lv_get_xy|intros [x y]].
  apply lv_bind; [apply lv_setAttribute_slot|intros _].
  apply lv_bind; [apply lv_appendChild|intros _].
  apply lv_bind.
  - destruct (includes (elementsToOmit o) idx); [|apply lv_ret].
    destruct (idx =? 12)%nat.
    + apply lv_bind; [apply lv_console_log|intros _; apply lv_ret].
    + apply lv_bind; [apply lv_console_log|intros _].
      apply lv_bind; [apply lv_set_xy|intros _; apply lv_ret].
  - intros [|]; [apply lv_ret|].
    apply lv_bind; [exact R|intros _; apply lv_set_xy].
Qed.

Lemma lv_for_each (f : nat -> M unit) (l : list nat) :
  (forall i, leaves (f i)) -> leaves (for_each f l).
Proof.
  intros H. induction l as [|i l IH]; cbn [for_each]; [apply lv_ret|].
  apply lv_bind; [apply H|intros _; exact IH].
Qed.

Lemma lv_await_and_fill (http_ok : string -> bool) (o : options) (data : synop_data)
    (pointCoords : value) :
  leaves (await_and_fill http_ok o data pointCoords).
Proof.
  unfold await_and_fill.
  apply lv_bind; [apply lv_waitForDecodedSynop|intros entry].
  apply lv_bind; [apply lv_decodedData|intros d].
  apply lv_when, lv_for_each. intros i. apply lv_slot_callback.
Qed.

(** ** What a call leaves behind *)

Lemma ready_root_attributes (o : options) (data : synop_data) (st : state) :
  attrs (svg (dom (ready o data st))) = root_attributes o.
Proof.
  assert (E : forall b, attrs (svg (init_store b)) = []) by (intros [|]; vm_compute; reflexivity).
  assert (S : str 100 = "100") by (vm_compute; reflexivity).
  unfold ready, root_attributes, canvas_attributes, svg_attributes.
  cbn [dom Dom.update svg Dom.with_attr attrs]. rewrite E, S. reflexivity.
Qed.

Lemma meteoStation_with_stops (http_ok : string -> bool) (o : options) (data : synop_data)
    (pointCoords : value) (st : state) :
  JS.is_nullish (scaling o) = true ->
  meteoStation_with http_ok o data pointCoords st
  = (Throw (TypeError ("Cannot read properties of " ++ JS.to_str (scaling o)
                       ++ " (reading 'stationModel')")),
     unscaled o st).
Proof.
  intros Hs. destruct st as [d x y t p c]. unfold meteoStation_with.
  rewrite (bind_ok _ _ _ (mkState empty_store x y t p c) tt) by reflexivity.
  rewrite (bind_ok _ _ _ (mkState (init_store (debug o)) x y t p c) tt)
    by apply generate_run.
  unfold unscaled.
  cbv beta iota zeta delta
    [create_svg bind setAttribute modify_dom Dom.update dom var_x var_y
     decodedSynops posted console slots svg nodes lift].
  destruct (scaling o); try discriminate Hs; reflexivity.
Qed.

Lemma unscaled_root (o : options) (st : state) :
  attrs (svg (dom (unscaled o st))) = canvas_attributes
  /\ List.length (slots (dom (unscaled o st))) = 26%nat.
Proof.
  unfold unscaled. cbn [dom Dom.update svg slots].
  destruct (debug o); split; vm_compute; reflexivity.
Qed.

(** X15. What a call does to the module's state, whatever its outcome. The
    body of [meteoStation], run on merged options whose [scaling] is a plain
    value, never adds, removes or reorders entries of the reply table nor
    changes an entry's id (it may rewrite an entry's record), and leaves 26
    groups. With a [scaling] other than [null] and [undefined] it posts
    exactly one message to the worker, the request with its text and id,
    whether it then returns, stops at a slot rule or times out. With a
    [scaling] of [null] or [undefined] it throws a [TypeError] while
    setting up the root and posts nothing. *)
Theorem call_footprint
    (http_ok : string -> bool) (o : options) (data : synop_data) (pointCoords : value)
    (st : state) :
  JS.plain (scaling o) = true ->
  let run := meteoStation_with http_ok o data pointCoords st in
  map leafletID (decodedSynops (snd run)) = map leafletID (decodedSynops st)
  /\ List.length (decodedSynops (snd run)) = List.length (decodedSynops st)
  /\ List.length (slots (dom (snd run))) = 26%nat
  /\ (JS.is_nullish (scaling o) = false ->
      posted (snd run)
      = (posted st ++ [mkRequest (rawSynop data) (data_leafletID data)])%list)
  /\ (JS.is_nullish (scaling o) = true ->
      fst run = Throw (TypeError ("Cannot read properties of " ++ JS.to_str (scaling o)
                                  ++ " (reading 'stationModel')"))
      /\ posted (snd run) = posted st).
Proof.
  intros _ run. subst run.
  destruct (JS.is_nullish (scaling o)) eqn:Hs.
  - rewrite (meteoStation_with_stops http_ok o data pointCoords st Hs). cbn [fst snd].
    split; [reflexivity|]. split; [reflexivity|].
    split; [exact (proj2 (unscaled_root o st))|].
    split; [discriminate|]. intros _. split; reflexivity.
  - rewrite (meteoStation_with_ready http_ok o data pointCoords st Hs).
    destruct (lv_await_and_fill http_ok o data pointCoords (ready o data st)) as [Hp Hi _ Hl].
    split; [exact Hi|]. split.
    { rewrite <- (length_map leafletID), Hi. apply length_map. }
    split.
    { rewrite Hl. exact (proj2 (ready_root o data st)). }
    split; [intros _; exact Hp|discriminate].
Qed.

Lemma call_footprint_witness :
  posted (snd (meteoStation_with all_icons
                 (mkOptions VNull true true "raw" "raw" [] false)
                 sample_data (at_latitude 45) (decoded_as VNull)))
  = [].
Proof.
  exact (proj2 (proj2 (proj2 (proj2 (proj2
           (call_footprint all_icons (mkOptions VNull true true "raw" "raw" [] false)
              sample_data (at_latitude 45) (decoded_as VNull) eq_refl))))
           eq_refl)).
Defined.

Lemma append_assoc (a b c : string) : ((a ++ b) ++ c)%string = (a ++ b ++ c)%string.
Proof. induction a as [|x a IH]; cbn [append]; [reflexivity|now rewrite IH]. Qed.

(** X16. The root of every call. Whatever the record and the outcome, the
    body of [meteoStation], run on merged options whose [scaling] is a plain
    value other than [null] and [undefined], leaves the root element with
    exactly the six attributes set from the options: display, a 100 by 100
    canvas, the scale [stationModel + 0.7] and the font size [font - 0.35]
    em. With a [scaling] of [null] or [undefined] the root is left with the
    four attributes of the canvas. With the default [scaling] the last two
    are "scale(1.7)" and "0.65em"; a [scaling] object without [font] gives
    the font size "NaNem", a [stationModel] given as a string is
    concatenated, not added, and a [scaling] that is a number gives
    "scale(NaN)" and "NaNem". *)
Theorem call_root_attributes
    (http_ok : string -> bool) (o : options) (data : synop_data) (pointCoords : value)
    (st : state) :
  JS.plain (scaling o) = true ->
  let root := attrs (svg (dom (snd (meteoStation_with http_ok o data pointCoords st)))) in
  (JS.is_nullish (scaling o) = false -> root = root_attributes o)
  /\ (JS.is_nullish (scaling o) = true -> root = canvas_attributes)
  /\ (scaling o = scaling defaultOptions ->
      Dom.get_attr "transform" root = Some "scale(1.7)"
      /\ Dom.get_attr "font-size" root = Some "0.65em")
  /\ (forall l, scaling o = VObj l -> JS.lookup "font" l = None ->
      Dom.get_attr "font-size" root = Some "NaNem")
  /\ (forall l s, scaling o = VObj l -> JS.lookup "stationModel" l = Some (VStr s) ->
      Dom.get_attr "transform" root = Some ("scale(" ++ s ++ "0.7)"))
  /\ (forall x, scaling o = VNum x ->
      Dom.get_attr "transform" root = Some "scale(NaN)"
      /\ Dom.get_attr "font-size" root = Some "NaNem").
Proof.
  intros _ root.
  assert (R : JS.is_nullish (scaling o) = false -> root = root_attributes o).
  { intros Hs. subst root.
    rewrite (meteoStation_with_ready http_ok o data pointCoords st Hs).
    destruct (lv_await_and_fill http_ok o data pointCoords (ready o data st)) as [_ _ Hr _].
    rewrite Hr. apply ready_root_attributes. }
  split; [exact R|]. split.
  { intros Hs. subst root.
    rewrite (meteoStation_with_stops http_ok o data pointCoords st Hs). cbn [snd].
    exact (proj1 (unscaled_root o st)). }
  split.
  { intros E. rewrite R by (rewrite E; reflexivity).
    unfold root_attributes. rewrite E. split; vm_compute; reflexivity. }
  split.
  { intros l E Hf. rewrite R by (rewrite E; reflexivity).
    unfold root_attributes, canvas_attributes, read. rewrite E.
    cbn [JS.get app Dom.get_attr String.eqb Ascii.eqb Bool.eqb]. rewrite Hf.
    assert (N : str (JS.to_num VUndef - 0.35) = "NaN") by (vm_compute; reflexivity).
    now rewrite N. }
  split.
  { intros l s E Hm. rewrite R by (rewrite E; reflexivity).
    unfold root_attributes, canvas_attributes, read. rewrite E.
    cbn [JS.get app Dom.get_attr String.eqb Ascii.eqb Bool.eqb]. rewrite Hm.
    unfold JS.add. cbn [JS.is_stringy orb JS.to_str].
    assert (E7 : JSNumber.to_string 0.7 = "0.7") by (vm_compute; reflexivity).
    rewrite E7, append_assoc. reflexivity. }
  intros x E. rewrite R by (rewrite E; reflexivity).
  unfold root_attributes, canvas_attributes, read. rewrite E.
  cbn [JS.get app Dom.get_attr String.eqb Ascii.eqb Bool.eqb].
  split; vm_compute; reflexivity.
Qed.

Lemma call_root_attributes_witness :
  attrs (svg (dom (snd (meteoStation_with all_icons
                          (mkOptions VUndef true true "raw" "raw" [] false)
                          sample_data (at_latitude 45) (decoded_as VNull)))))
  = canvas_attributes.
Proof.
  exact (proj1 (proj2
           (call_root_attributes all_icons (mkOptions VUndef true true "raw" "raw" [] false)
              sample_data (at_latitude 45) (decoded_as VNull) eq_refl))
           eq_refl).
Defined.

(** ** A slot rule works in its own slot *)

(** X17. The rule of slot [idx], when it returns, has stayed in its slot:
    the groups are as many as before; every other group keeps its
    attributes, and is left as it was altogether if its children were
    created before the rule started; the slot's own transform, the list of
    groups attached to the root and the cursor are unchanged; elements are
    only created, never dropped, and the console only grows. *)
Theorem slot_rule_stays_in_slot
    (http_ok : string -> bool) (o : options) (pointCoords : value)
    (entry idx : nat) (st st' : state) :
  slot_rule http_ok o pointCoords entry idx st = (Ok tt, st') ->
  List.length (slots (dom st')) = List.length (slots (dom st))
  /\ (forall j, j <> idx -> attrs (slot_node st' j) = attrs (slot_node st j))
  /\ (forall j, j <> idx ->
        (forall n, In (HNode n) (kids (slot_node st j)) ->
                   (n < List.length (nodes (dom st)))%nat) ->
        slot_node st' j = slot_node st j)
  /\ Dom.get_attr "transform" (attrs (slot_node st' idx))
     = Dom.get_attr "transform" (attrs (slot_node st idx))
  /\ slots_appended st' = slots_appended st
  /\ (var_x st', var_y st') = (var_x st, var_y st)
  /\ (List.length (nodes (dom st)) <= List.length (nodes (dom st')))%nat
  /\ (forall m, In m (console st) -> In m (console st')).
Proof.
  intros H.
  destruct (ok_slot_rule http_ok o pointCoords entry idx (List.length (nodes (dom st)))
              st tt st' (le_n _) H) as ([L A N T S G X Y C] & _).
  split; [exact L|]. split; [exact A|]. split; [exact N|]. split; [exact T|].
  split; [exact S|]. split; [now rewrite X, Y|]. split; [exact G|exact C].
Qed.

Lemma slot_rule_stays_in_slot_witness :
  slots_appended (snd (slot_rule all_icons defaultOptions (at_latitude 45) 0 12
                         (sample_state west_wind_observation)))
  = slots_appended (sample_state west_wind_observation).
Proof.
  assert (R : slot_rule all_icons defaultOptions (at_latitude 45) 0 12
                (sample_state west_wind_observation)
              = (Ok tt, snd (slot_rule all_icons defaultOptions (at_latitude 45) 0 12
                               (sample_state west_wind_observation))))
    by (vm_compute; reflexivity).
  exact (proj1 (proj2 (proj2 (proj2 (proj2
           (slot_rule_stays_in_slot all_icons defaultOptions (at_latitude 45) 0 12
              (sample_state west_wind_observation) _ R)))))).
Defined.

(** ** Coloured icons and the precipitation text *)



Lemma small_amounts :
  all_from 1 9
    (fun t => String.eqb (html_of (final_amount (VNum (of_tenths t))))
                         ("." ++ JSNumber.Z_digits t)) = true.
Proof. vm_compute. reflexivity. Qed.

Section Precipitation.

Variable element : handle.
Variable l : list (string * value).
Variables iv g1 g3 : value.
Variable st : state.

Hypothesis indicator :
  JS.lookup "precipitation_indicator" l
  = Some (VObj [("value", iv); ("in_group_1", g1); ("in_group_3", g3)]).
Hypothesis not_3 : JS.eq_num iv 3 = false.
Hypothesis not_4 : JS.eq_num iv 4 = false.

(** The rule once the loop over the indicator's entries has left the amount
    [a] and the time code [t]. *)
Lemma case_23_groups (a t : value) :
  (has (Ok (VObj l)) "precipitation_s1" <||> has (Ok (VObj l)) "precipitation_s3") = Ok true ->
  precipitation_groups (VObj l)
    [("value", iv); ("in_group_1", g1); ("in_group_3", g3)] (VUndef, VUndef) = Ok (a, t) ->
  case_23 element (VObj l) st = (Ok tt, plotted_amount element a t st).
Proof.
  intros Hh Hg.
  assert (T1 : "translate(-" ++ str (w_slot / 4.2) ++ " 0)" = "translate(-3.1738095238095236 0)")
    by (vm_compute; reflexivity).
  assert (T2 : "translate(" ++ str (w_slot / 3) ++ " 0)" = "translate(4.443333333333333 0)")
    by (vm_compute; reflexivity).
  unfold case_23. cbv zeta.
  cbn [has rbind JS.hasOwnProperty] in Hh |- *. rewrite indicator in *.
  rewrite bind_lift_run. cbn [when].
  cbn [dot rbind JS.get is_num rmap]. rewrite indicator.
  cbn [rbind JS.get JS.lookup String.eqb Ascii.eqb Bool.eqb rmap is_num].
  rewrite not_3, bind_lift_run, not_4, bind_lift_run.
  rewrite Hh, bind_lift_run. cbn [when].
  rewrite bind_lift_run. cbn [JS.entries]. rewrite Hg, bind_lift_run.
  rewrite T1, T2. unfold plotted_amount. fold (final_amount a).
  destruct (JS.is_nullish t); cbn [negb].
  - apply text_appended.
  - unfold bind. rewrite placed_text_run. apply placed_text_run.
Qed.

Lemma group_read (k : string) (a t : value) :
  group_reads l k a t ->
  Ok (VObj l) ./ k ./ "amount" ./ "value" = Ok a
  /\ Ok (VObj l) ./ k ./ "time_before_obs" ./ "_code" = Ok t
  /\ has (Ok (VObj l)) k = Ok true.
Proof.
  intros (gl & al & tl & Hk & Ha & Ht & <- & <-). unfold field.
  cbn [dot has rbind JS.get JS.hasOwnProperty]. rewrite Hk.
  cbn [rbind JS.get]. rewrite Ha, Ht. cbn [rbind JS.get]. auto.
Qed.

Lemma ror_true_r (r : result bool) :
  (exists b, r = Ok b) -> (r <||> Ok true) = Ok true.
Proof. intros ([|] & ->); reflexivity. Qed.

Lemma has_object (k : string) : exists b, has (Ok (VObj l)) k = Ok b.
Proof. cbn [has rbind JS.hasOwnProperty]. eauto. Qed.

Lemma from_group_1 (a t : value) :
  JS.eq_bool g1 true = true -> JS.eq_bool g3 true = false ->
  group_reads l "precipitation_s1" a t ->
  case_23 element (VObj l) st = (Ok tt, plotted_amount element a t st).
Proof.
  intros H1 H3 Hr. destruct (group_read _ _ _ Hr) as (Ea & Et & Eh).
  apply case_23_groups.
  - rewrite Eh. reflexivity.
  - cbn [precipitation_groups String.eqb Ascii.eqb Bool.eqb andb].
    rewrite H1, H3. cbv zeta. rewrite Ea, Et. reflexivity.
Qed.

Lemma from_group_3 (a t : value) :
  JS.eq_bool g1 true = false -> JS.eq_bool g3 true = true ->
  group_reads l "precipitation_s3" a t ->
  case_23 element (VObj l) st = (Ok tt, plotted_amount element a t st).
Proof.
  intros H1 H3 Hr. destruct (group_read _ _ _ Hr) as (Ea & Et & Eh).
  apply case_23_groups.
  - rewrite Eh. apply ror_true_r, has_object.
  - cbn [precipitation_groups String.eqb Ascii.eqb Bool.eqb andb].
    rewrite H1, H3. cbv zeta. rewrite Ea, Et. reflexivity.
Qed.

Lemma from_both_groups (a1 t1 a t : value) :
  JS.eq_bool g1 true = true -> JS.eq_bool g3 true = true ->
  group_reads l "precipitation_s1" a1 t1 ->
  group_reads l "precipitation_s3" a t ->
  case_23 element (VObj l) st = (Ok tt, plotted_amount element a t st).
Proof.
  intros H1 H3 Hr1 Hr. destruct (group_read _ _ _ Hr) as (Ea & Et & Eh).
  destruct (group_read _ _ _ Hr1) as (Ea1 & Et1 & Eh1).
  apply case_23_groups.
  - rewrite Eh1. reflexivity.
  - cbn [precipitation_groups String.eqb Ascii.eqb Bool.eqb andb].
    rewrite H1, H3. cbv zeta. rewrite Ea1, Et1. cbn [rbind]. rewrite Ea, Et. reflexivity.
Qed.

Lemma from_no_group (g : value) :
  JS.eq_bool g1 true = false -> JS.eq_bool g3 true = false ->
  JS.lookup "precipitation_s1" l = Some g \/ JS.lookup "precipitation_s3" l = Some g ->
  case_23 element (VObj l) st = (Ok tt, with_child element (text_element VUndef) st).
Proof.
  intros H1 H3 Hg.
  change (with_child element (text_element VUndef) st)
    with (plotted_amount element VUndef VUndef st).
  apply case_23_groups.
  - cbn [has rbind JS.hasOwnProperty ror].
    destruct Hg as [Hg|Hg]; rewrite Hg; [reflexivity|].
    destruct (JS.lookup "precipitation_s1" l); reflexivity.
  - cbn [precipitation_groups String.eqb Ascii.eqb Bool.eqb andb].
    rewrite H1, H3. reflexivity.
Qed.

Lemma without_groups :
  JS.lookup "precipitation_s1" l = None -> JS.lookup "precipitation_s3" l = None ->
  case_23 element (VObj l) st = (Ok tt, st).
Proof.
  intros N1 N3. unfold case_23. cbv zeta.
  cbn [has rbind JS.hasOwnProperty]. rewrite indicator, N1, N3.
  rewrite bind_lift_run. cbn [when].
  cbn [dot rbind JS.get is_num rmap]. rewrite indicator.
  cbn [rbind JS.get JS.lookup String.eqb Ascii.eqb Bool.eqb rmap is_num].
  rewrite not_3, bind_lift_run, not_4, bind_lift_run.
  cbn [ror rbind]. rewrite bind_lift_run. reflexivity.
Qed.

End Precipitation.

(** X19. The precipitation text of slot 23, for a plain record whose
    indicator has the keys [value], [in_group_1] and [in_group_3]. With indicator value 3 the slot
    is left as it was, with 4 it gets the new text "///". Otherwise, with
    no precipitation group in the record nothing is plotted; with a group,
    the amount and time code are those of section 1 when only [in_group_1]
    is true, and those of section 3 when [in_group_3] is true, also when
    both are; the amount is appended as a new text, alone, or shifted left
    with the time code as a second text to its right when there is one.
    When neither flag is true the text plotted is "undefined". An amount
    strictly between 0 and 1 loses its leading zero (0.7 is plotted ".7"),
    any other amount is plotted as it is. *)
Theorem precipitation_text
    (element : handle) (l : list (string * value)) (iv g1 g3 : value) (st : state) :
  JS.plain (VObj l) = true ->
  JS.lookup "precipitation_indicator" l
  = Some (VObj [("value", iv); ("in_group_1", g1); ("in_group_3", g3)]) ->
  (JS.eq_num iv 3 = true -> case_23 element (VObj l) st = (Ok tt, st))
  /\ (JS.eq_num iv 3 = false -> JS.eq_num iv 4 = true ->
      case_23 element (VObj l) st
      = (Ok tt, with_child element (text_element (VStr "///")) st))
  /\ (JS.eq_num iv 3 = false -> JS.eq_num iv 4 = false ->
      (JS.lookup "precipitation_s1" l = None -> JS.lookup "precipitation_s3" l = None ->
       case_23 element (VObj l) st = (Ok tt, st))
      /\ (forall a t,
             JS.eq_bool g1 true = true -> JS.eq_bool g3 true = false ->
             group_reads l "precipitation_s1" a t ->
             case_23 element (VObj l) st = (Ok tt, plotted_amount element a t st))
      /\ (forall a t,
             JS.eq_bool g1 true = false -> JS.eq_bool g3 true = true ->
             group_reads l "precipitation_s3" a t ->
             case_23 element (VObj l) st = (Ok tt, plotted_amount element a t st))
      /\ (forall a1 t1 a t,
             JS.eq_bool g1 true = true -> JS.eq_bool g3 true = true ->
             group_reads l "precipitation_s1" a1 t1 ->
             group_reads l "precipitation_s3" a t ->
             case_23 element (VObj l) st = (Ok tt, plotted_amount element a t st))
      /\ (forall g,
             JS.eq_bool g1 true = false -> JS.eq_bool g3 true = false ->
             JS.lookup "precipitation_s1" l = Some g \/ JS.lookup "precipitation_s3" l = Some g ->
             case_23 element (VObj l) st
             = (Ok tt, with_child element (text_element VUndef) st)))
  /\ innerHTML (text_element VUndef) = "undefined"
  /\ (forall t : Z, 1 <= t <= 9 ->
         innerHTML (text_element (final_amount (VNum (of_tenths t))))
         = "." ++ JSNumber.Z_digits t)
  /\ final_amount (JS.num 0) = JS.num 0
  /\ final_amount (JS.num 1) = JS.num 1
  /\ final_amount (VNum 12.5) = VNum 12.5.
Proof.
  intros _ Hp.
  split; [|split; [|split; [|split; [|split]]]].
  - intros H3. unfold case_23. cbv zeta.
    cbn [has rbind JS.hasOwnProperty]. rewrite Hp.
    rewrite bind_lift_run. cbn [when dot rbind JS.get is_num rmap]. rewrite Hp.
    cbn [rbind JS.get JS.lookup String.eqb Ascii.eqb Bool.eqb rmap is_num].
    rewrite H3, bind_lift_run. reflexivity.
  - intros H3 H4. unfold case_23. cbv zeta.
    cbn [has rbind JS.hasOwnProperty]. rewrite Hp.
    rewrite bind_lift_run. cbn [when dot rbind JS.get is_num rmap]. rewrite Hp.
    cbn [rbind JS.get JS.lookup String.eqb Ascii.eqb Bool.eqb rmap is_num].
    rewrite H3, bind_lift_run, H4, bind_lift_run. apply slashes_run.
  - intros H3 H4. split; [|split; [|split; [|split]]].
    + now apply without_groups with (iv := iv) (g1 := g1) (g3 := g3).
    + intros a t. now apply from_group_1 with (iv := iv).
    + intros a t. now apply from_group_3 with (iv := iv).
    + intros a1 t1 a t. now apply from_both_groups with (iv := iv).
    + intros g. now apply from_no_group with (iv := iv).
  - reflexivity.
  - intros t Ht. cbn [innerHTML text_element]. apply String.eqb_eq.
    apply (all_from_spec 1 9 _ small_amounts t). lia.
  - split; [vm_compute; reflexivity|]. split; vm_compute; reflexivity.
Qed.

Lemma precipitation_text_witness :
  let d := VObj [("precipitation_indicator",
                  VObj [("value", JS.num 1); ("in_group_1", VBool true);
                        ("in_group_3", VBool false)]);
                 ("precipitation_s1",
                  VObj [("amount", VObj [("value", VNum 0.7)]);
                        ("time_before_obs", VObj [("_code", JS.num 2)])])] in
  case_23 (HSlot 23) d (sample_state d)
  = (Ok tt, plotted_amount (HSlot 23) (VNum 0.7) (JS.num 2) (sample_state d)).
Proof.
  intros d.
  assert (N3 : JS.eq_num (JS.num 1) 3 = false) by (vm_compute; reflexivity).
  assert (N4 : JS.eq_num (JS.num 1) 4 = false) by (vm_compute; reflexivity).
  refine (proj1 (proj2 (proj1 (proj2 (proj2
            (precipitation_text (HSlot 23)
               [("precipitation_indicator",
                 VObj [("value", JS.num 1); ("in_group_1", VBool true);
                       ("in_group_3", VBool false)]);
                ("precipitation_s1",
                 VObj [("amount", VObj [("value", VNum 0.7)]);
                       ("time_before_obs", VObj [("_code", JS.num 2)])])]
               (JS.num 1) (VBool true) (VBool false)
               (sample_state d) eq_refl eq_refl))) N3 N4)) (VNum 0.7) (JS.num 2)
            eq_refl eq_refl _).
  exists [("amount", VObj [("value", VNum 0.7)]);
          ("time_before_obs", VObj [("_code", JS.num 2)])],
         [("value", VNum 0.7)], [("_code", JS.num 2)].
  repeat split; reflexivity.
Defined.

(** ** Which rules write to the reply table *)

Section TableKept.

Variable http_ok : string -> bool.
Variable P : list reply -> Prop.

Lemma keeps_throw {A : Type} (e : exn) : keeps P (throw (A := A) e).
Proof. intros st HP. exact HP. Qed.

Lemma keeps_console_log (msg : string) : keeps P (console_log msg).
Proof. intros st HP. exact HP. Qed.

Lemma keeps_console_all (l : list string) : keeps P (console_all l).
Proof.
  induction l as [|m l IH]; cbn [console_all]; [apply keeps_ret|].
  apply keeps_bind; [apply keeps_console_log|intros _; exact IH].
Qed.

Ltac kp_auto :=
  cbv zeta;
  lazymatch goal with
  | |- keeps _ (bind _ _) => apply keeps_bind; [kp_auto|intros ?; kp_auto]
  | |- keeps _ (when _ _) => apply keeps_when; kp_auto
  | |- keeps _ (if ?b then _ else _) => destruct b; kp_auto
  | |- keeps _ (match ?x with Some _ => _ | None => _ end) => destruct x; kp_auto
  | |- keeps _ (match ?x with (_, _) => _ end) => destruct x; kp_auto
  | |- keeps _ (lift _) => apply keeps_lift
  | |- keeps _ (ret _) => apply keeps_ret
  | |- keeps _ (throw _) => apply keeps_throw
  | |- keeps _ (decodedData _) => apply keeps_decodedData
  | |- keeps _ (console_log _) => apply keeps_console_log
  | |- keeps _ (createElementNS _ _) => apply keeps_createElementNS
  | |- keeps _ (loadSVGIcon _ _) => apply keeps_loadSVGIcon
  | |- keeps _ (set_innerHTML _ _) => unfold set_innerHTML; apply keeps_modify_dom
  | |- keeps _ (setAttribute _ _ _) => apply keeps_setAttribute
  | |- keeps _ (appendChild _ _) => apply keeps_appendChild
  | |- keeps _ (set_size _ _ _) => apply keeps_set_size
  | |- keeps _ (set_origin _ _ _) => unfold set_origin; apply keeps_setAttribute
  | |- keeps _ (createTextElement _) => unfold createTextElement; kp_auto
  | |- keeps _ (slashes _ _) => unfold slashes; kp_auto
  | |- keeps _ (placed_text _ _ _) => unfold placed_text; kp_auto
  | |- keeps _ (present_weather_icon _ _ _) => unfold present_weather_icon; kp_auto
  | |- keeps _ (low_cloud_icon _ _ _ _) => unfold low_cloud_icon; kp_auto
  | |- keeps _ (calm_wind _) => unfold calm_wind; kp_auto
  | |- keeps _ (wind_arrow _ _ _ _) => unfold wind_arrow; kp_auto
  | |- keeps _ (appendChild_icon _ _) => unfold appendChild_icon; kp_auto
  | |- keeps _ (sky_cover _ _ _) => unfold sky_cover; kp_auto
  | |- keeps _ (automatic_station _ _ _) => unfold automatic_station; kp_auto
  | |- keeps _ (wind_plot _ _ _ _) => unfold wind_plot; kp_auto
  | |- keeps _ (console_all _) => apply keeps_console_all
  end.

Ltac kp_rule := kp_auto.

Lemma keeps_case_2 (o : options) (e : handle) (d : value) : keeps P (case_2 http_ok o e d).
Proof. unfold case_2. kp_rule. Qed.

Lemma keeps_case_6 (o : options) (e : handle) (d : value) : keeps P (case_6 o e d).
Proof. unfold case_6. kp_rule. Qed.

Lemma keeps_case_7 (e : handle) (d : value) : keeps P (case_7 http_ok e d).
Proof. unfold case_7. kp_rule. Qed.

Lemma keeps_case_8 (e : handle) (d : value) : keeps P (case_8 e d).
Proof. unfold case_8. kp_rule. Qed.

Lemma keeps_case_10 (e : handle) (d : value) : keeps P (case_10 e d).
Proof. unfold case_10. kp_rule. Qed.

Lemma keeps_case_11 (e : handle) (d : value) : keeps P (case_11 http_ok e d).
Proof. unfold case_11. kp_rule. Qed.

Lemma keeps_case_12 (c : value) (e : handle) (d : value) : keeps P (case_12 http_ok c e d).
Proof.
  unfold case_12. kp_rule.
Qed.

Lemma keeps_case_13 (o : options) (e : handle) (d : value) : keeps P (case_13 o e d).
Proof. unfold case_13. kp_rule. Qed.

Lemma keeps_case_14 (o : options) (e : handle) (d : value) : keeps P (case_14 http_ok o e d).
Proof. unfold case_14. kp_rule. Qed.

Lemma keeps_case_16 (o : options) (e : handle) (d : value) : keeps P (case_16 o e d).
Proof. unfold case_16. kp_rule. Qed.

Lemma keeps_case_17 (e : handle) (d : value) : keeps P (case_17 http_ok e d).
Proof. unfold case_17. kp_rule. Qed.

Lemma keeps_case_23 (e : handle) (d : value) : keeps P (case_23 e d).
Proof. unfold case_23. kp_rule. Qed.

Lemma keeps_case_default (o : options) (e : handle) : keeps P (case_default o e).
Proof. unfold case_default. kp_rule. Qed.

End TableKept.

(** X20. Only slot 18 writes to the reply table. The rule of every other
    slot, on any record and whether it returns or throws, leaves the table
    exactly as it found it; so does everything else a call does after its
    request, but for the rewriting of past weather in slot 18. *)
Theorem only_slot_18_writes_table
    (http_ok : string -> bool) (o : options) (pointCoords : value)
    (entry idx : nat) (st : state) :
  idx <> 18%nat ->
  decodedSynops (snd (slot_rule http_ok o pointCoords entry idx st)) = decodedSynops st.
Proof.
  intros H18.
  assert (K : keeps (fun T => T = decodedSynops st)
                (slot_rule http_ok o pointCoords entry idx)).
  { unfold slot_rule. cbv zeta. apply keeps_bind; [apply keeps_decodedData|intros d].
    do 25 (destruct idx as [|idx];
           [first [ apply keeps_ret | apply keeps_case_2 | apply keeps_case_6
                  | apply keeps_case_7 | apply keeps_case_8 | apply keeps_case_10
                  | apply keeps_case_11 | apply keeps_case_12 | apply keeps_case_13
                  | apply keeps_case_14 | apply keeps_case_16 | apply keeps_case_17
                  | apply keeps_case_23 | apply keeps_case_default
                  | now contradiction H18 ]|]).
    apply keeps_case_default. }
  exact (K st eq_refl).
Qed.

Lemma only_slot_18_writes_table_witness :
  decodedSynops (snd (slot_rule all_icons defaultOptions (at_latitude 45) 0 17
                        (decoded_as null_cloud_base_observation)))
  = decodedSynops (decoded_as null_cloud_base_observation).
Proof.
  exact (only_slot_18_writes_table all_icons defaultOptions (at_latitude 45) 0 17
           (decoded_as null_cloud_base_observation) ltac:(discriminate)).
Defined.

(** ** The grid of a drawn symbol *)

Section Grid.

Variable http_ok : string -> bool.
Variable o : options.
Variable pointCoords : value.
Variable entry : nat.

Lemma positioned_placed (k : nat) (st : state) :
  (k < 25)%nat -> Inv o k st -> positioned k st -> positioned (S k) (placed k st).
Proof.
  intros Hk I Hp j Hj.
  destruct (Nat.eq_dec j k) as [->|Hne].
  - rewrite slot_node_placed_same by (rewrite (inv_len _ _ _ I); lia).
    cbn [Dom.without_kid Dom.with_attr attrs]. rewrite get_attr_set_attr_same.
    unfold slot_position, slot_transform. rewrite (inv_xy _ _ _ I). reflexivity.
  - rewrite slot_node_placed_other by exact Hne.
    cbn [Dom.without_kid attrs]. apply Hp. lia.
Qed.

Lemma positioned_stable (k : nat) (N0 : nat) (s2 s3 : state) :
  stable k N0 s2 s3 -> positioned (S k) s2 -> positioned (S k) s3.
Proof.
  intros S Hp j Hj.
  destruct (Nat.eq_dec j k) as [->|Hne].
  - rewrite (st_transform _ _ _ _ S). now apply Hp.
  - rewrite (st_attrs _ _ _ _ S j Hne). now apply Hp.
Qed.

Lemma positioned_step (k : nat) (st st' : state) :
  (k < 25)%nat -> Inv o k st -> positioned k st ->
  slot_callback http_ok o pointCoords entry k st = (Ok tt, st') ->
  positioned (S k) st'.
Proof.
  intros Hk I Hp H.
  pose proof (positioned_placed k st Hk I Hp) as Hq.
  destruct (omitted o k) eqn:Ho.
  - destruct (Nat.eq_dec k 12) as [->|Hne].
    + rewrite callback_center_omitted in H by exact Ho.
      apply rule_then_next in H. destruct H as (s3 & S & ->).
      exact (positioned_stable 12 _ _ s3 S Hq).
    + rewrite callback_omitted in H by assumption.
      apply (f_equal snd) in H. cbn [snd] in H. subst st'. exact Hq.
  - rewrite callback_kept in H by assumption.
    apply rule_then_next in H. destruct H as (s3 & S & ->).
    exact (positioned_stable k _ _ s3 S Hq).
Qed.

Lemma positioned_loop (n k : nat) (st st' : state) :
  (k + n = 26)%nat -> (k <= 25)%nat ->
  Inv o k st -> positioned k st ->
  for_each (slot_callback http_ok o pointCoords entry) (seq k n) st = (Ok tt, st') ->
  positioned 25 st'.
Proof.
  revert k st. induction n as [|n IH]; intros k st Hkn Hk I Hp H; [lia|].
  cbn [seq for_each] in H. apply bind_inv in H. destruct H as ([] & s1 & Hc & Hr).
  destruct (Nat.eq_dec k 25) as [->|Hne].
  - assert (n = 0)%nat as -> by lia. cbn [seq for_each] in Hr.
    rewrite callback_last in Hc.
    apply (f_equal snd) in Hc, Hr. cbn [snd ret] in Hc, Hr. subst. exact Hp.
  - apply (IH (S k) s1); [lia|lia| | |exact Hr].
    + apply (callback_step http_ok o pointCoords entry k st s1); [lia|exact I|exact Hc].
    + apply (positioned_step k st s1); [lia|exact I|exact Hp|exact Hc].
Qed.

End Grid.

(** X21. The grid of a drawn symbol. When a call returns and its record is
    not null, the children of the root that are groups are the groups of
    slots 0 to 24 in index order, whatever was omitted; each carries the
    transform of its cell, slot 12 the centre and slot [i] the column
    [i mod 5] and row [i / 5] reached from 16.66 by repeated addition of
    13.33 (so the second column is at 29.990000000000002); the group of
    slot 25 exists as generated, without position and outside the root. *)
Theorem symbol_grid
    (http_ok : string -> bool) (data : synop_data) (pointCoords : value)
    (userOptions : user_options) (st st' : state) :
  meteoStation http_ok data pointCoords userOptions st = (Ok tt, st') ->
  JS.is_nullish (awaited data st) = false ->
  slots_appended st' = map HSlot (seq 0 25)
  /\ (forall i, (i < 25)%nat ->
        Dom.get_attr "transform" (attrs (slot_node st' i))
        = Some (if (i =? 12)%nat then "translate(50, 50)" else grid_transform i))
  /\ slot_node st' 25
     = generated_slot (debug (Object_assign defaultOptions userOptions)) 25
  /\ grid_transform 0 = "translate(16.66, 16.66)"
  /\ grid_transform 1 = "translate(29.990000000000002, 16.66)"
  /\ grid_transform 24 = "translate(69.98, 69.98)".
Proof.
  intros H Hd.
  destruct (meteoStation_loop http_ok data pointCoords userOptions st st' H Hd)
    as (entry & Hloop).
  set (o := Object_assign defaultOptions userOptions) in *.
  pose proof (ready_inv o data st) as I0.
  assert (I : Inv o 25 st').
  { apply (callback_loop http_ok o pointCoords entry 26 0 (ready o data st) st');
      [lia|lia|exact I0|exact Hloop]. }
  assert (Hp : positioned 25 st').
  { apply (positioned_loop http_ok o pointCoords entry 26 0 (ready o data st) st');
      [lia|lia|exact I0| |exact Hloop].
    intros j Hj. lia. }
  split; [exact (inv_svg _ _ _ I)|]. split.
  - intros i Hi. rewrite (Hp i Hi). unfold slot_position.
    now rewrite (slot_transform_grid i Hi).
  - split; [apply (inv_rest _ _ _ I); lia|].
    split; [vm_compute; reflexivity|]. split; vm_compute; reflexivity.
Qed.

Lemma symbol_grid_witness :
  Dom.get_attr "transform"
    (attrs (slot_node (snd (meteoStation all_icons sample_data (at_latitude 45)
                              no_user_options (decoded_as west_wind_observation))) 6))
  = Some (grid_transform 6).
Proof.
  assert (R : meteoStation all_icons sample_data (at_latitude 45) no_user_options
                (decoded_as west_wind_observation)
              = (Ok tt, snd (meteoStation all_icons sample_data (at_latitude 45)
                               no_user_options (decoded_as west_wind_observation))))
    by (vm_compute; reflexivity).
  assert (D : JS.is_nullish (awaited sample_data (decoded_as west_wind_observation)) = false)
    by (vm_compute; reflexivity).
  exact (proj1 (proj2 (symbol_grid all_icons sample_data (at_latitude 45) no_user_options
                         (decoded_as west_wind_observation) _ R D))
           6%nat ltac:(lia)).
Defined.
